(** * FinWell: analysis-and-decision pipeline

    Shallow embedding of the scoring code of
    [agents/analysis_agent.py], [agents/risk_agent.py] and
    [tools/technical_analysis.py].

    Numbers.  Python [int] scores are [Z].  Python [float]s are read in
    two ways.  The universally quantified results are stated over exact
    rationals [Q] (no rounding).  The recommendation synthesizer, which
    is plain Python arithmetic with no numpy in between, is written once
    over a small arithmetic interface and is also run over IEEE-754
    binary64 ([spec_float] with 53 bits of precision), so that concrete
    scenarios can be evaluated bit for bit. *)

From Stdlib Require Import ZArith QArith Qabs Qminmax Qround Lqa Sorted Lia List String Ascii Bool.
From Stdlib Require Import SpecFloat.
From stdpp Require Import gmap strings list fin_maps.
Import ListNotations.

Local Open Scope Z_scope.
Local Open Scope Q_scope.

(** ** Exceptions and results *)

(** The built-in exceptions the modelled code can raise. *)
Inductive exn : Type :=
| TypeError | AttributeError | UnboundLocalError
| ZeroDivisionError | ValueError | IndexError.

(** A Python call either returns or raises. *)
Inductive result (A : Type) : Type :=
| Ok (a : A)
| Raise (e : exn).
Arguments Ok {A} a.
Arguments Raise {A} e.

#[global] Instance result_bind : MBind result := fun A B k r =>
  match r with
  | Ok a => k a
  | Raise e => Raise e
  end.

(** ** Arithmetic interface *)

(** The operations of Python numbers the synthesizer uses.  [lit n d] is
    the decimal literal [n/d]; [ltb] and [leb] are [<] and [<=]. *)
Class Arith (F : Type) : Type := {
  of_Z : Z -> F;
  lit : Z -> positive -> F;
  add : F -> F -> F;
  sub : F -> F -> F;
  mul : F -> F -> F;
  div : F -> F -> F;
  ltb : F -> F -> bool;
  leb : F -> F -> bool
}.

Definition Qltb (x y : Q) : bool := negb (Qle_bool y x).

(** Exact rational arithmetic. *)
#[global] Instance Q_arith : Arith Q := {
  of_Z := fun z => z # 1;
  lit := Qmake;
  add := Qplus;
  sub := Qminus;
  mul := Qmult;
  div := Qdiv;
  ltb := Qltb;
  leb := Qle_bool
}.

(** IEEE-754 binary64, round to nearest even: the format of a Python
    [float].  A decimal literal is the correctly rounded quotient of two
    exactly representable integers. *)
Definition b64_of_Z (z : Z) : spec_float := binary_normalize 53 1024 z 0 false.

#[global] Instance b64_arith : Arith spec_float := {
  of_Z := b64_of_Z;
  lit := fun n d => SFdiv 53 1024 (b64_of_Z n) (b64_of_Z (Zpos d));
  add := SFadd 53 1024;
  sub := SFsub 53 1024;
  mul := SFmul 53 1024;
  div := SFdiv 53 1024;
  ltb := SFltb;
  leb := SFleb
}.

(** ** Python built-ins *)

Section Builtins.
Context {F : Type} `{Arith F}.

(** [max(a, b)]: the first argument unless the second is greater. *)
Definition py_max (a b : F) : F := if ltb a b then b else a.

(** [min(a, b)]: the first argument unless the second is smaller. *)
Definition py_min (a b : F) : F := if ltb b a then b else a.

(** [sum(xs)]: left to right, starting from the integer 0.  (From
    CPython 3.12 on, [sum] compensates the rounding errors of float
    additions; on two summands, and over [Q], that is the same.) *)
Definition py_sum (xs : list F) : F := fold_left add xs (of_Z 0).

End Builtins.

(** ** numpy and pandas floats *)

(** A float64 as numpy and pandas see it: a finite value (here an exact
    rational), an infinity or NaN.  Zero carries no sign, and a zero
    divisor is read as +0.  The one zero that pandas can produce with a
    minus sign is the average loss of [calculate_rsi]; there both signs
    end in the same RSI. *)
Inductive fval : Type := Fin (q : Q) | PInf | NInf | NaN.

Definition np_neg (x : fval) : fval :=
  match x with
  | Fin a => Fin (- a)
  | PInf => NInf
  | NInf => PInf
  | NaN => NaN
  end.

Definition np_add (x y : fval) : fval :=
  match x, y with
  | NaN, _ | _, NaN => NaN
  | Fin a, Fin b => Fin (a + b)
  | PInf, NInf | NInf, PInf => NaN
  | PInf, _ | _, PInf => PInf
  | NInf, _ | _, NInf => NInf
  end.

Definition np_sub (x y : fval) : fval := np_add x (np_neg y).

Definition np_mul (x y : fval) : fval :=
  match x, y with
  | NaN, _ | _, NaN => NaN
  | Fin a, Fin b => Fin (a * b)
  | Fin a, PInf | PInf, Fin a =>
      if Qeq_bool a 0 then NaN else if Qltb a 0 then NInf else PInf
  | Fin a, NInf | NInf, Fin a =>
      if Qeq_bool a 0 then NaN else if Qltb a 0 then PInf else NInf
  | PInf, PInf | NInf, NInf => PInf
  | PInf, NInf | NInf, PInf => NInf
  end.

(** Division as numpy does it: no exception, [x/0] is an infinity and
    [0/0] is NaN. *)
Definition np_div (x y : fval) : fval :=
  match x, y with
  | NaN, _ | _, NaN => NaN
  | Fin a, Fin b =>
      if Qeq_bool b 0
      then if Qeq_bool a 0 then NaN else if Qltb a 0 then NInf else PInf
      else Fin (a / b)
  | Fin _, (PInf | NInf) => Fin 0
  | PInf, Fin b => if Qltb b 0 then NInf else PInf
  | NInf, Fin b => if Qltb b 0 then PInf else NInf
  | (PInf | NInf), (PInf | NInf) => NaN
  end.

(** [x < y]; false as soon as one side is NaN. *)
Definition f_ltb (x y : fval) : bool :=
  match x, y with
  | NaN, _ | _, NaN => false
  | Fin a, Fin b => Qltb a b
  | NInf, (Fin _ | PInf) => true
  | Fin _, PInf => true
  | _, _ => false
  end.

(** [x <= y]; false as soon as one side is NaN. *)
Definition f_leb (x y : fval) : bool :=
  match x, y with
  | NaN, _ | _, NaN => false
  | Fin a, Fin b => Qle_bool a b
  | NInf, _ | _, PInf => true
  | _, _ => false
  end.

Definition f_abs (x : fval) : fval :=
  match x with
  | Fin a => Fin (Qabs a)
  | PInf | NInf => PInf
  | NaN => NaN
  end.

Definition is_nan (x : fval) : bool :=
  match x with NaN => true | _ => false end.

(** A pandas float64 Series, oldest value first. *)
Definition Series : Type := list fval.

(** [s.iloc[-1]] *)
Definition iloc_last {A : Type} (s : list A) : result A :=
  match last s with
  | Some x => Ok x
  | None => Raise IndexError
  end.

(** [s.tail(n)] *)
Definition tail {A : Type} (n : nat) (s : list A) : list A :=
  drop (length s - n) s.

(** The non-empty prefixes of a series, shortest first: the windows an
    expanding computation sees. *)
Fixpoint prefixes {A : Type} (s : list A) : list (list A) :=
  match s with
  | [] => []
  | x :: s' => [x] :: map (cons x) (prefixes s')
  end.

Definition series_sum (s : Series) : fval := fold_left np_add s (Fin 0).

Definition series_mean (s : Series) : fval :=
  np_div (series_sum s) (Fin (inject_Z (Z.of_nat (length s)))).

(** [s.rolling(window=w)] followed by an aggregate: NaN until the
    window holds [w] observations, none of them NaN. *)
Definition rolling (w : nat) (agg : Series -> fval) (s : Series) : Series :=
  map (fun p =>
         if (w <=? length p)%nat && negb (existsb is_nan (tail w p))
         then agg (tail w p) else NaN)
      (prefixes s).

(** [s.diff()] *)
Definition diff (s : Series) : Series :=
  match s with
  | [] => []
  | _ :: s' => NaN :: zip_with (fun prev cur => np_sub cur prev) s s'
  end.

(** [s.pct_change()] *)
Definition pct_change (s : Series) : Series :=
  match s with
  | [] => []
  | _ :: s' =>
      NaN :: zip_with (fun prev cur => np_sub (np_div cur prev) (Fin 1)) s s'
  end.

(** [s.where(cond, other)] *)
Definition series_where (cond : fval -> bool) (other : fval) (s : Series)
  : Series :=
  map (fun x => if cond x then x else other) s.

(** [s.ewm(span=span).mean()], with the default [adjust=True]: the
    average of all values so far, weighted by powers of [1 - alpha],
    [alpha = 2/(span+1)]. *)
Definition ewm_mean (span : Z) (s : Series) : Series :=
  let decay := Fin (1 - 2 / (inject_Z span + 1)) in
  let step (st : fval * fval * Series) (x : fval) :=
    let '(num, den, out) := st in
    let num := np_add x (np_mul decay num) in
    let den := np_add (Fin 1) (np_mul decay den) in
    (num, den, out ++ [np_div num den]) in
  snd (fold_left step s (Fin 0, Fin 0, [])).

(** [s.max()] and [s.min()], which skip NaN. *)
Definition series_max (s : Series) : fval :=
  fold_left (fun m x => if is_nan m then x
                        else if f_ltb m x then x else m) s NaN.

Definition series_min (s : Series) : fval :=
  fold_left (fun m x => if is_nan m then x
                        else if f_ltb x m then x else m) s NaN.

(** ** Python values and operators *)

(** A Python value that is [None] or a float, such as the results of
    [convert_to_native_type] and of [info.get(...)]. *)
Definition pyval : Type := option fval.

Definition convert_to_native_type (x : fval) : pyval :=
  if is_nan x then None else Some x.

Definition py_num (q : Q) : pyval := Some (Fin q).

(** Truth value of [None] or a float. *)
Definition py_truthy (v : pyval) : bool :=
  match v with
  | None => false
  | Some (Fin q) => negb (Qeq_bool q 0)
  | Some _ => true
  end.

(** [a < b] and [a > b]: comparing with [None] raises TypeError. *)
Definition py_lt (a b : pyval) : result bool :=
  match a, b with
  | Some x, Some y => Ok (f_ltb x y)
  | _, _ => Raise TypeError
  end.

Definition py_gt (a b : pyval) : result bool := py_lt b a.

Definition py_sub (a b : pyval) : result pyval :=
  match a, b with
  | Some x, Some y => Ok (Some (np_sub x y))
  | _, _ => Raise TypeError
  end.

Definition py_mul (a b : pyval) : result pyval :=
  match a, b with
  | Some x, Some y => Ok (Some (np_mul x y))
  | _, _ => Raise TypeError
  end.

(** [a / b] on Python floats: a zero divisor raises. *)
Definition py_div (a b : pyval) : result pyval :=
  match a, b with
  | Some x, Some (Fin d) =>
      if Qeq_bool d 0 then Raise ZeroDivisionError
      else Ok (Some (np_div x (Fin d)))
  | Some x, Some y => Ok (Some (np_div x y))
  | _, _ => Raise TypeError
  end.

(** [s.iloc[-i]] for [i >= 1]. *)
Definition iloc_neg {A : Type} (i : nat) (s : list A) : result A :=
  if (i <=? length s)%nat
  then match s !! (length s - i)%nat with
       | Some x => Ok x
       | None => Raise IndexError
       end
  else Raise IndexError.

Definition lower_ascii (c : ascii) : ascii :=
  let n := nat_of_ascii c in
  if (65 <=? n)%nat && (n <=? 90)%nat then ascii_of_nat (n + 32) else c.

(** [s.lower()] *)
Fixpoint lower (s : string) : string :=
  match s with
  | EmptyString => EmptyString
  | String c s' => String (lower_ascii c) (lower s')
  end.

(** [needle in hay] on strings. *)
Fixpoint contains (needle hay : string) : bool :=
  String.prefix needle hay ||
  match hay with
  | EmptyString => false
  | String _ hay' => contains needle hay'
  end.

(** ** Indicator engine ([tools/technical_analysis.py]) *)

(** One row of the price history. *)
Record PriceBar : Type := {
  date : string;
  open : Q;
  high : Q;
  low : Q;
  close : Q;
  volume : Q
}.

(** [df[col]] *)
Definition column (col : PriceBar -> Q) (df : list PriceBar) : Series :=
  map (fun bar => Fin (col bar)) df.

Record MovingAverages : Type := {
  sma_20 : pyval;
  sma_50 : pyval;
  sma_200 : pyval;
  ema_12 : pyval;
  ema_26 : pyval;
  ma_signals : list string
}.

Record Rsi : Type := {
  current_rsi : pyval;
  rsi_signals : list string;
  interpretation : string
}.

Record Macd : Type := {
  macd_line : pyval;
  signal_line : pyval;
  histogram : pyval;
  macd_signals : list string
}.

Record Bollinger : Type := {
  upper_band : pyval;
  middle_band : pyval;
  lower_band : pyval;
  bb_current_price : pyval;
  band_position : pyval;
  bb_signals : list string
}.

Record SupportResistance : Type := {
  resistance_level : pyval;
  support_level : pyval;
  sr_current_price : pyval;
  distance_to_resistance_pct : pyval;
  distance_to_support_pct : pyval;
  sr_signals : list string
}.

Record VolumeAnalysis : Type := {
  current_volume : pyval;
  average_volume : pyval;
  volume_ratio : pyval;
  vol_signals : list string
}.

(** The [indicators] dict of [analyze_stock], in insertion order. *)
Record Indicators : Type := {
  moving_averages : MovingAverages;
  rsi : Rsi;
  macd : Macd;
  bollinger_bands : Bollinger;
  support_resistance : SupportResistance;
  volume_analysis : VolumeAnalysis
}.

Inductive Signal : Type := BULLISH | BEARISH | NEUTRAL.

Definition signal_eqb (a b : Signal) : bool :=
  match a, b with
  | BULLISH, BULLISH | BEARISH, BEARISH | NEUTRAL, NEUTRAL => true
  | _, _ => false
  end.

Record TradingSignals : Type := {
  overall_signal : Signal;
  ts_confidence : Q;
  bullish_indicators : nat;
  bearish_indicators : nat;
  ts_recommendation : string
}.

(** Why [analyze_stock] returned an [{"error": ...}] dict. *)
Inductive AnalysisError : Type :=
| UpstreamError (msg : string)
| NoHistoricalData
| AnalysisFailed (e : exn).

(** What [analyze_stock] returns; the [summary] text is formatting
    only and is left out. *)
Inductive TechData : Type :=
| TechError (err : AnalysisError)
| TechReport (current_price : pyval) (technical_indicators : Indicators)
             (trading_signals : TradingSignals).

(** What the data tool hands to [analyze_stock]. *)
Inductive StockData : Type :=
| StockError (msg : string)
| StockOk (historical_data : list PriceBar) (stock_current_price : pyval).

Definition calculate_moving_averages (df : list PriceBar)
  : result MovingAverages :=
  let close_prices := column close df in
  s20 ← iloc_last (rolling 20 series_mean close_prices);
  s50 ← iloc_last (rolling 50 series_mean close_prices);
  s200 ← iloc_last (rolling 200 series_mean close_prices);
  e12 ← iloc_last (ewm_mean 12 close_prices);
  e26 ← iloc_last (ewm_mean 26 close_prices);
  let sma_20 := convert_to_native_type s20 in
  let sma_50 := convert_to_native_type s50 in
  let sma_200 := convert_to_native_type s200 in
  last_close ← iloc_last close_prices;
  let current_price := convert_to_native_type last_close in
  signals ←
    (if py_truthy sma_20 then
       above ← py_gt current_price sma_20;
       if above : bool then Ok ["Price above 20-day SMA (bullish)"%string]
       else
         below ← py_lt current_price sma_20;
         if below : bool then Ok ["Price below 20-day SMA (bearish)"%string]
         else Ok []
     else Ok []);
  signals ←
    (if py_truthy sma_50 && py_truthy sma_200 then
       golden ← py_gt sma_50 sma_200;
       if golden : bool
       then Ok (signals ++
                ["Golden Cross: 50-day SMA above 200-day SMA (bullish)"%string])
       else Ok (signals ++
                ["Death Cross: 50-day SMA below 200-day SMA (bearish)"%string])
     else Ok signals);
  Ok {| sma_20 := sma_20; sma_50 := sma_50; sma_200 := sma_200;
        ema_12 := convert_to_native_type e12;
        ema_26 := convert_to_native_type e26;
        ma_signals := signals |}.

(** The [gain] and [loss] series of [calculate_rsi]. *)
Definition rsi_gain (period : nat) (close_prices : Series) : Series :=
  let delta := diff close_prices in
  rolling period series_mean
    (series_where (fun d => f_ltb (Fin 0) d) (Fin 0) delta).

Definition rsi_loss (period : nat) (close_prices : Series) : Series :=
  let delta := diff close_prices in
  rolling period series_mean
    (map np_neg (series_where (fun d => f_ltb d (Fin 0)) (Fin 0) delta)).

(** The [rsi] series of [calculate_rsi]. *)
Definition rsi_series (period : nat) (close_prices : Series) : Series :=
  let gain := rsi_gain period close_prices in
  let loss := rsi_loss period close_prices in
  let rs := zip_with np_div gain loss in
  map (fun r => np_sub (Fin 100) (np_div (Fin 100) (np_add (Fin 1) r))) rs.

Definition calculate_rsi (df : list PriceBar) : result Rsi :=
  let period := 14%nat in
  let close_prices := column close df in
  last_rsi ← iloc_last (rsi_series period close_prices);
  let current_rsi := convert_to_native_type last_rsi in
  overbought ← py_gt current_rsi (py_num 70);
  signals ←
    (if overbought : bool
     then Ok ["RSI indicates overbought condition"%string]
     else
       oversold ← py_lt current_rsi (py_num 30);
       if oversold : bool
       then Ok ["RSI indicates oversold condition"%string]
       else Ok ["RSI in neutral range"%string]);
  overbought ← py_gt current_rsi (py_num 70);
  interpretation ←
    (if overbought : bool then Ok "overbought"%string
     else
       oversold ← py_lt current_rsi (py_num 30);
       if oversold : bool then Ok "oversold"%string else Ok "neutral"%string);
  Ok {| current_rsi := current_rsi;
        rsi_signals := signals;
        interpretation := interpretation |}.

Definition calculate_macd (df : list PriceBar) : result Macd :=
  let close_prices := column close df in
  let ema_12 := ewm_mean 12 close_prices in
  let ema_26 := ewm_mean 26 close_prices in
  let macd_line := zip_with np_sub ema_12 ema_26 in
  let signal_line := ewm_mean 9 macd_line in
  let histogram := zip_with np_sub macd_line signal_line in
  m ← iloc_last macd_line;
  sl ← iloc_last signal_line;
  h ← iloc_last histogram;
  let current_macd := convert_to_native_type m in
  let current_signal := convert_to_native_type sl in
  let current_histogram := convert_to_native_type h in
  above ← py_gt current_macd current_signal;
  let signals :=
    if above : bool then ["MACD above signal line (bullish)"%string]
    else ["MACD below signal line (bearish)"%string] in
  signals ←
    (if (1 <? length histogram)%nat then
       prev ← iloc_neg 2 histogram;
       rising ← py_gt current_histogram (convert_to_native_type prev);
       if rising : bool
       then Ok (signals ++
                ["MACD histogram increasing (momentum building)"%string])
       else Ok (signals ++
                ["MACD histogram decreasing (momentum weakening)"%string])
     else Ok signals);
  Ok {| macd_line := current_macd;
        signal_line := current_signal;
        histogram := current_histogram;
        macd_signals := signals |}.

Section WithSqrt.

(** [np.sqrt] on non-negative finite values.  It is irrational in
    general, so it is a parameter of the embedding. *)
Variable np_sqrt : Q -> Q.

Definition f_sqrt (x : fval) : fval :=
  match x with
  | Fin a => if Qltb a 0 then NaN else Fin (np_sqrt a)
  | PInf => PInf
  | NInf | NaN => NaN
  end.

(** Sample standard deviation of a window ([ddof=1], the pandas
    default). *)
Definition series_std (s : Series) : fval :=
  let m := series_mean s in
  let sq := map (fun x => np_mul (np_sub x m) (np_sub x m)) s in
  f_sqrt (np_div (series_sum sq)
                 (Fin (inject_Z (Z.of_nat (length s)) - 1))).

Definition calculate_bollinger_bands (df : list PriceBar) : result Bollinger :=
  let period := 20%nat in
  let std_dev := Fin 2 in
  let close_prices := column close df in
  let sma := rolling period series_mean close_prices in
  let std := rolling period series_std close_prices in
  let upper_band :=
    zip_with np_add sma (map (fun x => np_mul x std_dev) std) in
  let lower_band :=
    zip_with np_sub sma (map (fun x => np_mul x std_dev) std) in
  p ← iloc_last close_prices;
  u ← iloc_last upper_band;
  l ← iloc_last lower_band;
  m ← iloc_last sma;
  let current_price := convert_to_native_type p in
  let current_upper := convert_to_native_type u in
  let current_lower := convert_to_native_type l in
  let current_middle := convert_to_native_type m in
  band_width ← py_sub current_upper current_lower;
  wide ← py_gt band_width (py_num 0);
  position ←
    (if wide : bool then
       above_lower ← py_sub current_price current_lower;
       py_div above_lower band_width
     else Ok (py_num (1 # 2)));
  over ← py_gt current_price current_upper;
  signals ←
    (if over : bool
     then Ok ["Price above upper Bollinger Band (potentially overbought)"%string]
     else
       under ← py_lt current_price current_lower;
       if under : bool
       then Ok ["Price below lower Bollinger Band (potentially oversold)"%string]
       else Ok ["Price within Bollinger Bands (normal range)"%string]);
  Ok {| upper_band := current_upper;
        middle_band := current_middle;
        lower_band := current_lower;
        bb_current_price := current_price;
        band_position := position;
        bb_signals := signals |}.

Definition find_support_resistance (df : list PriceBar)
  : result SupportResistance :=
  let high_prices := column high df in
  let low_prices := column low df in
  let close_prices := column close df in
  let recent_high := convert_to_native_type (series_max (tail 20 high_prices)) in
  let recent_low := convert_to_native_type (series_min (tail 20 low_prices)) in
  p ← iloc_last close_prices;
  let current_price := convert_to_native_type p in
  up ← py_sub recent_high current_price;
  up ← py_div up current_price;
  resistance_distance ← py_mul up (py_num 100);
  down ← py_sub current_price recent_low;
  down ← py_div down current_price;
  support_distance ← py_mul down (py_num 100);
  near_resistance ← py_lt resistance_distance (py_num 2);
  let signals :=
    if near_resistance : bool then ["Price near resistance level"%string]
    else [] in
  near_support ← py_lt support_distance (py_num 2);
  let signals :=
    if near_support : bool then signals ++ ["Price near support level"%string]
    else signals in
  Ok {| resistance_level := recent_high;
        support_level := recent_low;
        sr_current_price := current_price;
        distance_to_resistance_pct := resistance_distance;
        distance_to_support_pct := support_distance;
        sr_signals := signals |}.

Definition analyze_volume (df : list PriceBar) : result VolumeAnalysis :=
  let volume := column volume df in
  let close_prices := column close df in
  a ← iloc_last (rolling 20 series_mean volume);
  let avg_volume := convert_to_native_type a in
  v ← iloc_last volume;
  let current_volume := convert_to_native_type v in
  traded ← py_gt avg_volume (py_num 0);
  volume_ratio ←
    (if traded : bool then py_div current_volume avg_volume
     else Ok (py_num 1));
  c ← iloc_last (pct_change close_prices);
  let price_change := convert_to_native_type c in
  heavy ← py_gt volume_ratio (py_num (15 # 10));
  signals ←
    (if heavy : bool then
       rising ← py_gt price_change (py_num 0);
       if rising : bool
       then Ok ["High volume activity"%string;
                "High volume with price increase (bullish)"%string]
       else Ok ["High volume activity"%string;
                "High volume with price decrease (bearish)"%string]
     else
       light ← py_lt volume_ratio (py_num (5 # 10));
       if light : bool then Ok ["Low volume activity"%string] else Ok []);
  Ok {| current_volume := current_volume;
        average_volume := avg_volume;
        volume_ratio := volume_ratio;
        vol_signals := signals |}.

Definition get_recommendation (signal : Signal) (confidence : Q) : string :=
  match signal with
  | BULLISH =>
      if Qltb (7 # 10) confidence then "STRONG BUY"
      else if Qltb (6 # 10) confidence then "BUY" else "HOLD"
  | BEARISH =>
      if Qltb (7 # 10) confidence then "STRONG SELL"
      else if Qltb (6 # 10) confidence then "SELL" else "HOLD"
  | NEUTRAL => "HOLD"
  end.

Definition bullish_words : list string :=
  ["bullish"; "above"; "increasing"; "oversold"]%string.

Definition bearish_words : list string :=
  ["bearish"; "below"; "decreasing"; "overbought"]%string.

(** One turn of the inner loop of [generate_signals]. *)
Definition tally (counts : nat * nat) (signal : string) : nat * nat :=
  let '(bullish_signals, bearish_signals) := counts in
  let signal_lower := lower signal in
  if existsb (fun word => contains word signal_lower) bullish_words
  then (S bullish_signals, bearish_signals)
  else if existsb (fun word => contains word signal_lower) bearish_words
  then (bullish_signals, S bearish_signals)
  else counts.

Definition generate_signals (indicators : Indicators) : TradingSignals :=
  let all_signals :=
    ma_signals (moving_averages indicators) ++
    rsi_signals (rsi indicators) ++
    macd_signals (macd indicators) ++
    bb_signals (bollinger_bands indicators) ++
    sr_signals (support_resistance indicators) ++
    vol_signals (volume_analysis indicators) in
  let '(bullish_signals, bearish_signals) :=
    fold_left tally all_signals (0%nat, 0%nat) in
  let share (n : nat) : Q :=
    inject_Z (Z.of_nat n)
    / inject_Z (Z.of_nat (bullish_signals + bearish_signals)) in
  let '(overall_signal, confidence) :=
    if (bearish_signals <? bullish_signals)%nat
    then (BULLISH, py_min (share bullish_signals) 1)
    else if (bullish_signals <? bearish_signals)%nat
    then (BEARISH, py_min (share bearish_signals) 1)
    else (NEUTRAL, 1 # 2) in
  {| overall_signal := overall_signal;
     ts_confidence := confidence;
     bullish_indicators := bullish_signals;
     bearish_indicators := bearish_signals;
     ts_recommendation := get_recommendation overall_signal confidence |}.

(** [analyze_stock], given what the data tool returned for the symbol.
    Any exception raised while computing is caught and reported as an
    error dict. *)
Definition analyze_stock (stock_data : StockData) : TechData :=
  match stock_data with
  | StockError msg => TechError (UpstreamError msg)
  | StockOk hist_data price =>
      if (length hist_data =? 0)%nat then TechError NoHistoricalData
      else
        let body : result TechData :=
          ma ← calculate_moving_averages hist_data;
          r ← calculate_rsi hist_data;
          m ← calculate_macd hist_data;
          bb ← calculate_bollinger_bands hist_data;
          sr ← find_support_resistance hist_data;
          va ← analyze_volume hist_data;
          let indicators :=
            {| moving_averages := ma; rsi := r; macd := m;
               bollinger_bands := bb; support_resistance := sr;
               volume_analysis := va |} in
          Ok (TechReport (x ← price; convert_to_native_type x) indicators
                         (generate_signals indicators)) in
        match body with
        | Ok report => report
        | Raise e => TechError (AnalysisFailed e)
        end
  end.

End WithSqrt.

(** ** Fundamental scorer and market aggregator
       ([agents/analysis_agent.py]) *)

(** The parts of the [analysis] dict that the scorer reads.  Each
    metric comes from [info.get(...)]: [None] when unknown. *)
Record ValuationMetrics : Type := { pe_ratio : pyval }.

Record ProfitabilityMetrics : Type := {
  profit_margin : pyval;
  return_on_equity : pyval
}.

Record FinancialHealth : Type := {
  debt_to_equity : pyval;
  current_ratio : pyval
}.

(** A sub-dict may be missing; [analysis.get(key, {})] then yields a
    dict without metrics. *)
Record FundamentalAnalysis : Type := {
  valuation_metrics : option ValuationMetrics;
  profitability_metrics : option ProfitabilityMetrics;
  financial_health : option FinancialHealth
}.

(** [analysis.get(group, {}).get(metric)] *)
Definition get_metric {G : Type} (group : option G) (metric : G -> pyval)
  : pyval :=
  g ← group; metric g.

Definition calculate_fundamental_score (analysis : FundamentalAnalysis) : Z :=
  let score := 50%Z in
  let valuation := valuation_metrics analysis in
  let profitability := profitability_metrics analysis in
  let health := financial_health analysis in
  let pe_ratio := get_metric valuation pe_ratio in
  let score :=
    match pe_ratio with
    | Some pe =>
        if py_truthy pe_ratio then
          if f_leb (Fin 10) pe && f_leb pe (Fin 20) then (score + 10)%Z
          else if f_ltb pe (Fin 10) || f_ltb (Fin 30) pe then (score - 10)%Z
          else score
        else score
    | None => score
    end in
  let roe := get_metric profitability return_on_equity in
  let score :=
    match roe with
    | Some r =>
        if py_truthy roe && f_ltb (Fin (15 # 100)) r then (score + 15)%Z
        else if py_truthy roe && f_ltb r (Fin (5 # 100)) then (score - 15)%Z
        else score
    | None => score
    end in
  let profit_margin := get_metric profitability profit_margin in
  let score :=
    match profit_margin with
    | Some pm =>
        if py_truthy profit_margin && f_ltb (Fin (1 # 10)) pm
        then (score + 10)%Z
        else if py_truthy profit_margin && f_ltb pm (Fin 0)
        then (score - 20)%Z
        else score
    | None => score
    end in
  let debt_to_equity := get_metric health debt_to_equity in
  let score :=
    match debt_to_equity with
    | Some de =>
        if py_truthy debt_to_equity && f_ltb de (Fin (5 # 10))
        then (score + 10)%Z
        else if py_truthy debt_to_equity && f_ltb (Fin 2) de
        then (score - 15)%Z
        else score
    | None => score
    end in
  let current_ratio := get_metric health current_ratio in
  let score :=
    match current_ratio with
    | Some cr =>
        if py_truthy current_ratio && f_ltb (Fin (15 # 10)) cr
        then (score + 5)%Z
        else if py_truthy current_ratio && f_ltb cr (Fin 1)
        then (score - 10)%Z
        else score
    | None => score
    end in
  Z.max 0 (Z.min 100 score).

(** An entry of the market overview: [{"error": ...}] or the index
    figures. *)
Record IndexEntry : Type := {
  index_error : option string;
  change_percent : option Q
}.

(** [market_indices] is a Python value of unchecked type.  The data
    agent passes the dict of [get_market_overview], index name to
    entry; the loop body is written for a list of entries. *)
Inductive MarketIndices : Type :=
| IndicesDict (d : list (string * IndexEntry))
| IndicesList (l : list IndexEntry).

Record SectorEntry : Type := {
  etf_symbol : string;
  price_change_percent : option Q
}.

Record MarketData : Type := {
  market_indices : MarketIndices;
  sector_performance : list (string * SectorEntry)
}.

Record MarketAnalysis : Type := {
  market_trend : string;
  market_sentiment : string;
  sector_trends : list (string * string);
  leading_sectors : list string;
  lagging_sectors : list string
}.

(** The dict returned by [analyze_market_trends]: the analysis with
    status "success", or the error with status "failed". *)
Inductive MarketOutcome : Type :=
| MarketSuccess (analysis : MarketAnalysis)
| MarketFailed (e : exn).

Definition status (o : MarketOutcome) : string :=
  match o with
  | MarketSuccess _ => "success"
  | MarketFailed _ => "failed"
  end.

(** What [for index_data in market_indices] binds: the keys of a dict,
    the elements of a list. *)
Definition iterate (m : MarketIndices) : list (string + IndexEntry) :=
  match m with
  | IndicesDict d => map (fun kv => inl (fst kv)) d
  | IndicesList l => map inr l
  end.

(** One turn of the loop over the indices; the state is
    [(positive_indices, total_indices)]. *)
Definition count_index (st : Z * Z) (index_data : string + IndexEntry)
  : result (Z * Z) :=
  let '(positive_indices, total_indices) := st in
  match index_data with
  | inl key =>
      (* [in] is a substring test; a [str] has no [get] *)
      if negb (contains "error" key) then Raise AttributeError else Ok st
  | inr entry =>
      match index_error entry with
      | None =>
          let total_indices := (total_indices + 1)%Z in
          if Qltb 0 (default 0 (change_percent entry))
          then Ok ((positive_indices + 1)%Z, total_indices)
          else Ok (positive_indices, total_indices)
      | Some _ => Ok st
      end
  end.

Fixpoint for_each {S X : Type} (body : S -> X -> result S) (xs : list X)
    (st : S) : result S :=
  match xs with
  | [] => Ok st
  | x :: xs' => st' ← body st x; for_each body xs' st'
  end.

Definition change_of (item : string * SectorEntry) : Q :=
  default 0 (price_change_percent (snd item)).

(** [list.sort] is stable, also with [reverse=True]. *)
Fixpoint insert_by (before : Q -> Q -> bool) (x : string * Q)
    (l : list (string * Q)) : list (string * Q) :=
  match l with
  | [] => [x]
  | y :: l' =>
      if before (snd y) (snd x) then y :: insert_by before x l'
      else x :: l
  end.

Definition sort_by (before : Q -> Q -> bool) (l : list (string * Q))
  : list (string * Q) :=
  fold_right (insert_by before) [] l.

Definition get_leading_sectors (sector_performance : list (string * SectorEntry))
  : list string :=
  let sectors := map (fun it => (fst it, change_of it)) sector_performance in
  map fst (take 3 (sort_by (fun a b => Qltb b a) sectors)).

Definition get_lagging_sectors (sector_performance : list (string * SectorEntry))
  : list string :=
  let sectors := map (fun it => (fst it, change_of it)) sector_performance in
  map fst (take 3 (sort_by Qltb sectors)).

Definition sector_trend (change_pct : Q) : string :=
  if Qltb 2 change_pct then "strong_positive"
  else if Qltb 0 change_pct then "positive"
  else if Qltb (-2) change_pct then "neutral"
  else "negative".

Definition analyze_market_trends (market_data : MarketData) : MarketOutcome :=
  let body : result MarketAnalysis :=
    let market_trend := "neutral"%string in
    '(positive_indices, total_indices) ←
      for_each count_index (iterate (market_indices market_data)) (0%Z, 0%Z);
    (* [positive_ratio] is bound only when an index was counted *)
    let positive_ratio : option Q :=
      if (0 <? total_indices)%Z
      then Some (inject_Z positive_indices / inject_Z total_indices)
      else None in
    let market_trend :=
      match positive_ratio with
      | Some ratio =>
          if Qltb (6 # 10) ratio then "bullish"%string
          else if Qltb ratio (4 # 10) then "bearish"%string
          else market_trend
      | None => market_trend
      end in
    let sector_trends :=
      map (fun it => (fst it, sector_trend (change_of it)))
          (sector_performance market_data) in
    match positive_ratio with
    | None => Raise UnboundLocalError
    | Some ratio =>
        Ok {| market_trend := market_trend;
              market_sentiment :=
                if Qltb (5 # 10) ratio then "bullish" else "bearish";
              sector_trends := sector_trends;
              leading_sectors :=
                get_leading_sectors (sector_performance market_data);
              lagging_sectors :=
                get_lagging_sectors (sector_performance market_data) |}
    end in
  match body with
  | Ok analysis => MarketSuccess analysis
  | Raise e => MarketFailed e
  end.

(** ** Recommendation synthesizer ([agents/risk_agent.py]) *)

Inductive Action : Type := STRONG_BUY | BUY | HOLD | SELL | STRONG_SELL.

(** Position of an action in the order
    STRONG_SELL < SELL < HOLD < BUY < STRONG_BUY. *)
Definition action_rank (a : Action) : nat :=
  match a with
  | STRONG_SELL => 0
  | SELL => 1
  | HOLD => 2
  | BUY => 3
  | STRONG_BUY => 4
  end.

(** The dict returned by [generate_stock_recommendation]; the
    [reasoning] text is formatting only and is left out. *)
Record StockRecommendation (F : Type) : Type := {
  action : Action;
  confidence : F;
  time_horizon : string
}.
Arguments action {F} _.
Arguments confidence {F} _.
Arguments time_horizon {F} _.

(** An entry of [recommendations] as built by
    [generate_investment_recommendations]: a full recommendation, or
    the [INSUFFICIENT_DATA] entry, which has no position size.  Fields
    that the allocation never reads are left out. *)
Inductive Recommendation (F : Type) : Type :=
| Rec (recommendation : Action) (rec_confidence : F) (position_size : F)
| InsufficientData (reason : string).
Arguments Rec {F} _ _ _.
Arguments InsufficientData {F} _.

(** The dict returned by [generate_portfolio_allocation].  A Python
    dict keeps insertion order, which fixes the order of [sum]. *)
Record PortfolioAllocation (F : Type) : Type := {
  stock_allocations : list (string * F);
  cash_allocation : F;
  total_invested : F
}.
Arguments stock_allocations {F} _.
Arguments cash_allocation {F} _.
Arguments total_invested {F} _.

(** [d[k] = v] on an insertion-ordered dict. *)
Fixpoint dict_set {V : Type} (k : string) (v : V) (d : list (string * V))
  : list (string * V) :=
  match d with
  | [] => [(k, v)]
  | (k', v') :: d' =>
      if String.eqb k k' then (k, v) :: d' else (k', v') :: dict_set k v d'
  end.

Section Synthesizer.
Context {F : Type} `{Arith F}.

(** The [combined_score] local of [generate_stock_recommendation]. *)
Definition combined_score (technical_signal : Signal)
    (technical_confidence fundamental_score risk_score : F) : F :=
  let tech_weight := lit 4 10 in
  let fund_weight := lit 4 10 in
  let risk_weight := lit 2 10 in
  let tech_score :=
    match technical_signal with
    | BULLISH => of_Z 80
    | BEARISH => of_Z 20
    | NEUTRAL => of_Z 50
    end in
  let tech_score := mul tech_score technical_confidence in
  let risk_adjusted_score := sub (of_Z 100) risk_score in
  add (add (mul tech_score tech_weight) (mul fundamental_score fund_weight))
      (mul risk_adjusted_score risk_weight).

Definition generate_stock_recommendation (technical_signal : Signal)
    (technical_confidence fundamental_score risk_score : F)
  : StockRecommendation F :=
  let combined_score :=
    combined_score technical_signal technical_confidence
                   fundamental_score risk_score in
  let '(action, time_horizon) :=
    if leb (of_Z 70) combined_score then (STRONG_BUY, "3-6 months"%string)
    else if leb (of_Z 60) combined_score then (BUY, "1-3 months"%string)
    else if leb (of_Z 40) combined_score then (HOLD, "Monitor"%string)
    else if leb (of_Z 30) combined_score then (SELL, "1-2 weeks"%string)
    else (STRONG_SELL, "Immediate"%string) in
  {| action := action;
     confidence := py_min (add technical_confidence (lit 2 10)) (of_Z 1);
     time_horizon := time_horizon |}.

Definition calculate_position_size (risk_score confidence : F) : F :=
  let base_size := of_Z 10 in
  let risk_multiplier :=
    py_max (lit 2 10) (div (sub (of_Z 100) risk_score) (of_Z 100)) in
  let confidence_multiplier := confidence in
  let position_size :=
    mul (mul base_size risk_multiplier) confidence_multiplier in
  py_min (py_max position_size (of_Z 1)) (of_Z 25).

(** One turn of the loop over [recommendations.items()]. *)
Definition allocation_step (st : list (string * F) * F)
    (item : string * Recommendation F) : list (string * F) * F :=
  let '(allocations, total_allocation) := st in
  match item with
  | (symbol, Rec (STRONG_BUY | BUY) _ position_size) =>
      (dict_set symbol position_size allocations,
       add total_allocation position_size)
  | _ => st
  end.

Definition generate_portfolio_allocation
    (recommendations : list (string * Recommendation F))
  : PortfolioAllocation F :=
  let '(allocations, total_allocation) :=
    fold_left allocation_step recommendations ([], of_Z 0) in
  let allocations :=
    if ltb (of_Z 100) total_allocation
    then map (fun '(symbol, a) =>
                (symbol, mul (div a total_allocation) (of_Z 100))) allocations
    else allocations in
  let cash_allocation :=
    py_max (of_Z 0) (sub (of_Z 100) (py_sum (map snd allocations))) in
  {| stock_allocations := allocations;
     cash_allocation := cash_allocation;
     total_invested := py_sum (map snd allocations) |}.

End Synthesizer.


(** ** Risk engine ([agents/risk_agent.py]) *)

(** A per-symbol dict of risk metrics.  [estimation_note] is the key
    that only the fallback estimator writes. *)
Record RiskMetrics : Type := {
  volatility_daily : Q;
  volatility_annualized : Q;
  var_95_percent : Q;
  var_99_percent : Q;
  max_drawdown : Q;
  sharpe_ratio : Q;
  beta : Q;
  risk_score : Q;
  estimation_note : option string
}.

Inductive RiskEntry : Type :=
| RiskError (msg : string)
| RiskOk (metrics : RiskMetrics).

(** The body of the loop of [_generate_fallback_risk_metrics];
    [tech_data] is [technical_analysis.get(symbol, {})], with [None]
    for the empty default. *)
Definition fallback_entry (tech_data : option TechData) : RiskEntry :=
  match tech_data with
  | Some (TechError _) => RiskError "No technical data available"
  | _ =>
      let '(technical_signal, confidence) :=
        match tech_data with
        | Some (TechReport _ _ trading_signals) =>
            (overall_signal trading_signals, ts_confidence trading_signals)
        | _ => (NEUTRAL, 5 # 10)
        end in
      let base_risk := 50 in
      let risk_score :=
        if signal_eqb technical_signal BULLISH && Qltb (7 # 10) confidence
        then 35
        else if signal_eqb technical_signal BEARISH && Qltb (7 # 10) confidence
        then 75
        else if Qltb confidence (3 # 10) then 65
        else base_risk in
      RiskOk {| volatility_daily := 2 # 100;
                volatility_annualized := 32 # 100;
                var_95_percent := - (3 # 100);
                var_99_percent := - (5 # 100);
                max_drawdown := - (15 # 100);
                sharpe_ratio := 8 # 10;
                beta := 11 # 10;
                risk_score := risk_score;
                estimation_note :=
                  Some "Risk metrics estimated from technical analysis due to limited historical data"%string |}
  end.

Definition _generate_fallback_risk_metrics (symbols : list string)
    (technical_analysis : gmap string TechData) : gmap string RiskEntry :=
  fold_left
    (fun risk_metrics symbol =>
       <[symbol := fallback_entry (technical_analysis !! symbol)]> risk_metrics)
    symbols ∅.

(** [np.maximum.accumulate(prices)] *)
Definition running_max (prices : list Q) : list Q :=
  match prices with
  | [] => []
  | p :: prices' =>
      snd (fold_left
             (fun '(peak, out) x =>
                let peak := if Qltb peak x then x else peak in
                (peak, out ++ [peak]))
             prices' (p, [p]))
  end.

(** [np.min] of an array: NaN if any element is NaN, and a ValueError
    on an empty array. *)
Definition np_min (xs : list fval) : result fval :=
  match xs with
  | [] => Raise ValueError
  | x :: xs' =>
      Ok (fold_left
            (fun m y => if is_nan m then m else if is_nan y then y
                        else if f_ltb y m then y else m)
            xs' x)
  end.

(** [np.diff(prices) / prices[:-1]] *)
Definition simple_returns (prices : list Q) : list fval :=
  zip_with (fun prev cur => np_div (Fin (cur - prev)) (Fin prev))
           prices (drop 1 prices).

Definition calculate_max_drawdown (prices : list Q) : result fval :=
  let peak := running_max prices in
  let drawdown :=
    zip_with (fun p pk => np_div (Fin (p - pk)) (Fin pk)) prices peak in
  np_min drawdown.

Section RiskScore.
Variable np_sqrt : Q -> Q.

(** [np.std(xs)]: population standard deviation. *)
Definition np_std (xs : list fval) : fval :=
  let m := series_mean xs in
  let sq := map (fun x => np_mul (np_sub x m) (np_sub x m)) xs in
  f_sqrt np_sqrt (series_mean sq).

(** Python's [min(a, 50)] on floats. *)
Definition cap_50 (a : fval) : fval := if f_ltb (Fin 50) a then Fin 50 else a.

Definition calculate_risk_score (returns : list fval) (prices : list Q)
  : result fval :=
  if (length returns =? 0)%nat then Ok (Fin 50)
  else
    let volatility := np_mul (np_std returns) (f_sqrt np_sqrt (Fin 252)) in
    dd ← calculate_max_drawdown prices;
    let max_dd := f_abs dd in
    let vol_score := cap_50 (np_mul volatility (Fin 100)) in
    let dd_score := cap_50 (np_mul max_dd (Fin 100)) in
    Ok (np_add vol_score dd_score).

End RiskScore.

(** A rational square root to twelve decimal places, used where a
    concrete [np_sqrt] is needed to run the code. *)
Definition sqrt_12 (x : Q) : Q :=
  Z.sqrt (Qnum x * 10 ^ 24 / Zpos (Qden x)) # 10 ^ 12.

(** ** Vocabulary of the statements *)

Definition is_buy (a : Action) : bool :=
  match a with
  | STRONG_BUY | BUY => true
  | _ => false
  end.

(** The BUY and STRONG_BUY symbols with their position sizes, in dict
    order. *)
Definition buy_items {F : Type} (recommendations : list (string * Recommendation F))
  : list (string * F) :=
  omap (fun item =>
          match item with
          | (symbol, Rec a _ position_size) =>
              if is_buy a then Some (symbol, position_size) else None
          | _ => None
          end) recommendations.

(** The sum of the entries of [stock_allocations]. *)
Definition allocated {F : Type} `{Arith F} (pa : PortfolioAllocation F) : F :=
  py_sum (map snd (stock_allocations pa)).

(** Eleven BUY recommendations, each with position size 10.0, as
    binary64 values. *)
Definition eleven_buys : list (string * Recommendation spec_float) :=
  map (fun symbol => (symbol, Rec BUY (b64_of_Z 1) (b64_of_Z 10)))
      ["AAPL"; "MSFT"; "GOOG"; "AMZN"; "META"; "NVDA";
       "TSLA"; "JPM"; "V"; "WMT"; "XOM"]%string.

(** Two BUY recommendations, of sizes 1.0 and 101.0, as binary64
    values. *)
Definition two_buys : list (string * Recommendation spec_float) :=
  [("AAPL", Rec BUY (b64_of_Z 1) (b64_of_Z 1));
   ("MSFT", Rec BUY (b64_of_Z 1) (b64_of_Z 101))]%string.

(** Scenario E: three BUY recommendations of size 20 and one HOLD. *)
Definition scenario_e : list (string * Recommendation Q) :=
  [("AAPL", Rec BUY (9 # 10) 20); ("MSFT", Rec STRONG_BUY 1 20);
   ("TSLA", Rec HOLD (7 # 10) 5); ("JPM", Rec BUY (8 # 10) 20)]%string.

(** The rules of the fundamental scorer as a table: the metric, the
    condition on its value and the adjustment. *)
Inductive Metric : Type := PE | ROE | Margin | DebtEquity | CurrentRatio.

Record Rule : Type := {
  rule_metric : Metric;
  rule_condition : fval -> bool;
  rule_delta : Z
}.

Definition score_rules : list Rule :=
  [ {| rule_metric := PE;
       rule_condition := fun x => f_leb (Fin 10) x && f_leb x (Fin 20);
       rule_delta := 10 |};
    {| rule_metric := PE;
       rule_condition := fun x => f_ltb x (Fin 10) || f_ltb (Fin 30) x;
       rule_delta := -10 |};
    {| rule_metric := ROE;
       rule_condition := fun x => f_ltb (Fin (15 # 100)) x;
       rule_delta := 15 |};
    {| rule_metric := ROE;
       rule_condition := fun x => f_ltb x (Fin (5 # 100));
       rule_delta := -15 |};
    {| rule_metric := Margin;
       rule_condition := fun x => f_ltb (Fin (1 # 10)) x;
       rule_delta := 10 |};
    {| rule_metric := Margin;
       rule_condition := fun x => f_ltb x (Fin 0);
       rule_delta := -20 |};
    {| rule_metric := DebtEquity;
       rule_condition := fun x => f_ltb x (Fin (5 # 10));
       rule_delta := 10 |};
    {| rule_metric := DebtEquity;
       rule_condition := fun x => f_ltb (Fin 2) x;
       rule_delta := -15 |};
    {| rule_metric := CurrentRatio;
       rule_condition := fun x => f_ltb (Fin (15 # 10)) x;
       rule_delta := 5 |};
    {| rule_metric := CurrentRatio;
       rule_condition := fun x => f_ltb x (Fin 1);
       rule_delta := -10 |} ].

Definition metric_value (a : FundamentalAnalysis) (m : Metric) : pyval :=
  match m with
  | PE => get_metric (valuation_metrics a) pe_ratio
  | ROE => get_metric (profitability_metrics a) return_on_equity
  | Margin => get_metric (profitability_metrics a) profit_margin
  | DebtEquity => get_metric (financial_health a) debt_to_equity
  | CurrentRatio => get_metric (financial_health a) current_ratio
  end.

(** A rule applies when its metric is a number other than zero (what
    Python takes as true) and its condition holds. *)
Definition rule_applies (a : FundamentalAnalysis) (r : Rule) : bool :=
  match metric_value a (rule_metric r) with
  | Some x => py_truthy (Some x) && rule_condition r x
  | None => false
  end.

Definition applied_deltas (a : FundamentalAnalysis) : Z :=
  fold_right Z.add 0%Z
    (map (fun r => if rule_applies a r then rule_delta r else 0%Z) score_rules).

(** Scenario C. *)
Definition scenario_c : FundamentalAnalysis :=
  {| valuation_metrics := Some {| pe_ratio := py_num 15 |};
     profitability_metrics :=
       Some {| profit_margin := py_num (12 # 100);
               return_on_equity := py_num (20 # 100) |};
     financial_health :=
       Some {| debt_to_equity := py_num (3 # 10);
               current_ratio := py_num 2 |} |}.

(** The market overview as the data agent passes it on: a dict from
    index name to entry. *)
Definition market_overview : MarketData :=
  {| market_indices :=
       IndicesDict
         [("S&P 500", {| index_error := None; change_percent := Some (12 # 10) |});
          ("Dow Jones", {| index_error := None; change_percent := Some (8 # 10) |});
          ("NASDAQ", {| index_error := None; change_percent := Some (15 # 10) |});
          ("Russell 2000", {| index_error := None; change_percent := Some (- (3 # 10)) |});
          ("VIX", {| index_error := None; change_percent := Some (- (21 # 10)) |})]%string;
     sector_performance :=
       [("Technology", {| etf_symbol := "XLK"; price_change_percent := Some (31 # 10) |});
        ("Energy", {| etf_symbol := "XLE"; price_change_percent := Some (- (12 # 10)) |})]%string |}.

(** The number of entries with a positive change. *)
Definition positive_count (l : list IndexEntry) : Z :=
  Z.of_nat (length (filter (fun e => Qltb 0 (default 0 (change_percent e)) = true) l)).

(** The running maximum after a first peak, by recursion on the
    prices. *)
Fixpoint peaks_from (peak : Q) (prices : list Q) : list Q :=
  match prices with
  | [] => []
  | x :: prices' =>
      let peak := if Qltb peak x then x else peak in
      peak :: peaks_from peak prices'
  end.

(** A finite value that is at most 0. *)
Definition nonpos_fin (x : fval) : Prop := exists d, x = Fin d /\ d <= 0.

(** The vocabulary of RSI on a list of closing prices: the price
    changes, their positive and negative parts (the first bar has no
    change and counts as 0), and the averages over the last 14. *)
Definition price_changes (closes : list Q) : list Q :=
  zip_with (fun prev cur => cur - prev) closes (drop 1 closes).

Definition price_gains (closes : list Q) : list Q :=
  match closes with
  | [] => []
  | _ :: _ => 0 :: map (fun d => if Qltb 0 d then d else 0)
                       (price_changes closes)
  end.

Definition price_losses (closes : list Q) : list Q :=
  match closes with
  | [] => []
  | _ :: _ => - 0 :: map (fun d => - (if Qltb d 0 then d else 0))
                         (price_changes closes)
  end.

Definition mean_Q (l : list Q) : Q :=
  fold_left Qplus l 0 / inject_Z (Z.of_nat (length l)).

Definition avg_gain (closes : list Q) : Q := mean_Q (tail 14 (price_gains closes)).

Definition avg_loss (closes : list Q) : Q := mean_Q (tail 14 (price_losses closes)).

(** The value [100 - 100 / (1 + rs)] at one bar. *)
Definition rsi_of (gain loss : fval) : fval :=
  np_sub (Fin 100) (np_div (Fin 100) (np_add (Fin 1) (np_div gain loss))).

(** [rsi.iloc[-1]] of [calculate_rsi]. *)
Definition last_rsi (df : list PriceBar) : result fval :=
  iloc_last (rsi_series 14 (column close df)).

(** A bar on which nothing moved. *)
Definition flat_bar (price : Q) : PriceBar :=
  {| date := ""; open := price; high := price; low := price;
     close := price; volume := 1000 |}.

(** Fifteen bars at the same price. *)
Definition flat_bars : list PriceBar := repeat (flat_bar 100) 15.

(** Bars that rise by 1 a day from 100, on flat volume. *)
Definition rising_bars (n : nat) : list PriceBar :=
  map (fun i => flat_bar (100 + inject_Z (Z.of_nat i))) (seq 0 n).

(** The technical analysis of one symbol on 21 rising bars. *)
Definition sample_analysis : gmap string TechData :=
  {[ "AAPL"%string :=
       analyze_stock sqrt_12 (StockOk (rising_bars 21) (py_num 120)) ]}.

(** ** Risk agent: levels, targets, strategy ([agents/risk_agent.py]) *)

Inductive RiskLevel : Type := LOW | MODERATE | HIGH | VERY_HIGH.

Definition level_rank (l : RiskLevel) : nat :=
  match l with
  | LOW => 0
  | MODERATE => 1
  | HIGH => 2
  | VERY_HIGH => 3
  end.

Definition classify_risk_level (risk_score : Q) : RiskLevel :=
  if Qltb risk_score 30 then LOW
  else if Qltb risk_score 60 then MODERATE
  else if Qltb risk_score 80 then HIGH
  else VERY_HIGH.

Definition calculate_diversification_score (symbols : list string) : Q :=
  let num_stocks := length symbols in
  if (10 <=? num_stocks)%nat then 90
  else if (5 <=? num_stocks)%nat then 70
  else if (3 <=? num_stocks)%nat then 50
  else 20.

(** Rounding to the nearest integer, ties to the even one. *)
Definition round_half_even (q : Q) : Z :=
  let f := Qfloor q in
  let r := q - inject_Z f in
  if Qltb r (1 # 2) then f
  else if Qltb (1 # 2) r then (f + 1)%Z
  else if Z.even f then f else (f + 1)%Z.

(** [round(x, 2)]: an infinity or NaN is returned as it is. *)
Definition py_round2 (x : fval) : fval :=
  match x with
  | Fin q => Fin (inject_Z (round_half_even (q * 100)) / 100)
  | _ => x
  end.

(** [calculate_price_targets]: the pair [(stop_loss, target_price)]. *)
Definition calculate_price_targets (current_price : pyval) (signal : Signal)
    (risk_score : Q) : pyval * pyval :=
  match current_price with
  | Some price =>
      if negb (py_truthy current_price) then (None, None)
      else
        let stop_loss_pct := (5 # 100) + risk_score / 100 * (15 # 100) in
        let target_pct :=
          match signal with
          | BULLISH => (15 # 100) + (1 - risk_score / 100) * (15 # 100)
          | BEARISH => - (10 # 100)
          | NEUTRAL => 5 # 100
          end in
        let stop_loss := np_mul price (Fin (1 - stop_loss_pct)) in
        let target_price := np_mul price (Fin (1 + target_pct)) in
        (Some (py_round2 stop_loss), Some (py_round2 target_price))
  | None => (None, None)
  end.

(** The dict returned by [generate_overall_strategy]. *)
Record OverallStrategy : Type := {
  strategy : string;
  buy_signals : nat;
  sell_signals : nat;
  hold_signals : nat;
  market_outlook : string
}.

(** The [recommendation] entry of a recommendation dict. *)
Definition recommendation_label {F : Type} (r : Recommendation F)
  : option Action :=
  match r with
  | Rec a _ _ => Some a
  | InsufficientData _ => None
  end.

Definition is_sell (a : Action) : bool :=
  match a with
  | SELL | STRONG_SELL => true
  | _ => false
  end.

Definition is_hold (a : Action) : bool :=
  match a with
  | HOLD => true
  | _ => false
  end.

(** [sum(1 for action in actions if ...)] *)
Definition count_actions (p : Action -> bool) (actions : list (option Action))
  : nat :=
  length (List.filter (fun a => match a with Some a => p a | None => false end)
                      actions).

Definition generate_overall_strategy {F : Type}
    (recommendations : list (string * Recommendation F)) : OverallStrategy :=
  let actions := map (fun it => recommendation_label (snd it)) recommendations in
  let buy_count := count_actions is_buy actions in
  let sell_count := count_actions is_sell actions in
  let hold_count := count_actions is_hold actions in
  let strategy :=
    if (sell_count <? buy_count)%nat then "AGGRESSIVE_GROWTH"%string
    else if (buy_count <? sell_count)%nat then "DEFENSIVE"%string
    else "BALANCED"%string in
  {| strategy := strategy;
     buy_signals := buy_count;
     sell_signals := sell_count;
     hold_signals := hold_count;
     market_outlook :=
       if (sell_count <? buy_count)%nat then "BULLISH"
       else if (buy_count <? sell_count)%nat then "BEARISH"
       else "NEUTRAL" |}.

(** The entries of [stock_data] that [execute_risk_assessment] builds
    from the technical analysis. *)
Inductive RiskStockEntry : Type :=
| NoStockData (err : AnalysisError)
| StockHistory (close_history : list (string * Q)) (entry_price : pyval).

(** The loop of [execute_risk_assessment] over the symbols, which
    fills [stock_data]. *)
Definition risk_stock_data (symbols : list string)
    (technical_analysis : gmap string TechData) : gmap string RiskStockEntry :=
  fold_left
    (fun stock_data symbol =>
       match technical_analysis !! symbol with
       | Some (TechReport price _ _) =>
           <[symbol := StockHistory [] price]> stock_data
       | Some (TechError err) => <[symbol := NoStockData err]> stock_data
       | None => stock_data
       end)
    symbols ∅.

(** The test of [execute_risk_assessment]: some entry without an
    error has a non-empty [Close] history. *)
Definition has_usable_history (stock_data : gmap string RiskStockEntry)
  : bool :=
  existsb (fun data =>
             match data with
             | StockHistory close_history _ =>
                 negb (length close_history =? 0)%nat
             | NoStockData _ => false
             end)
          (map snd (map_to_list stock_data)).

(** The values that [assess_portfolio_risk] reads for the symbols with
    risk data. *)
Definition valid_risks (symbols : list string)
    (risk_metrics : gmap string RiskEntry) : list (string * RiskMetrics) :=
  omap (fun symbol =>
          match risk_metrics !! symbol with
          | Some (RiskOk metrics) => Some (symbol, metrics)
          | _ => None
          end) symbols.

Record PortfolioRisk : Type := {
  average_risk_score : Q;
  risk_concentration : fval;
  diversification_score : Q;
  portfolio_volatility : Q;
  portfolio_risk_level : RiskLevel
}.

Definition estimate_portfolio_volatility (risk_metrics : gmap string RiskEntry)
    (symbols : list string) : Q :=
  let volatilities :=
    map (fun it => volatility_annualized (snd it))
        (valid_risks symbols risk_metrics) in
  if (length volatilities =? 0)%nat then 2 # 10
  else
    let avg_vol := mean_Q volatilities in
    let diversification_benefit :=
      if (1 <? length volatilities)%nat then 8 # 10 else 1 in
    avg_vol * diversification_benefit.

Definition generate_portfolio_recommendations (portfolio_risk : PortfolioRisk)
  : list string :=
  let recommendations :=
    match portfolio_risk_level portfolio_risk with
    | HIGH | VERY_HIGH =>
        ["Consider reducing position sizes due to high portfolio risk";
         "Implement strict stop-loss orders"]%string
    | _ => []
    end in
  let recommendations :=
    if Qltb (diversification_score portfolio_risk) 50
    then recommendations ++
         ["Increase diversification across sectors and asset classes"%string]
    else recommendations in
  if f_ltb (Fin 20) (risk_concentration portfolio_risk)
  then recommendations ++
       ["Reduce concentration risk by rebalancing positions"%string]
  else recommendations.

(** What [assess_portfolio_risk] returns: the error dict, or the
    portfolio risk with its recommendations. *)
Inductive PortfolioAssessment : Type :=
| NoValidRiskData
| Assessed (portfolio_risk : PortfolioRisk) (recommendations : list string).

Section PortfolioRisk.
Variable np_sqrt : Q -> Q.

Definition assess_portfolio_risk (symbols : list string)
    (risk_metrics : gmap string RiskEntry) : PortfolioAssessment :=
  let valid := valid_risks symbols risk_metrics in
  let individual_risks := map (fun it => risk_score (snd it)) valid in
  let valid_symbols := map fst valid in
  if (length individual_risks =? 0)%nat then NoValidRiskData
  else
    let portfolio_risk :=
      {| average_risk_score := mean_Q individual_risks;
         risk_concentration := np_std np_sqrt (map Fin individual_risks);
         diversification_score := calculate_diversification_score valid_symbols;
         portfolio_volatility :=
           estimate_portfolio_volatility risk_metrics valid_symbols;
         portfolio_risk_level := classify_risk_level (mean_Q individual_risks) |} in
    Assessed portfolio_risk (generate_portfolio_recommendations portfolio_risk).

End PortfolioRisk.

(** ** Risk agent: the recommendations of the symbols *)

(** The per-symbol result of [perform_fundamental_analysis]: the error
    dict, or the analysis with its score and summary. *)
Inductive FundData : Type :=
| FundError (msg : string)
| FundReport (analysis : FundamentalAnalysis) (fundamental_score : Z)
             (fundamental_summary : string).

Definition identify_key_risks (tech_data : option TechData)
    (fund_data : option FundData) (risk_data : option RiskEntry)
  : list string :=
  let risks :=
    match tech_data with
    | Some (TechReport _ _ trading_signals) =>
        if signal_eqb (overall_signal trading_signals) BEARISH
        then ["Negative technical momentum"%string] else []
    | _ => []
    end in
  let fund_score :=
    match fund_data with
    | Some (FundReport _ fundamental_score _) => fundamental_score
    | _ => 50%Z
    end in
  let risks :=
    if (fund_score <? 40)%Z
    then risks ++ ["Weak fundamental metrics"%string] else risks in
  let risk_score :=
    match risk_data with
    | Some (RiskOk metrics) => risk_score metrics
    | _ => 50
    end in
  let risks :=
    if Qltb 70 risk_score
    then risks ++ ["High volatility and drawdown risk"%string] else risks in
  let volatility :=
    match risk_data with
    | Some (RiskOk metrics) => volatility_annualized metrics
    | _ => 0
    end in
  if Qltb (4 # 10) volatility
  then risks ++ ["Extremely high volatility"%string] else risks.

(** An entry of [individual_recommendations] with its keys, or the
    [INSUFFICIENT_DATA] entry.  The [reasoning] text is formatting only
    and is left out. *)
Inductive RecommendationEntry : Type :=
| FullRec (recommendation : Action) (rec_confidence position_size : Q)
          (rec_current_price target_price stop_loss : pyval)
          (risk_level : RiskLevel) (rec_time_horizon : string)
          (key_risks : list string)
| NoRec (reason : string).

(** The keys that [generate_portfolio_allocation] and
    [generate_overall_strategy] read. *)
Definition allocation_view (entry : RecommendationEntry) : Recommendation Q :=
  match entry with
  | FullRec a c ps _ _ _ _ _ _ => Rec a c ps
  | NoRec reason => InsufficientData reason
  end.

(** The body of the loop of [generate_investment_recommendations]. *)
Definition recommend_symbol (tech_data : option TechData)
    (fund_data : option FundData) (risk_data : option RiskEntry)
  : RecommendationEntry :=
  let has_error :=
    match tech_data, fund_data, risk_data with
    | Some (TechError _), _, _ => true
    | _, Some (FundError _), _ => true
    | _, _, Some (RiskError _) => true
    | _, _, _ => false
    end in
  if has_error then NoRec "Incomplete analysis data"
  else
    let technical_signal :=
      match tech_data with
      | Some (TechReport _ _ trading_signals) => overall_signal trading_signals
      | _ => NEUTRAL
      end in
    let technical_confidence :=
      match tech_data with
      | Some (TechReport _ _ trading_signals) => ts_confidence trading_signals
      | _ => 5 # 10
      end in
    let fundamental_score :=
      match fund_data with
      | Some (FundReport _ fundamental_score _) => inject_Z fundamental_score
      | _ => 50
      end in
    let risk_score :=
      match risk_data with
      | Some (RiskOk metrics) => risk_score metrics
      | _ => 50
      end in
    let recommendation :=
      generate_stock_recommendation technical_signal technical_confidence
                                    fundamental_score risk_score in
    let position_size :=
      calculate_position_size risk_score technical_confidence in
    let current_price :=
      match tech_data with
      | Some (TechReport current_price _ _) => current_price
      | _ => None
      end in
    let '(stop_loss, target_price) :=
      calculate_price_targets current_price technical_signal risk_score in
    FullRec (action recommendation) (confidence recommendation) position_size
            current_price target_price stop_loss
            (classify_risk_level risk_score) (time_horizon recommendation)
            (identify_key_risks tech_data fund_data risk_data).

Record InvestmentRecommendations : Type := {
  individual_recommendations : list (string * RecommendationEntry);
  portfolio_allocation : PortfolioAllocation Q;
  overall_strategy : OverallStrategy
}.

Definition generate_investment_recommendations (symbols : list string)
    (technical_analysis : gmap string TechData)
    (fundamental_analysis : gmap string FundData)
    (risk_metrics : gmap string RiskEntry) : InvestmentRecommendations :=
  let recommendations :=
    fold_left
      (fun recommendations symbol =>
         dict_set symbol
                  (recommend_symbol (technical_analysis !! symbol)
                                    (fundamental_analysis !! symbol)
                                    (risk_metrics !! symbol))
                  recommendations)
      symbols [] in
  let summary :=
    map (fun it => (fst it, allocation_view (snd it))) recommendations in
  {| individual_recommendations := recommendations;
     portfolio_allocation := generate_portfolio_allocation summary;
     overall_strategy := generate_overall_strategy summary |}.

(** [d.get(k)] on an insertion-ordered dict. *)
Fixpoint dict_get {V : Type} (k : string) (d : list (string * V)) : option V :=
  match d with
  | [] => None
  | (k', v) :: d' => if String.eqb k k' then Some v else dict_get k d'
  end.

(** ** Analysis agent: fundamentals, sentiment, summary
       ([agents/analysis_agent.py]) *)

(** [generate_fundamental_summary], given
    [analysis.get("fundamental_score")]: [None] when the key is
    missing. *)
Definition generate_fundamental_summary (fundamental_score : option Z)
  : string :=
  let score := default 50%Z fundamental_score in
  if (70 <=? score)%Z
  then "Strong fundamental profile with good valuation and financial health"
  else if (60 <=? score)%Z
  then "Good fundamental profile with some positive indicators"
  else if (40 <=? score)%Z
  then "Mixed fundamental profile with both strengths and weaknesses"
  else "Weak fundamental profile with concerning metrics".

(** The keys of [company_info] that reach the scorer. *)
Record CompanyInfo : Type := {
  trailingPE : pyval;
  profitMargins : pyval;
  returnOnEquity : pyval;
  debtToEquity : pyval;
  currentRatio : pyval
}.

(** An entry of the collected [stocks] dict, as the fundamental
    analysis reads it. *)
Inductive CollectedStock : Type :=
| CollectFailed (msg : string)
| Collected (company_info : option CompanyInfo).

(** [info.get(key)] with [info = data.get("company_info", {})]. *)
Definition info_get (info : option CompanyInfo) (key : CompanyInfo -> pyval)
  : pyval :=
  i ← info; key i.

Definition fundamental_entry (data : CollectedStock) : FundData :=
  match data with
  | CollectFailed msg => FundError msg
  | Collected info =>
      let analysis :=
        {| valuation_metrics := Some {| pe_ratio := info_get info trailingPE |};
           profitability_metrics :=
             Some {| profit_margin := info_get info profitMargins;
                     return_on_equity := info_get info returnOnEquity |};
           financial_health :=
             Some {| debt_to_equity := info_get info debtToEquity;
                     current_ratio := info_get info currentRatio |} |} in
      let fundamental_score := calculate_fundamental_score analysis in
      FundReport analysis fundamental_score
                 (generate_fundamental_summary (Some fundamental_score))
  end.

Definition perform_fundamental_analysis
    (stock_data : list (string * CollectedStock)) : gmap string FundData :=
  fold_left
    (fun fundamental_results it =>
       <[fst it := fundamental_entry (snd it)]> fundamental_results)
    stock_data ∅.

Section TechnicalAnalysis.
Variable np_sqrt : Q -> Q.
(** What the data tool returns for a symbol at the time of the call. *)
Variable get_stock_data : string -> StockData.

Definition perform_technical_analysis (symbols : list string)
  : gmap string TechData :=
  fold_left
    (fun technical_results symbol =>
       <[symbol := analyze_stock np_sqrt (get_stock_data symbol)]>
         technical_results)
    symbols ∅.

End TechnicalAnalysis.

(** The [sentiment] dict of an article and the article itself. *)
Record Sentiment : Type := {
  polarity : option Q;
  sentiment_label : option string
}.

Record Article : Type := {
  article_title : string;
  sentiment : option Sentiment
}.

Record SentimentImpact : Type := {
  sentiment_score : Q;
  impact_level : string;
  article_count : nat;
  impact_recommendation : string
}.

(** The body of the loop of [analyze_sentiment_impact]: the entry
    written for a symbol, if any. *)
Definition sentiment_impact_entry (news_list : list Article)
  : option SentimentImpact :=
  if (length news_list =? 0)%nat then None
  else
    let sentiments := omap sentiment news_list in
    if (length sentiments =? 0)%nat then None
    else
      let avg_polarity :=
        py_sum (map (fun s => default 0 (polarity s)) sentiments)
        / inject_Z (Z.of_nat (length sentiments)) in
      let impact_level :=
        if Qltb (2 # 10) avg_polarity then "positive"%string
        else if Qltb avg_polarity (- (2 # 10)) then "negative"%string
        else "neutral"%string in
      Some {| sentiment_score := avg_polarity;
              impact_level := impact_level;
              article_count := length sentiments;
              impact_recommendation :=
                if Qltb (1 # 10) avg_polarity then "Consider positive sentiment"
                else if Qltb avg_polarity (- (1 # 10))
                then "Monitor negative sentiment"
                else "Neutral sentiment impact" |}.

(** The [individual_sentiment_impact] dict of
    [analyze_sentiment_impact]; the market sentiment is passed on as it
    is. *)
Definition analyze_sentiment_impact
    (individual_news : list (string * list Article))
  : list (string * SentimentImpact) :=
  fold_left
    (fun sentiment_impact it =>
       match sentiment_impact_entry (snd it) with
       | Some entry => dict_set (fst it) entry sentiment_impact
       | None => sentiment_impact
       end)
    individual_news [].

Record AnalysisSummary : Type := {
  total_symbols_analyzed : nat;
  analysis_quality : string;
  key_findings : list string;
  summary_issues : option (list string);
  overall_market_outlook : string
}.

(** [generate_analysis_summary], given the [status] of the technical
    and of the fundamental results and the market analysis. *)
Definition generate_analysis_summary (symbols : list string)
    (technical_status fundamental_status : string)
    (market_analysis : MarketOutcome) : AnalysisSummary :=
  let issues := [] in
  let issues :=
    if negb (String.eqb technical_status "success")
    then issues ++ ["Technical analysis incomplete"%string] else issues in
  let issues :=
    if negb (String.eqb fundamental_status "success")
    then issues ++ ["Fundamental analysis incomplete"%string] else issues in
  let issues :=
    if negb (String.eqb (status market_analysis) "success")
    then issues ++ ["Market analysis incomplete"%string] else issues in
  let market_trend :=
    match market_analysis with
    | MarketSuccess analysis => market_trend analysis
    | MarketFailed _ => "neutral"%string
    end in
  {| total_symbols_analyzed := length symbols;
     analysis_quality :=
       if (length issues =? 0)%nat then "good" else "partial";
     key_findings := [];
     summary_issues := if (length issues =? 0)%nat then None else Some issues;
     overall_market_outlook := market_trend |}.

(** ** Vocabulary of the further statements *)


(** The value of a sector in a sorted list of pairs. *)
Definition sector_changes (sector_performance : list (string * SectorEntry))
  : list (string * Q) :=
  map (fun it => (fst it, change_of it)) sector_performance.

(** Two articles, one of them with a sentiment. *)
Definition sample_news : list Article :=
  [ {| article_title := "Record quarter";
       sentiment := Some {| polarity := Some (3 # 10);
                            sentiment_label := Some "positive"%string |} |};
    {| article_title := "Analyst day"; sentiment := None |} ].

(** The company figures of scenario C, as collected for one symbol. *)
Definition sample_collected : list (string * CollectedStock) :=
  [("AAPL"%string,
    Collected (Some {| trailingPE := py_num 15;
                       profitMargins := py_num (15 # 100);
                       returnOnEquity := py_num (20 # 100);
                       debtToEquity := py_num (3 # 10);
                       currentRatio := py_num 2 |}))].

(** Fallback-style metrics of one symbol. *)
Definition sample_metrics : gmap string RiskEntry :=
  {[ "AAPL"%string :=
       RiskOk {| volatility_daily := 2 # 100;
                 volatility_annualized := 32 # 100;
                 var_95_percent := - (3 # 100);
                 var_99_percent := - (5 # 100);
                 max_drawdown := - (15 # 100);
                 sharpe_ratio := 8 # 10;
                 beta := 11 # 10;
                 risk_score := 50;
                 estimation_note := None |} ]}.

(** Three index entries, two of them up. *)
Definition sample_indices : list IndexEntry :=
  [ {| index_error := None; change_percent := Some (12 # 10) |};
    {| index_error := None; change_percent := Some (8 # 10) |};
    {| index_error := None; change_percent := Some (- (3 # 10)) |} ].

(** [a] may stand in front of [b] in a list sorted by [before]. *)
Definition sorted_by (before : Q -> Q -> bool) (a b : string * Q) : Prop :=
  before (snd b) (snd a) = false.

(** * Properties *)

(** ** Comparisons on [Q] *)

Lemma Qltb_lt (x y : Q) : Qltb x y = true <-> x < y.
Proof.
  unfold Qltb. rewrite negb_true_iff, <- not_true_iff_false, Qle_bool_iff.
  split; [apply Qnot_le_lt | apply Qlt_not_le].
Qed.

Lemma Qltb_ge (x y : Q) : Qltb x y = false <-> y <= x.
Proof.
  unfold Qltb. rewrite negb_false_iff. apply Qle_bool_iff.
Qed.

Lemma Qle_bool_gt (x y : Q) : Qle_bool x y = false <-> y < x.
Proof.
  rewrite <- not_true_iff_false, Qle_bool_iff.
  split; [apply Qnot_le_lt | apply Qlt_not_le].
Qed.

(** Case split on the next comparison of the goal, turning its outcome
    into an order fact. *)
Ltac cmp :=
  match goal with
  | |- context [Qltb ?a ?b] =>
      let E := fresh "E" in
      destruct (Qltb a b) eqn:E;
      [apply Qltb_lt in E | apply Qltb_ge in E]
  | |- context [Qle_bool ?a ?b] =>
      let E := fresh "E" in
      destruct (Qle_bool a b) eqn:E;
      [apply Qle_bool_iff in E | apply Qle_bool_gt in E]
  | H : context [Qltb ?a ?b] |- _ =>
      let E := fresh "E" in
      destruct (Qltb a b) eqn:E;
      [apply Qltb_lt in E | apply Qltb_ge in E]
  | H : context [Qle_bool ?a ?b] |- _ =>
      let E := fresh "E" in
      destruct (Qle_bool a b) eqn:E;
      [apply Qle_bool_iff in E | apply Qle_bool_gt in E]
  end.

(** Unfold the arithmetic interface at the rationals. *)
Ltac at_Q := cbn [of_Z lit add sub mul div ltb leb Q_arith] in *.

(** ** Recommendation synthesizer *)

(** The tier thresholds, read off [generate_stock_recommendation]. *)
Lemma action_thresholds (sig : Signal) (c f r : Q) :
  let s := combined_score sig c f r in
  let a := action (generate_stock_recommendation sig c f r) in
  (70 <= s -> a = STRONG_BUY) /\
  (60 <= s < 70 -> a = BUY) /\
  (40 <= s < 60 -> a = HOLD) /\
  (30 <= s < 40 -> a = SELL) /\
  (s < 30 -> a = STRONG_SELL).
Proof.
  intros s a. subst a. unfold generate_stock_recommendation.
  fold s. at_Q.
  repeat cmp; simpl; repeat split; intros; try reflexivity; exfalso; lra.
Qed.

(** C4. A larger combined score never yields a less bullish action:
    the action is monotone in the combined score for the order
    STRONG_SELL < SELL < HOLD < BUY < STRONG_BUY. *)
Theorem action_monotone (sig1 sig2 : Signal) (c1 f1 r1 c2 f2 r2 : Q) :
  combined_score sig1 c1 f1 r1 <= combined_score sig2 c2 f2 r2 ->
  (action_rank (action (generate_stock_recommendation sig1 c1 f1 r1)) <=
   action_rank (action (generate_stock_recommendation sig2 c2 f2 r2)))%nat.
Proof.
  intros Hle. unfold generate_stock_recommendation.
  set (s1 := combined_score sig1 c1 f1 r1) in *.
  set (s2 := combined_score sig2 c2 f2 r2) in *.
  at_Q.
  repeat cmp; simpl; try lia; exfalso; lra.
Qed.

Lemma action_monotone_witness :
  (action_rank (action (generate_stock_recommendation
                          BEARISH (3 # 10)%Q 20%Q 90%Q)) <=
   action_rank (action (generate_stock_recommendation
                          BULLISH (9 # 10)%Q 80%Q 20%Q)))%nat.
Proof.
  apply action_monotone. vm_compute. discriminate.
Defined.

(** C9. Scenario D: risk score 85, NEUTRAL signal with confidence 0.5
    and fundamental score 50 give the combined score
    0.4*25 + 0.4*50 + 0.2*15 = 33 and the action SELL, over the
    rationals and over binary64 alike. *)
Theorem scenario_d :
  combined_score NEUTRAL (5 # 10) 50 (85 : Q)
    == (4 # 10) * 25 + (4 # 10) * 50 + (2 # 10) * 15 /\
  combined_score NEUTRAL (5 # 10) 50 (85 : Q) == 33 /\
  action (generate_stock_recommendation NEUTRAL (5 # 10) 50 (85 : Q)) = SELL /\
  combined_score NEUTRAL (lit 5 10) (b64_of_Z 50) (b64_of_Z 85)
    = b64_of_Z 33 /\
  action (generate_stock_recommendation
            NEUTRAL (lit 5 10) (b64_of_Z 50) (b64_of_Z 85)) = SELL.
Proof.
  repeat split; vm_compute; reflexivity.
Qed.

(** The risk multiplier lies in [0.2, 1]. *)
Lemma risk_multiplier_bounds (risk_score : Q) :
  0 <= risk_score ->
  2 # 10 <= py_max (2 # 10) ((100 - risk_score) / 100) <= 1.
Proof.
  intros Hr. unfold py_max. at_Q.
  cmp; split; try lra.
  apply Qle_shift_div_r; lra.
Qed.

(** C10. For a risk score in [0,100] and a confidence in [0,1] the
    position size lies in [1,10]; the upper clamp 25 is not reached. *)
Theorem position_size_bounds (risk_score confidence : Q) :
  0 <= risk_score <= 100 ->
  0 <= confidence <= 1 ->
  1 <= calculate_position_size risk_score confidence <= 10.
Proof.
  intros [Hr0 Hr1] [Hc0 Hc1].
  unfold calculate_position_size.
  pose proof (risk_multiplier_bounds risk_score Hr0) as Hm.
  at_Q.
  set (m := py_max (2 # 10) ((100 - risk_score) / 100)) in *.
  assert (Hp : 0 <= 10 * m * confidence <= 10) by (split; nra).
  set (p := 10 * m * confidence) in *.
  unfold py_min, py_max. at_Q.
  repeat cmp; split; lra.
Qed.

Lemma position_size_bounds_witness :
  1 <= calculate_position_size (40 : Q) (8 # 10) <= 10.
Proof.
  apply position_size_bounds; split; vm_compute; discriminate.
Defined.

(** *** Portfolio allocation *)

(** The binary64 instance computes what Python prints:
    10/110*100 is 9.090909090909092 (0x1.22e8ba2e8ba2fp+3) and 0.4 is
    0x1.999999999999ap-2. *)
Example b64_agrees_with_python :
  mul (div (b64_of_Z 10) (b64_of_Z 110)) (b64_of_Z 100)
  = S754_finite false 0x122e8ba2e8ba2f (-49) /\
  lit 4 10 = S754_finite false 0x1999999999999a (-54).
Proof. split; vm_compute; reflexivity. Qed.

Lemma dict_set_fresh {V : Type} (k : string) (v : V) (d : list (string * V)) :
  ~ In k (map fst d) -> dict_set k v d = d ++ [(k, v)].
Proof.
  induction d as [|[k' v'] d IH]; simpl; intros Hk; [reflexivity|].
  destruct (String.eqb_spec k k') as [->|Hne].
  - exfalso. apply Hk. now left.
  - rewrite IH; [reflexivity|]. intros Hin. apply Hk. now right.
Qed.

(** With distinct keys the loop of [generate_portfolio_allocation]
    collects the buy items in order and adds up their sizes. *)
Lemma allocation_fold (recs : list (string * Recommendation Q)) :
  forall (acc : list (string * Q)) (t : Q),
    List.NoDup (map fst acc ++ map fst recs) ->
    fold_left allocation_step recs (acc, t)
    = (acc ++ buy_items recs, fold_left Qplus (map snd (buy_items recs)) t).
Proof.
  induction recs as [|[k r] recs IH]; intros acc t Hnd.
  - simpl. now rewrite app_nil_r.
  - simpl in Hnd.
    assert (Hfresh : ~ In k (map fst acc)).
    { intros Hin. apply NoDup_remove_2 in Hnd. apply Hnd.
      apply in_or_app. now left. }
    assert (Hrest : List.NoDup (map fst acc ++ map fst recs))
      by (eapply NoDup_remove_1; eassumption).
    assert (Hnext : forall v : Q,
               List.NoDup (map fst (acc ++ [(k, v)]) ++ map fst recs)).
    { intros v. rewrite map_app. simpl. now rewrite <- app_assoc. }
    destruct r as [a c ps|msg]; [destruct a|]; cbn [fold_left allocation_step];
      unfold buy_items; cbn [omap list_omap is_buy]; fold (buy_items recs);
      try (rewrite IH by assumption; reflexivity).
    all: rewrite dict_set_fresh by assumption; at_Q;
      rewrite IH by apply Hnext; simpl; now rewrite <- app_assoc.
Qed.

Lemma fold_Qplus_proper (l : list Q) (a b : Q) :
  a == b -> fold_left Qplus l a == fold_left Qplus l b.
Proof.
  revert a b. induction l as [|x l IH]; simpl; intros a b Hab; [assumption|].
  apply IH. now rewrite Hab.
Qed.

(** Rescaling every summand by [100/t] rescales the sum. *)
Lemma fold_Qplus_scaled (t : Q) (l : list Q) (c : Q) :
  fold_left Qplus (map (fun a => a / t * 100) l) (c / t * 100)
  == fold_left Qplus l c / t * 100.
Proof.
  revert c. induction l as [|x l IH]; simpl; intros c; [reflexivity|].
  rewrite <- IH. apply fold_Qplus_proper. unfold Qdiv. ring.
Qed.

Lemma snd_rescaled (t : Q) (l : list (string * Q)) :
  map snd (map (fun '(symbol, a) => (symbol, a / t * 100)) l)
  = map (fun a => a / t * 100) (map snd l).
Proof.
  induction l as [|[k a] l IH]; simpl; [reflexivity|]. now rewrite IH.
Qed.

(** C2, over exact rationals.  For recommendations with distinct
    symbols the allocated total is at most 100 and together with the
    cash share it is exactly 100.  When the sizes of the BUY and
    STRONG_BUY symbols add up to more than 100 each is rescaled by
    100/total, the allocated total is 100 and the cash share is 0;
    otherwise the sizes are kept and the cash share is 100 minus their
    sum. *)
Theorem allocation_invariant (recs : list (string * Recommendation Q)) :
  List.NoDup (map fst recs) ->
  let pa := generate_portfolio_allocation recs in
  let total := py_sum (map snd (buy_items recs)) in
  allocated pa <= 100 /\
  allocated pa + cash_allocation pa == 100 /\
  total_invested pa = allocated pa /\
  (100 < total ->
     stock_allocations pa
     = map (fun '(symbol, a) => (symbol, a / total * 100)) (buy_items recs) /\
     allocated pa == 100 /\ cash_allocation pa == 0) /\
  (total <= 100 ->
     stock_allocations pa = buy_items recs /\
     cash_allocation pa == 100 - total).
Proof.
  intros Hnd pa total. subst pa. unfold generate_portfolio_allocation, allocated.
  rewrite (allocation_fold recs [] (of_Z 0)) by exact Hnd.
  cbn [app].
  change (fold_left Qplus (map snd (buy_items recs)) (of_Z 0)) with total.
  cbn [ltb div mul Q_arith].
  change (@of_Z Q Q_arith 100) with 100.
  destruct (Qltb 100 total) eqn:Hbig.
  - apply Qltb_lt in Hbig. cbn [stock_allocations cash_allocation total_invested].
    assert (Hs : py_sum (map snd (map (fun '(symbol, a) =>
                     (symbol, a / total * 100)) (buy_items recs))) == 100).
    { rewrite snd_rescaled. unfold py_sum. at_Q.
      rewrite (fold_Qplus_proper _ 0 (0 / total * 100))
        by (unfold Qdiv; ring).
      rewrite fold_Qplus_scaled.
      change (fold_left Qplus (map snd (buy_items recs)) 0) with total.
      field. lra. }
    set (s := py_sum (map snd (map _ _))) in *. unfold py_max. at_Q.
    repeat split; intros; try reflexivity; try lra; try (cmp; lra); exfalso; lra.
  - apply Qltb_ge in Hbig. cbn [stock_allocations cash_allocation total_invested].
    fold total. unfold py_max. at_Q.
    repeat split; intros; try reflexivity; try lra; try (cmp; lra); exfalso; lra.
Qed.

Lemma allocation_invariant_witness :
  allocated (generate_portfolio_allocation scenario_e) <= 100 /\
  allocated (generate_portfolio_allocation scenario_e)
  + cash_allocation (generate_portfolio_allocation scenario_e) == 100.
Proof.
  destruct (allocation_invariant scenario_e) as (H1 & H2 & _).
  - repeat constructor; simpl; intuition discriminate.
  - split; assumption.
Defined.

(** Scenario E: sizes 20, 20, 20 are kept, 60 is invested and 40 is
    cash. *)
Example scenario_e_allocation :
  let pa := generate_portfolio_allocation scenario_e in
  stock_allocations pa = [("AAPL", 20); ("MSFT", 20); ("JPM", 20)]%string /\
  total_invested pa == 60 /\ cash_allocation pa == 40.
Proof.
  vm_compute. repeat split; reflexivity.
Qed.

(** C2 as stated fails in binary64.  For eleven BUY recommendations
    of size 10.0 each share is rescaled to 9.090909090909092; the shares
    add up to 100.00000000000001, above 100, and the cash share is 0. *)
Lemma allocation_sum_inexact :
  let pa := generate_portfolio_allocation eleven_buys in
  List.NoDup (map fst eleven_buys) /\
  cash_allocation pa = b64_of_Z 0 /\
  allocated pa = S754_finite false 7036874417766401 (-46) /\
  ~ (SFleb (allocated pa) (b64_of_Z 100) = true /\
     SFeqb (add (allocated pa) (cash_allocation pa)) (b64_of_Z 100) = true).
Proof.
  split; [|split; [|split]].
  - repeat constructor; simpl; intuition discriminate.
  - vm_compute. reflexivity.
  - vm_compute. reflexivity.
  - vm_compute. intros [H _]. discriminate H.
Qed.

(** The same with a single addition in the sum: sizes 1.0 and 101.0
    are rescaled to shares that add up to 100.00000000000001. *)
Example two_positions_inexact :
  allocated (generate_portfolio_allocation two_buys)
  = S754_finite false 7036874417766401 (-46) /\
  cash_allocation (generate_portfolio_allocation two_buys) = b64_of_Z 0.
Proof. split; vm_compute; reflexivity. Qed.

(** ** Risk engine *)

(** *** Fallback estimator *)

Lemma fold_insert_lookup {V : Type} (g : string -> V) (symbols : list string) :
  forall (acc : gmap string V) (s : string),
    fold_left (fun m k => <[k := g k]> m) symbols acc !! s
    = if decide (s ∈ symbols) then Some (g s) else acc !! s.
Proof.
  induction symbols as [|k ks IH]; intros acc s; cbn [fold_left].
  - rewrite decide_False; [reflexivity | apply not_elem_of_nil].
  - rewrite IH. destruct (decide (s ∈ ks)) as [Hin|Hnin].
    + rewrite decide_True; [reflexivity | now apply elem_of_cons; right].
    + destruct (decide (s = k)) as [->|Hne].
      * rewrite decide_True by (apply elem_of_cons; now left).
        apply lookup_insert_eq.
      * rewrite decide_False.
        -- now apply lookup_insert_ne.
        -- intros [?|?]%elem_of_cons; contradiction.
Qed.

(** Every entry of the fallback output is the fallback entry of its
    symbol. *)
Lemma fallback_lookup (symbols : list string)
    (technical_analysis : gmap string TechData) (symbol : string) :
  _generate_fallback_risk_metrics symbols technical_analysis !! symbol
  = if decide (symbol ∈ symbols)
    then Some (fallback_entry (technical_analysis !! symbol))
    else None.
Proof.
  unfold _generate_fallback_risk_metrics.
  rewrite (fold_insert_lookup
             (fun k => fallback_entry (technical_analysis !! k))).
  destruct (decide (symbol ∈ symbols)); [reflexivity | apply lookup_empty].
Qed.

(** C8. The fallback estimator gives a symbol with a trading signal
    the risk score 35 for BULLISH with confidence above 0.7, 75 for
    BEARISH with confidence above 0.7, 65 for a confidence below 0.3
    and 50 in every other case; and every metrics dict it returns
    carries the [estimation_note] key. *)
Theorem fallback_risk_scores (symbols : list string)
    (technical_analysis : gmap string TechData) :
  let out := _generate_fallback_risk_metrics symbols technical_analysis in
  (forall symbol price indicators ts,
      symbol ∈ symbols ->
      technical_analysis !! symbol = Some (TechReport price indicators ts) ->
      exists m,
        out !! symbol = Some (RiskOk m) /\
        (overall_signal ts = BULLISH -> 7 # 10 < ts_confidence ts ->
         risk_score m = 35) /\
        (overall_signal ts = BEARISH -> 7 # 10 < ts_confidence ts ->
         risk_score m = 75) /\
        (ts_confidence ts < 3 # 10 -> risk_score m = 65) /\
        (~ (overall_signal ts <> NEUTRAL /\ 7 # 10 < ts_confidence ts) ->
         3 # 10 <= ts_confidence ts -> risk_score m = 50)) /\
  (forall symbol m,
      out !! symbol = Some (RiskOk m) -> is_Some (estimation_note m)).
Proof.
  intros out. subst out. split.
  - intros symbol price indicators ts Hin Hta.
    rewrite fallback_lookup, decide_True, Hta by assumption.
    eexists. split; [reflexivity|].
    cbn [fallback_entry risk_score].
    destruct (overall_signal ts); cbn [signal_eqb andb];
      repeat cmp; repeat split; intros; try reflexivity;
      try discriminate; try (exfalso; lra).
    all: exfalso; match goal with H : ~ _ |- _ => apply H end;
      split; [discriminate | assumption].
  - intros symbol m. rewrite fallback_lookup.
    destruct (decide (symbol ∈ symbols)); [|discriminate].
    unfold fallback_entry.
    destruct (technical_analysis !! symbol) as [[]|]; intros [= <-];
      eexists; reflexivity.
Qed.

Lemma fallback_risk_scores_witness :
  exists m,
    _generate_fallback_risk_metrics ["AAPL"%string] sample_analysis
      !! "AAPL"%string = Some (RiskOk m) /\
    risk_score m = 35.
Proof.
  assert (exists price indicators ts,
             sample_analysis !! "AAPL"%string
             = Some (TechReport price indicators ts) /\
             overall_signal ts = BULLISH /\ 7 # 10 < ts_confidence ts)
    as (price & indicators & ts & Hta & Hsig & Hconf).
  { vm_compute. do 3 eexists. split; [reflexivity|]. split; reflexivity. }
  destruct (fallback_risk_scores ["AAPL"%string] sample_analysis) as [H _].
  destruct (H "AAPL"%string price indicators ts) as (m & Hm & Hbull & _).
  - apply elem_of_cons. now left.
  - exact Hta.
  - exists m. split; [exact Hm | exact (Hbull Hsig Hconf)].
Defined.

(** *** Sums and means of finite series *)

Lemma series_sum_Fin (qs : list Q) :
  forall a : Q,
    fold_left np_add (map Fin qs) (Fin a) = Fin (fold_left Qplus qs a).
Proof.
  induction qs as [|q qs IH]; intros a; simpl; [reflexivity | apply IH].
Qed.

Lemma length_nonzero {A : Type} (l : list A) :
  l <> [] -> Qeq_bool (inject_Z (Z.of_nat (length l))) 0 = false.
Proof.
  intros Hl. apply not_true_iff_false. rewrite Qeq_bool_iff.
  destruct l; [contradiction|]. unfold Qeq. simpl. lia.
Qed.

Lemma length_positive {A : Type} (l : list A) :
  l <> [] -> 0 < inject_Z (Z.of_nat (length l)).
Proof.
  intros Hl. destruct l; [contradiction|]. unfold Qlt. simpl. lia.
Qed.

Lemma series_mean_Fin (qs : list Q) :
  qs <> [] ->
  series_mean (map Fin qs)
  = Fin (fold_left Qplus qs 0 / inject_Z (Z.of_nat (length qs))).
Proof.
  intros Hqs. unfold series_mean, series_sum.
  rewrite series_sum_Fin, length_map. cbn [np_div].
  now rewrite length_nonzero.
Qed.

Lemma fold_Qplus_nonneg (qs : list Q) :
  Forall (fun q => 0 <= q) qs ->
  forall a, 0 <= a -> 0 <= fold_left Qplus qs a.
Proof.
  induction 1 as [|q qs Hq _ IH]; intros a Ha; simpl; [assumption|].
  apply IH. lra.
Qed.

(** *** Maximum drawdown *)

Lemma running_max_fold (prices : list Q) :
  forall (peak : Q) (out : list Q),
    snd (fold_left
           (fun '(peak, out) x =>
              let peak := if Qltb peak x then x else peak in
              (peak, out ++ [peak]))
           prices (peak, out))
    = out ++ peaks_from peak prices.
Proof.
  induction prices as [|x prices IH]; intros peak out; simpl.
  - now rewrite app_nil_r.
  - rewrite IH, <- app_assoc. reflexivity.
Qed.

Lemma running_max_cons (p : Q) (prices : list Q) :
  running_max (p :: prices) = p :: peaks_from p prices.
Proof.
  unfold running_max. now rewrite running_max_fold.
Qed.

Lemma Qeq_bool_pos (x : Q) : 0 < x -> Qeq_bool x 0 = false.
Proof.
  intros Hx. apply not_true_iff_false. rewrite Qeq_bool_iff. lra.
Qed.

Lemma drawdown_nonpos (p peak : Q) :
  0 < peak -> p <= peak -> nonpos_fin (np_div (Fin (p - peak)) (Fin peak)).
Proof.
  intros Hpk Hle. cbn [np_div]. rewrite Qeq_bool_pos by assumption.
  eexists. split; [reflexivity|].
  apply Qle_shift_div_r; [assumption | lra].
Qed.

Lemma drawdowns_nonpos (prices : list Q) :
  Forall (fun p => 0 < p) prices ->
  forall peak, 0 < peak ->
    Forall nonpos_fin
      (zip_with (fun p pk => np_div (Fin (p - pk)) (Fin pk))
                prices (peaks_from peak prices)).
Proof.
  induction 1 as [|x prices Hx _ IH]; intros peak Hpk; simpl.
  - constructor.
  - destruct (Qltb peak x) eqn:E;
      [apply Qltb_lt in E | apply Qltb_ge in E].
    + constructor; [apply drawdown_nonpos; lra | apply IH; assumption].
    + constructor; [apply drawdown_nonpos; lra | apply IH; assumption].
Qed.

Lemma np_min_fold_nonpos (xs : list fval) :
  Forall nonpos_fin xs ->
  forall m, nonpos_fin m ->
    nonpos_fin
      (fold_left
         (fun m y => if is_nan m then m else if is_nan y then y
                     else if f_ltb y m then y else m)
         xs m).
Proof.
  induction 1 as [|x xs Hx _ IH]; intros m Hm; simpl; [assumption|].
  apply IH. destruct Hm as (d & -> & Hd), Hx as (e & -> & He). simpl.
  destruct (Qltb e d); eexists; split; try reflexivity; assumption.
Qed.

(** On a non-empty series of positive prices the maximum drawdown is
    a finite value that is at most 0. *)
Lemma max_drawdown_nonpos (prices : list Q) :
  prices <> [] ->
  Forall (fun p => 0 < p) prices ->
  exists d, calculate_max_drawdown prices = Ok (Fin d) /\ d <= 0.
Proof.
  intros Hne Hpos. destruct prices as [|p prices]; [contradiction|].
  inversion Hpos as [|? ? Hp Hrest]; subst.
  unfold calculate_max_drawdown. rewrite running_max_cons.
  cbn [zip_with np_min].
  pose proof (np_min_fold_nonpos _ (drawdowns_nonpos prices Hrest p Hp)
                _ (drawdown_nonpos p p Hp (Qle_refl p))) as (d & Hd & Hle).
  exists d. split; [|assumption]. f_equal. exact Hd.
Qed.

(** *** Risk score *)

Lemma simple_returns_Fin (prices : list Q) :
  Forall (fun p => 0 < p) prices ->
  forall nexts,
    zip_with (fun prev cur => np_div (Fin (cur - prev)) (Fin prev))
             prices nexts
    = map Fin (zip_with (fun prev cur => (cur - prev) / prev) prices nexts).
Proof.
  induction 1 as [|p prices Hp _ IH]; intros [|n nexts]; simpl;
    try reflexivity.
  rewrite Qeq_bool_pos by assumption. now rewrite IH.
Qed.

Lemma squares_Fin (m : Q) (qs : list Q) :
  map (fun x => np_mul (np_sub x (Fin m)) (np_sub x (Fin m))) (map Fin qs)
  = map Fin (map (fun q => (q + - m) * (q + - m)) qs).
Proof.
  induction qs as [|q qs IH]; simpl; [reflexivity | now rewrite IH].
Qed.

Lemma Qsquare_nonneg (a : Q) : 0 <= a * a.
Proof.
  unfold Qle. simpl. rewrite Z.mul_1_r. apply Z.square_nonneg.
Qed.

Lemma squares_nonneg (m : Q) (qs : list Q) :
  Forall (fun q => 0 <= q) (map (fun q => (q + - m) * (q + - m)) qs).
Proof.
  induction qs as [|q qs IH]; simpl; [constructor|].
  constructor; [apply Qsquare_nonneg | assumption].
Qed.

Section StdBounds.
Variable np_sqrt : Q -> Q.
Hypothesis np_sqrt_nonneg : forall x, 0 <= np_sqrt x.

(** The standard deviation of a non-empty finite series is a finite,
    non-negative value. *)
Lemma np_std_Fin (qs : list Q) :
  qs <> [] ->
  exists v, np_std np_sqrt (map Fin qs) = Fin v /\ 0 <= v.
Proof.
  intros Hqs. unfold np_std.
  rewrite (series_mean_Fin qs Hqs), squares_Fin.
  set (m := fold_left Qplus qs 0 / _).
  assert (Hsq : map (fun q => (q + - m) * (q + - m)) qs <> [])
    by (destruct qs; [contradiction | discriminate]).
  rewrite (series_mean_Fin _ Hsq). cbn [f_sqrt].
  set (var := fold_left Qplus _ 0 / _).
  assert (Hvar : 0 <= var).
  { subst var. apply Qle_shift_div_l; [now apply length_positive|].
    rewrite Qmult_0_l. apply fold_Qplus_nonneg; [apply squares_nonneg | lra]. }
  destruct (Qltb var 0) eqn:E; [apply Qltb_lt in E; lra|].
  eexists. split; [reflexivity | apply np_sqrt_nonneg].
Qed.

Lemma cap_50_Fin (a : Q) :
  0 <= a -> exists c, cap_50 (Fin a) = Fin c /\ c == Qmin a 50 /\ 0 <= c <= 50.
Proof.
  intros Ha. unfold cap_50. cbn [f_ltb].
  destruct (Qltb 50 a) eqn:E; [apply Qltb_lt in E | apply Qltb_ge in E];
    eexists; (split; [reflexivity|]); split; try lra.
  - symmetry. apply Q.min_r. lra.
  - symmetry. apply Q.min_l. lra.
Qed.

(** C7. For a series of positive prices the risk score of its return
    series is a number in [0,100]; with at least two prices it is the
    sum of min(annualized volatility * 100, 50) and
    min(|max drawdown| * 100, 50), each in [0,50]; and the maximum
    drawdown of a non-empty series is at most 0. *)
Theorem risk_score_bounds (prices : list Q) :
  Forall (fun p => 0 < p) prices ->
  (exists s,
      calculate_risk_score np_sqrt (simple_returns prices) prices = Ok (Fin s) /\
      0 <= s <= 100 /\
      ((2 <= length prices)%nat ->
       exists vol dd,
         np_mul (np_std np_sqrt (simple_returns prices))
                (f_sqrt np_sqrt (Fin 252)) = Fin vol /\
         calculate_max_drawdown prices = Ok (Fin dd) /\
         0 <= Qmin (vol * 100) 50 <= 50 /\
         0 <= Qmin (Qabs dd * 100) 50 <= 50 /\
         s == Qmin (vol * 100) 50 + Qmin (Qabs dd * 100) 50)) /\
  (prices <> [] ->
   exists dd, calculate_max_drawdown prices = Ok (Fin dd) /\ dd <= 0).
Proof.
  intros Hpos. split; [|intros Hne; now apply max_drawdown_nonpos].
  unfold calculate_risk_score, simple_returns.
  rewrite (simple_returns_Fin prices Hpos).
  set (rs := zip_with _ prices (drop 1 prices)).
  destruct prices as [|p0 [|p1 prices]].
  - exists 50. cbn. repeat split; try lra; try discriminate. intros; lia.
  - exists 50. cbn. repeat split; try lra; try discriminate. intros; lia.
  - assert (Hrs : rs <> []) by (subst rs; discriminate).
    rewrite length_map.
    destruct (length rs =? 0)%nat eqn:El;
      [apply Nat.eqb_eq in El; destruct rs; [contradiction | discriminate]|].
    destruct (np_std_Fin rs Hrs) as (sd & -> & Hsd).
    destruct (max_drawdown_nonpos (p0 :: p1 :: prices)) as (dd & -> & Hdd);
      [discriminate | assumption |].
    cbn [mbind result_bind f_sqrt f_abs np_mul].
    change (Qltb 252 0) with false. cbn iota. cbn [np_mul].
    pose proof (np_sqrt_nonneg 252) as H252.
    destruct (cap_50_Fin (sd * np_sqrt 252 * 100)) as (v & -> & Hv & Hv');
      [nra|].
    destruct (cap_50_Fin (Qabs dd * 100)) as (d & -> & Hd & Hd');
      [pose proof (Qabs_nonneg dd); lra|].
    exists (v + d). cbn [np_add]. split; [reflexivity|].
    split; [lra|]. intros _. exists (sd * np_sqrt 252), dd.
    split; [reflexivity|]. split; [reflexivity|].
    rewrite <- Hv, <- Hd. repeat split; lra.
Qed.

End StdBounds.

Lemma sqrt_12_nonneg (x : Q) : 0 <= sqrt_12 x.
Proof.
  unfold sqrt_12, Qle. simpl. rewrite Z.mul_1_r. apply Z.sqrt_nonneg.
Qed.

Lemma risk_score_bounds_witness :
  exists s,
    calculate_risk_score sqrt_12 (simple_returns [100; 110; 99; 105])
                         [100; 110; 99; 105] = Ok (Fin s) /\
    0 <= s <= 100.
Proof.
  destruct (risk_score_bounds sqrt_12 sqrt_12_nonneg [100; 110; 99; 105])
    as [(s & Hs & Hb & _) _].
  - repeat constructor.
  - exists s. split; assumption.
Defined.

(** ** Fundamental scorer *)

(** Each block of [calculate_fundamental_score] adds the adjustments
    of the two rules of its metric; at most one of them applies. *)
Lemma pe_block (score : Z) (pe : pyval) :
  match pe with
  | Some x =>
      if py_truthy pe then
        if f_leb (Fin 10) x && f_leb x (Fin 20) then (score + 10)%Z
        else if f_ltb x (Fin 10) || f_ltb (Fin 30) x then (score - 10)%Z
        else score
      else score
  | None => score
  end
  = (score
     + (match pe with
        | Some x =>
            if py_truthy (Some x) && (f_leb (Fin 10) x && f_leb x (Fin 20))
            then 10 else 0
        | None => 0
        end)
     + (match pe with
        | Some x =>
            if py_truthy (Some x) && (f_ltb x (Fin 10) || f_ltb (Fin 30) x)
            then -10 else 0
        | None => 0
        end))%Z.
Proof.
  destruct pe as [[q| | |]|]; cbn [py_truthy f_leb f_ltb andb orb];
    try lia.
  destruct (Qeq_bool q 0); cbn [negb andb]; [lia|].
  unfold Qltb.
  destruct (Qle_bool 10 q) eqn:E1; cbn [negb andb orb].
  - destruct (Qle_bool q 20) eqn:E2; cbn [negb andb orb].
    + assert (Qle_bool q 30 = true) as ->
        by (apply Qle_bool_iff; apply Qle_bool_iff in E2; lra).
      cbn. lia.
    + destruct (Qle_bool q 30); cbn; lia.
  - lia.
Qed.

Lemma two_sided_block (score up down : Z) (hi lo : fval -> bool) (v : pyval) :
  (forall x, hi x = true -> lo x = false) ->
  match v with
  | Some x =>
      if py_truthy v && hi x then (score + up)%Z
      else if py_truthy v && lo x then (score - down)%Z
      else score
  | None => score
  end
  = (score
     + (match v with
        | Some x => if py_truthy (Some x) && hi x then up else 0
        | None => 0
        end)
     + (match v with
        | Some x => if py_truthy (Some x) && lo x then - down else 0
        | None => 0
        end))%Z.
Proof.
  intros Hex. destruct v as [x|]; [|lia].
  destruct (py_truthy (Some x)); cbn [andb]; [|lia].
  destruct (hi x) eqn:Hhi; [rewrite (Hex x Hhi)|destruct (lo x)]; lia.
Qed.

Lemma above_not_below (a b : Q) (x : fval) :
  b <= a -> f_ltb (Fin a) x = true -> f_ltb x (Fin b) = false.
Proof.
  intros Hab. destruct x as [q| | |]; cbn; try reflexivity; try discriminate.
  intros H%Qltb_lt. apply Qltb_ge. lra.
Qed.

Lemma below_not_above (a b : Q) (x : fval) :
  a <= b -> f_ltb x (Fin a) = true -> f_ltb (Fin b) x = false.
Proof.
  intros Hab. destruct x as [q| | |]; cbn; try reflexivity; try discriminate.
  intros H%Qltb_lt. apply Qltb_ge. lra.
Qed.

(** The scorer is the table: base 50 plus the adjustments of the rules
    that apply, clamped to [0,100]. *)
Lemma fundamental_score_table (a : FundamentalAnalysis) :
  calculate_fundamental_score a
  = Z.max 0 (Z.min 100 (50 + applied_deltas a)).
Proof.
  unfold calculate_fundamental_score, applied_deltas, rule_applies.
  cbn [score_rules map fold_right rule_metric rule_condition rule_delta
       metric_value].
  generalize (get_metric (valuation_metrics a) pe_ratio)
             (get_metric (profitability_metrics a) return_on_equity)
             (get_metric (profitability_metrics a) profit_margin)
             (get_metric (financial_health a) debt_to_equity)
             (get_metric (financial_health a) current_ratio).
  intros pe roe pm de cr.
  rewrite pe_block.
  rewrite (two_sided_block _ 15 15
             (fun x => f_ltb (Fin (15 # 100)) x)
             (fun x => f_ltb x (Fin (5 # 100))))
    by (intros x; apply above_not_below; lra).
  rewrite (two_sided_block _ 10 20
             (fun x => f_ltb (Fin (1 # 10)) x) (fun x => f_ltb x (Fin 0)))
    by (intros x; apply above_not_below; lra).
  rewrite (two_sided_block _ 10 15
             (fun x => f_ltb x (Fin (5 # 10))) (fun x => f_ltb (Fin 2) x))
    by (intros x; apply below_not_above; lra).
  rewrite (two_sided_block _ 5 10
             (fun x => f_ltb (Fin (15 # 10)) x) (fun x => f_ltb x (Fin 1)))
    by (intros x; apply above_not_below; lra).
  f_equal. f_equal.
  change (- (15))%Z with (-15)%Z. change (- (20))%Z with (-20)%Z.
  change (- (10))%Z with (-10)%Z.
  destruct pe, roe, pm, de, cr; cbn beta iota;
    repeat match goal with
           | |- context [if ?b then ?x else ?y] =>
               generalize (if b then x else y); intro
           end;
    lia.
Qed.

(** C1. For every combination of present and absent metrics the
    fundamental score lies in [0,100]; it is the base 50 plus the
    adjustments of the applied rules, clamped to [0,100]; and a rule
    is applied only when its metric is present and its condition
    holds. *)
Theorem fundamental_score_range (a : FundamentalAnalysis) :
  (0 <= calculate_fundamental_score a <= 100)%Z /\
  calculate_fundamental_score a
  = Z.max 0 (Z.min 100 (50 + applied_deltas a)) /\
  (forall r, In r score_rules -> rule_applies a r = true ->
             exists x, metric_value a (rule_metric r) = Some x /\
                       rule_condition r x = true).
Proof.
  split; [|split].
  - rewrite fundamental_score_table. lia.
  - apply fundamental_score_table.
  - intros r _ Happ. unfold rule_applies in Happ.
    destruct (metric_value a (rule_metric r)) as [x|]; [|discriminate].
    apply andb_true_iff in Happ as [_ Hc]. now exists x.
Qed.

(** Scenario C: 50 + 10 + 15 + 10 + 10 + 5 = 100. *)
Example scenario_c_score : calculate_fundamental_score scenario_c = 100%Z.
Proof. reflexivity. Qed.

(** A metric that is present but zero is skipped, as [if pe_ratio:]
    treats it like [None]. *)
Example zero_pe_is_skipped :
  calculate_fundamental_score
    {| valuation_metrics := Some {| pe_ratio := py_num 0 |};
       profitability_metrics := None;
       financial_health := None |} = 50%Z.
Proof. reflexivity. Qed.

(** ** Market trend *)

(** Iterating a dict yields its keys, on which the loop body either
    raises or leaves the counters alone. *)
Lemma count_index_keys (d : list (string * IndexEntry)) (st : Z * Z) :
  for_each count_index (iterate (IndicesDict d)) st = Raise AttributeError \/
  for_each count_index (iterate (IndicesDict d)) st = Ok st.
Proof.
  destruct st as [positive total].
  induction d as [|[key entry] d IH]; cbn [iterate map for_each fst] in *.
  - now right.
  - change (count_index (positive, total) (inl key))
      with (if negb (contains "error" key)
            then @Raise (Z * Z) AttributeError else Ok (positive, total)).
    destruct (contains "error" key); cbn [negb mbind result_bind].
    + exact IH.
    + now left.
Qed.

(** X29. Given the dict that the data agent passes,
    [analyze_market_trends] never succeeds, whatever the indices and
    sectors are: its status is "failed" for every dict of indices. *)
Lemma market_trends_fail_on_dict (d : list (string * IndexEntry))
    (sectors : list (string * SectorEntry)) :
  status (analyze_market_trends
            {| market_indices := IndicesDict d;
               sector_performance := sectors |}) = "failed"%string.
Proof.
  unfold analyze_market_trends. cbn [market_indices].
  destruct (count_index_keys d (0%Z, 0%Z)) as [-> | ->]; reflexivity.
Qed.

(** C6 fails on the code.  For the market overview of five indices,
    three of them up, the loop walks the index names and the call ends
    with status "failed" in place of a bullish, bearish or neutral
    trend. *)
Theorem market_overview_fails :
  analyze_market_trends market_overview = MarketFailed AttributeError /\
  status (analyze_market_trends market_overview) = "failed"%string.
Proof.
  split; reflexivity.
Qed.

Lemma count_index_entries (l : list IndexEntry) :
  Forall (fun e => index_error e = None) l ->
  forall positive total,
    for_each count_index (iterate (IndicesList l)) (positive, total)
    = Ok ((positive + positive_count l)%Z, (total + Z.of_nat (length l))%Z).
Proof.
  unfold positive_count.
  induction 1 as [|e l He _ IH]; intros positive total;
    cbn [iterate map for_each] in *.
  - cbn. f_equal. f_equal; lia.
  - change (count_index (positive, total) (inr e))
      with (match index_error e with
            | None =>
                if Qltb 0 (default 0 (change_percent e))
                then Ok ((positive + 1)%Z, (total + 1)%Z)
                else Ok (positive, (total + 1)%Z)
            | Some _ => Ok (positive, total)
            end).
    rewrite He. cbn [filter list_filter].
    destruct (Qltb 0 (default 0 (change_percent e))) eqn:E.
    + rewrite decide_True by reflexivity.
      cbn [mbind result_bind]. rewrite IH. cbn [length].
      f_equal; f_equal; try lia.
      set (n := length (filter _ _)). clearbody n. lia.
    + rewrite decide_False by discriminate.
      cbn [mbind result_bind]. rewrite IH. cbn [length].
      f_equal; f_equal; lia.
Qed.

(** X30. On a non-empty list of entries without errors
    [analyze_market_trends] succeeds and classifies the trend by the
    fraction of entries with a positive change: bullish above 0.6,
    bearish below 0.4, neutral in between. *)
Lemma market_trend_on_list (l : list IndexEntry)
    (sectors : list (string * SectorEntry)) :
  l <> [] ->
  Forall (fun e => index_error e = None) l ->
  let ratio := inject_Z (positive_count l) / inject_Z (Z.of_nat (length l)) in
  exists analysis,
    analyze_market_trends
      {| market_indices := IndicesList l; sector_performance := sectors |}
    = MarketSuccess analysis /\
    (6 # 10 < ratio -> market_trend analysis = "bullish"%string) /\
    (ratio < 4 # 10 -> market_trend analysis = "bearish"%string) /\
    (4 # 10 <= ratio <= 6 # 10 -> market_trend analysis = "neutral"%string).
Proof.
  intros Hne Hok ratio. unfold analyze_market_trends. cbn [market_indices].
  rewrite (count_index_entries l Hok). cbn [mbind result_bind].
  rewrite !Z.add_0_l. fold ratio.
  destruct (0 <? Z.of_nat (length l))%Z eqn:Hlen.
  - eexists. split; [reflexivity|]. cbn [market_trend].
    repeat cmp; repeat split; intros; try reflexivity; exfalso; lra.
  - apply Z.ltb_ge in Hlen. destruct l; [contradiction | cbn in Hlen; lia].
Qed.

(** ** Indicator engine *)

(** *** Last elements *)

Lemma last_map {A B : Type} (f : A -> B) (l : list A) :
  last (map f l) = option_map f (last l).
Proof.
  induction l as [|x [|y l] IH]; try reflexivity. exact IH.
Qed.

Lemma last_prefixes {A : Type} (s : list A) :
  s <> [] -> last (prefixes s) = Some s.
Proof.
  induction s as [|x [|y s] IH]; intros Hne; [contradiction | reflexivity |].
  change (prefixes (x :: y :: s))
    with ([x] :: map (cons x) (prefixes (y :: s))).
  change (prefixes (y :: s)) with ([y] :: map (cons y) (prefixes s)) at 1.
  cbn [map]. rewrite last_cons_cons.
  change ([x; y] :: map (cons x) (map (cons y) (prefixes s)))
    with (map (cons x) (prefixes (y :: s))).
  rewrite last_map, IH by discriminate. reflexivity.
Qed.

Lemma length_prefixes {A : Type} (s : list A) :
  length (prefixes s) = length s.
Proof.
  induction s as [|x s IH]; simpl; [reflexivity|].
  now rewrite length_map, IH.
Qed.

Lemma last_zip_with {A B C : Type} (f : A -> B -> C) (l : list A) :
  forall k : list B,
    length l = length k ->
    last (zip_with f l k)
    = match last l, last k with
      | Some a, Some b => Some (f a b)
      | _, _ => None
      end.
Proof.
  induction l as [|a [|a' l] IH]; intros [|b [|b' k]] Hlen;
    try discriminate; try reflexivity.
  change (zip_with f (a :: a' :: l) (b :: b' :: k))
    with (f a b :: zip_with f (a' :: l) (b' :: k)).
  change (zip_with f (a' :: l) (b' :: k))
    with (f a' b' :: zip_with f l k) at 1.
  rewrite !last_cons_cons.
  change (f a' b' :: zip_with f l k) with (zip_with f (a' :: l) (b' :: k)).
  apply IH. simpl in Hlen |- *. lia.
Qed.

(** The last value of a rolling aggregate looks at the last [w] values
    of the whole series. *)
Lemma last_rolling (w : nat) (agg : Series -> fval) (s : Series) :
  s <> [] ->
  last (rolling w agg s)
  = Some (if (w <=? length s)%nat && negb (existsb is_nan (tail w s))
          then agg (tail w s) else NaN).
Proof.
  intros Hne. unfold rolling.
  rewrite last_map, last_prefixes by assumption. reflexivity.
Qed.

Lemma length_rolling (w : nat) (agg : Series -> fval) (s : Series) :
  length (rolling w agg s) = length s.
Proof.
  unfold rolling. now rewrite length_map, length_prefixes.
Qed.

(** *** Finite series *)

Lemma tail_map {A B : Type} (f : A -> B) (n : nat) (l : list A) :
  tail n (map f l) = map f (tail n l).
Proof.
  unfold tail. rewrite length_map. generalize (length l - n)%nat as k.
  induction l as [|x l IH]; intros [|k]; simpl; try reflexivity. apply IH.
Qed.

Lemma no_nan_Fin (qs : list Q) : existsb is_nan (map Fin qs) = false.
Proof.
  induction qs as [|q qs IH]; simpl; [reflexivity | exact IH].
Qed.

Lemma length_tail {A : Type} (n : nat) (l : list A) :
  (n <= length l)%nat -> length (tail n l) = n.
Proof.
  intros Hn. unfold tail. rewrite length_drop. lia.
Qed.

Lemma rolling_mean_Fin (w : nat) (qs : list Q) :
  qs <> [] -> (0 < w)%nat ->
  last (rolling w series_mean (map Fin qs))
  = Some (if (w <=? length qs)%nat then Fin (mean_Q (tail w qs)) else NaN).
Proof.
  intros Hne Hw. rewrite last_rolling by (destruct qs; [contradiction | discriminate]).
  rewrite length_map, tail_map, no_nan_Fin, andb_true_r.
  destruct (w <=? length qs)%nat eqn:E; [|reflexivity].
  apply Nat.leb_le in E. rewrite series_mean_Fin; [reflexivity|].
  intros Hnil. apply (f_equal length) in Hnil.
  rewrite length_tail in Hnil by assumption. simpl in Hnil. lia.
Qed.

(** *** RSI *)

Lemma changes_Fin (g : Q -> Q) (h : fval -> fval) (l1 : list Q) :
  (forall d, h (Fin d) = Fin (g d)) ->
  forall l2,
    map h (zip_with (fun prev cur => np_sub cur prev) (map Fin l1) (map Fin l2))
    = map Fin (map g (zip_with (fun prev cur => cur - prev) l1 l2)).
Proof.
  intros Hh. induction l1 as [|p l1 IH]; intros [|c l2]; simpl;
    try reflexivity.
  rewrite IH. f_equal. apply Hh.
Qed.

Lemma gain_input_Fin (closes : list Q) :
  series_where (fun d => f_ltb (Fin 0) d) (Fin 0) (diff (map Fin closes))
  = map Fin (price_gains closes).
Proof.
  destruct closes as [|c closes]; [reflexivity|].
  unfold series_where, price_gains.
  change (diff (map Fin (c :: closes)))
    with (NaN :: zip_with (fun prev cur => np_sub cur prev)
                          (map Fin (c :: closes)) (map Fin closes)).
  change (price_changes (c :: closes))
    with (zip_with (fun prev cur => cur - prev) (c :: closes) closes).
  rewrite (map_cons _ NaN), (map_cons Fin 0). f_equal.
  apply (changes_Fin (fun d => if Qltb 0 d then d else 0)).
  intros d. cbn [f_ltb]. now destruct (Qltb 0 d).
Qed.

Lemma loss_input_Fin (closes : list Q) :
  map np_neg
      (series_where (fun d => f_ltb d (Fin 0)) (Fin 0) (diff (map Fin closes)))
  = map Fin (price_losses closes).
Proof.
  destruct closes as [|c closes]; [reflexivity|].
  unfold series_where, price_losses.
  change (diff (map Fin (c :: closes)))
    with (NaN :: zip_with (fun prev cur => np_sub cur prev)
                          (map Fin (c :: closes)) (map Fin closes)).
  change (price_changes (c :: closes))
    with (zip_with (fun prev cur => cur - prev) (c :: closes) closes).
  rewrite map_map, (map_cons _ NaN), (map_cons Fin (- 0)). f_equal.
  apply (changes_Fin (fun d => - (if Qltb d 0 then d else 0))
                     (fun x => np_neg (if f_ltb x (Fin 0) then x else Fin 0))).
  intros d. cbn [f_ltb]. now destruct (Qltb d 0).
Qed.

Lemma length_price_changes (c : Q) (closes : list Q) :
  length (price_changes (c :: closes)) = length closes.
Proof.
  change (price_changes (c :: closes))
    with (zip_with (fun prev cur => cur - prev) (c :: closes) closes).
  rewrite length_zip_with. cbn [length]. lia.
Qed.

Lemma length_price_gains (closes : list Q) :
  length (price_gains closes) = length closes.
Proof.
  destruct closes as [|c closes]; [reflexivity|].
  unfold price_gains. cbn [length].
  now rewrite length_map, length_price_changes.
Qed.

Lemma length_price_losses (closes : list Q) :
  length (price_losses closes) = length closes.
Proof.
  destruct closes as [|c closes]; [reflexivity|].
  unfold price_losses. cbn [length].
  now rewrite length_map, length_price_changes.
Qed.

(** The last values of the [gain] and [loss] series are the averages
    over the last 14 bars. *)
Lemma rsi_gain_last (df : list PriceBar) :
  df <> [] ->
  last (rsi_gain 14 (column close df))
  = Some (if (14 <=? length df)%nat
          then Fin (avg_gain (map close df)) else NaN).
Proof.
  intros Hne. unfold rsi_gain, column, avg_gain.
  rewrite <- (map_map close Fin), gain_input_Fin.
  rewrite rolling_mean_Fin, length_price_gains, length_map;
    [reflexivity | | lia].
  destruct df; [contradiction | discriminate].
Qed.

Lemma rsi_loss_last (df : list PriceBar) :
  df <> [] ->
  last (rsi_loss 14 (column close df))
  = Some (if (14 <=? length df)%nat
          then Fin (avg_loss (map close df)) else NaN).
Proof.
  intros Hne. unfold rsi_loss, column, avg_loss.
  rewrite <- (map_map close Fin), loss_input_Fin.
  rewrite rolling_mean_Fin, length_price_losses, length_map;
    [reflexivity | | lia].
  destruct df; [contradiction | discriminate].
Qed.

(** The last RSI value in terms of the two averages. *)
Lemma last_rsi_value (df : list PriceBar) :
  df <> [] ->
  last_rsi df
  = Ok (if (14 <=? length df)%nat
        then rsi_of (Fin (avg_gain (map close df)))
                    (Fin (avg_loss (map close df)))
        else NaN).
Proof.
  intros Hne. unfold last_rsi, iloc_last, rsi_series.
  rewrite last_map, last_zip_with
    by (unfold rsi_gain, rsi_loss; rewrite !length_rolling;
        unfold series_where; now rewrite !length_map).
  rewrite rsi_gain_last, rsi_loss_last by assumption.
  destruct (14 <=? length df)%nat; reflexivity.
Qed.

Lemma mean_Q_nonneg (l : list Q) :
  Forall (fun q => 0 <= q) l -> 0 <= mean_Q l.
Proof.
  intros Hl. unfold mean_Q. destruct l as [|x l].
  - vm_compute. discriminate.
  - apply Qle_shift_div_l; [apply length_positive; discriminate|].
    rewrite Qmult_0_l. apply fold_Qplus_nonneg; [assumption | lra].
Qed.

Lemma Forall_tail {A : Type} (P : A -> Prop) (n : nat) (l : list A) :
  Forall P l -> Forall P (tail n l).
Proof.
  intros Hl. unfold tail. now apply Forall_drop.
Qed.

Lemma price_gains_nonneg (closes : list Q) :
  Forall (fun q => 0 <= q) (price_gains closes).
Proof.
  destruct closes as [|c closes]; [constructor|].
  unfold price_gains. constructor; [lra|].
  induction (price_changes (c :: closes)) as [|d ds IH]; simpl;
    [constructor|].
  constructor; [|exact IH]. cmp; lra.
Qed.

Lemma price_losses_nonneg (closes : list Q) :
  Forall (fun q => 0 <= q) (price_losses closes).
Proof.
  destruct closes as [|c closes]; [constructor|].
  unfold price_losses. constructor; [lra|].
  induction (price_changes (c :: closes)) as [|d ds IH]; simpl;
    [constructor|].
  constructor; [|exact IH]. cmp; lra.
Qed.

Lemma avg_gain_nonneg (closes : list Q) : 0 <= avg_gain closes.
Proof.
  apply mean_Q_nonneg, Forall_tail, price_gains_nonneg.
Qed.

Lemma avg_loss_nonneg (closes : list Q) : 0 <= avg_loss closes.
Proof.
  apply mean_Q_nonneg, Forall_tail, price_losses_nonneg.
Qed.

Lemma Qeq_bool_zero (x : Q) : x == 0 -> Qeq_bool x 0 = true.
Proof. apply Qeq_bool_iff. Qed.

(** With no loss the quotient is infinite and the value is 100; with
    a loss it is a number in [0,100). *)
Lemma rsi_of_defined (g l : Q) :
  0 <= g -> 0 <= l -> ~ (g == 0 /\ l == 0) ->
  exists r, rsi_of (Fin g) (Fin l) = Fin r /\
            0 <= r <= 100 /\
            (r == 100 <-> l == 0 /\ 0 < g).
Proof.
  intros Hg Hl Hnz. unfold rsi_of. cbn [np_div].
  destruct (Qeq_bool l 0) eqn:El.
  - apply Qeq_bool_iff in El.
    assert (Hpos : 0 < g).
    { destruct (Qlt_le_dec 0 g) as [?|Hle]; [assumption|].
      exfalso. apply Hnz. split; [lra | assumption]. }
    rewrite Qeq_bool_pos by assumption.
    destruct (Qltb g 0) eqn:Eg; [apply Qltb_lt in Eg; lra|].
    cbn. eexists. split; [reflexivity|].
    repeat split; try lra; assumption.
  - assert (Hlpos : 0 < l).
    { destruct (Qlt_le_dec 0 l) as [?|Hle]; [assumption|].
      assert (l == 0) as H0 by lra.
      apply Qeq_bool_zero in H0. congruence. }
    cbn [np_add np_div].
    assert (Hq : 0 <= g / l)
      by (apply Qle_shift_div_l; [assumption | lra]).
    rewrite Qeq_bool_pos by lra.
    cbn [np_sub np_neg np_add]. eexists. split; [reflexivity|].
    assert (Hx : 0 < 100 / (1 + g / l) <= 100).
    { split.
      - apply Qlt_shift_div_l; lra.
      - apply Qle_shift_div_r; [lra | nra]. }
    repeat split; lra.
Qed.

Lemma rsi_of_undefined (g l : Q) :
  g == 0 -> l == 0 -> rsi_of (Fin g) (Fin l) = NaN.
Proof.
  intros Hg Hl. unfold rsi_of. cbn [np_div].
  now rewrite !Qeq_bool_zero by assumption.
Qed.

(** [calculate_rsi] returns the last value when it is a number, and
    raises when it is NaN. *)
Lemma calculate_rsi_number (df : list PriceBar) (r : Q) :
  last_rsi df = Ok (Fin r) ->
  exists res, calculate_rsi df = Ok res /\ current_rsi res = Some (Fin r).
Proof.
  intros Hlast. unfold calculate_rsi.
  change (iloc_last (rsi_series 14 (column close df))) with (last_rsi df).
  rewrite Hlast. cbn.
  destruct (Qltb 70 r), (Qltb r 30); eexists; split; reflexivity.
Qed.

Lemma calculate_rsi_nan (df : list PriceBar) :
  last_rsi df = Ok NaN -> calculate_rsi df = Raise TypeError.
Proof.
  intros Hlast. unfold calculate_rsi.
  change (iloc_last (rsi_series 14 (column close df))) with (last_rsi df).
  now rewrite Hlast.
Qed.

(** Where the RSI is defined.  For at least 14 bars whose average gain
    and average loss over the last 14 are not both zero, the RSI is a
    number in [0,100], and it is 100 exactly when the average loss is 0
    and the average gain is positive.  The averages are the last values
    of the [gain] and [loss] series of [calculate_rsi]. *)
Theorem rsi_range (df : list PriceBar) :
  (14 <= length df)%nat ->
  ~ (avg_gain (map close df) == 0 /\ avg_loss (map close df) == 0) ->
  iloc_last (rsi_gain 14 (column close df))
  = Ok (Fin (avg_gain (map close df))) /\
  iloc_last (rsi_loss 14 (column close df))
  = Ok (Fin (avg_loss (map close df))) /\
  exists res r,
    calculate_rsi df = Ok res /\
    current_rsi res = Some (Fin r) /\
    0 <= r <= 100 /\
    (r == 100 <->
     avg_loss (map close df) == 0 /\ 0 < avg_gain (map close df)).
Proof.
  intros Hlen Hnz.
  assert (Hne : df <> []) by (destruct df; [simpl in Hlen; lia | discriminate]).
  pose proof (last_rsi_value df Hne) as Hlast.
  pose proof (rsi_gain_last df Hne) as Hgain.
  pose proof (rsi_loss_last df Hne) as Hloss.
  apply Nat.leb_le in Hlen. rewrite Hlen in Hlast, Hgain, Hloss.
  unfold iloc_last. rewrite Hgain, Hloss.
  split; [reflexivity|]. split; [reflexivity|].
  destruct (rsi_of_defined _ _ (avg_gain_nonneg (map close df))
              (avg_loss_nonneg (map close df)) Hnz) as (r & Hr & Hb & Hiff).
  rewrite Hr in Hlast.
  destruct (calculate_rsi_number df r Hlast) as (res & Hres & Hcur).
  exists res, r. split; [assumption|]. split; [assumption|].
  split; [exact Hb | exact Hiff].
Qed.

Lemma rsi_range_witness :
  exists res r,
    calculate_rsi (rising_bars 15) = Ok res /\
    current_rsi res = Some (Fin r) /\
    0 <= r <= 100.
Proof.
  destruct (rsi_range (rising_bars 15)) as (_ & _ & res & r & H1 & H2 & H3 & _).
  - vm_compute. lia.
  - vm_compute. intros [H _]. discriminate H.
  - exists res, r. split; [assumption|]. split; [assumption | exact H3].
Defined.

(** With fewer than 14 bars, or with no gain and no loss in the last
    14, the RSI is NaN and [calculate_rsi] raises. *)
Lemma rsi_absent (df : list PriceBar) :
  df <> [] ->
  (length df < 14)%nat \/
  (avg_gain (map close df) == 0 /\ avg_loss (map close df) == 0) ->
  last_rsi df = Ok NaN /\ calculate_rsi df = Raise TypeError.
Proof.
  intros Hne Hcase.
  assert (Hnan : last_rsi df = Ok NaN).
  { rewrite (last_rsi_value df Hne).
    destruct (14 <=? length df)%nat eqn:E; [|reflexivity].
    destruct Hcase as [Hlt | [Hg Hl]].
    - apply Nat.leb_le in E. lia.
    - now rewrite rsi_of_undefined. }
  split; [assumption | now apply calculate_rsi_nan].
Qed.

(** On fifteen bars at one price the average loss is 0, the RSI is
    NaN, not a value in [0,100], and [calculate_rsi] raises. *)
Lemma flat_series_has_no_rsi :
  avg_loss (map close flat_bars) == 0 /\
  last_rsi flat_bars = Ok NaN /\
  calculate_rsi flat_bars = Raise TypeError /\
  ~ (exists r, last_rsi flat_bars = Ok (Fin r) /\ 0 <= r <= 100).
Proof.
  repeat split; try (vm_compute; reflexivity).
  intros (r & Hr & _). vm_compute in Hr. discriminate Hr.
Qed.

(** *** A single bar *)

(** With one bar the rolling averages are absent. *)
Lemma single_bar_moving_averages (bar : PriceBar) :
  exists ma,
    calculate_moving_averages [bar] = Ok ma /\
    sma_20 ma = None /\ sma_50 ma = None /\ sma_200 ma = None /\
    ma_signals ma = [].
Proof.
  destruct bar. eexists. split; [reflexivity|]. repeat split.
Qed.

(** C5 fails on the code.  For one bar, whatever its values, the RSI
    is NaN, [calculate_rsi] raises a TypeError on comparing [None]
    with 70, and [analyze_stock] returns an error dict in place of a
    NEUTRAL signal with confidence 0.5. *)
Theorem single_bar_analysis_fails (np_sqrt : Q -> Q) (bar : PriceBar)
    (price : pyval) :
  last_rsi [bar] = Ok NaN /\
  calculate_rsi [bar] = Raise TypeError /\
  analyze_stock np_sqrt (StockOk [bar] price)
  = TechError (AnalysisFailed TypeError).
Proof.
  destruct bar. repeat split; reflexivity.
Qed.

(** * Further properties *)

(** ** Recommendation synthesizer: monotonicity and reach *)

Lemma combined_score_monotone (sig : Signal) (c1 c2 f1 f2 r1 r2 : Q) :
  c1 <= c2 -> f1 <= f2 -> r2 <= r1 ->
  combined_score sig c1 f1 r1 <= combined_score sig c2 f2 r2.
Proof.
  intros Hc Hf Hr. unfold combined_score. at_Q. destruct sig; lra.
Qed.

(** X1. For a fixed technical signal, raising the technical confidence or
    the fundamental score, or lowering the risk score, never yields a
    less bullish action.  This holds for a BEARISH signal too: its
    base score 20 is multiplied by the confidence, so more confidence
    in a bearish signal raises the combined score. *)
Theorem action_monotone_in_inputs (sig : Signal) (c1 c2 f1 f2 r1 r2 : Q) :
  c1 <= c2 -> f1 <= f2 -> r2 <= r1 ->
  (action_rank (action (generate_stock_recommendation sig c1 f1 r1)) <=
   action_rank (action (generate_stock_recommendation sig c2 f2 r2)))%nat.
Proof.
  intros Hc Hf Hr.
  pose proof (combined_score_monotone sig c1 c2 f1 f2 r1 r2 Hc Hf Hr) as Hle.
  unfold generate_stock_recommendation.
  set (s1 := combined_score sig c1 f1 r1) in *.
  set (s2 := combined_score sig c2 f2 r2) in *.
  at_Q.
  repeat cmp; simpl; try lia; exfalso; lra.
Qed.

Lemma action_monotone_in_inputs_witness :
  (action_rank (action (generate_stock_recommendation
                          BEARISH (3 # 10)%Q 40%Q 60%Q)) <=
   action_rank (action (generate_stock_recommendation
                          BEARISH (9 # 10)%Q 90%Q 10%Q)))%nat.
Proof.
  apply action_monotone_in_inputs; vm_compute; discriminate.
Defined.

(** X2. For a confidence in [0,1] and scores in [0,100] the combined score
    lies in [0,92]: the value 100 is out of reach.  A NEUTRAL signal
    caps it at 80 and a BEARISH signal at 68, so a BEARISH signal never
    gives STRONG_BUY. *)
Theorem combined_score_reach (sig : Signal) (c f r : Q) :
  0 <= c <= 1 -> 0 <= f <= 100 -> 0 <= r <= 100 ->
  0 <= combined_score sig c f r <= 92 /\
  (sig = NEUTRAL -> combined_score sig c f r <= 80) /\
  (sig = BEARISH ->
   combined_score sig c f r <= 68 /\
   action (generate_stock_recommendation sig c f r) <> STRONG_BUY).
Proof.
  intros Hc Hf Hr.
  assert (Hs : 0 <= combined_score sig c f r <= 92 /\
               (sig = NEUTRAL -> combined_score sig c f r <= 80) /\
               (sig = BEARISH -> combined_score sig c f r <= 68)).
  { unfold combined_score. at_Q.
    destruct sig; repeat split; intros; try discriminate; lra. }
  destruct Hs as (H0 & Hn & Hb). split; [exact H0 | split; [exact Hn |]].
  intros ->. specialize (Hb eq_refl). split; [exact Hb |].
  unfold generate_stock_recommendation.
  set (s := combined_score BEARISH c f r) in *.
  at_Q. repeat cmp; simpl; try discriminate; exfalso; lra.
Qed.

Lemma combined_score_reach_witness :
  0 <= combined_score BEARISH 1 100 (0 : Q) <= 92 /\
  (BEARISH = NEUTRAL -> combined_score BEARISH 1 100 (0 : Q) <= 80) /\
  (BEARISH = BEARISH ->
   combined_score BEARISH 1 100 (0 : Q) <= 68 /\
   action (generate_stock_recommendation BEARISH 1 100 (0 : Q)) <> STRONG_BUY).
Proof.
  apply combined_score_reach; split; vm_compute; discriminate.
Defined.

(** X3. The position size never grows with the risk score and never
    shrinks with a (non-negative) confidence, and the clamps keep it in
    [1,25] whatever the inputs are. *)
Theorem position_size_monotone (r1 r2 c1 c2 : Q) :
  r1 <= r2 -> 0 <= c1 <= c2 ->
  calculate_position_size r2 c1 <= calculate_position_size r1 c2 /\
  1 <= calculate_position_size r2 c1 /\
  calculate_position_size r1 c2 <= 25.
Proof.
  intros Hr [Hc0 Hc].
  unfold calculate_position_size.
  at_Q.
  assert (Hm : 2 # 10 <= py_max (2 # 10) ((100 - r2) / 100)
               <= py_max (2 # 10) ((100 - r1) / 100)).
  { assert (Hd : (100 - r2) / 100 <= (100 - r1) / 100).
    { unfold Qdiv. apply Qmult_le_compat_r; [lra | discriminate]. }
    unfold py_max. at_Q.
    set (d1 := (100 - r1) / 100) in *. set (d2 := (100 - r2) / 100) in *.
    repeat cmp; split; lra. }
  set (m1 := py_max (2 # 10) ((100 - r1) / 100)) in *.
  set (m2 := py_max (2 # 10) ((100 - r2) / 100)) in *.
  assert (Hp : 10 * m2 * c1 <= 10 * m1 * c2) by nra.
  set (p1 := 10 * m1 * c2) in *. set (p2 := 10 * m2 * c1) in *.
  unfold py_min, py_max. at_Q.
  repeat cmp; repeat split; lra.
Qed.

Lemma position_size_monotone_witness :
  calculate_position_size 80%Q (5 # 10)%Q
  <= calculate_position_size 20%Q (9 # 10)%Q /\
  1 <= calculate_position_size 80%Q (5 # 10)%Q /\
  calculate_position_size 20%Q (9 # 10)%Q <= 25.
Proof.
  apply position_size_monotone; [| split]; vm_compute; discriminate.
Defined.

(** ** Trading signals *)

(** The vote counts decide the signal, and the confidence is the share
    of the winning side. *)
Lemma signals_by_majority (indicators : Indicators) :
  let ts := generate_signals indicators in
  let b := bullish_indicators ts in
  let s := bearish_indicators ts in
  ((s < b)%nat /\ overall_signal ts = BULLISH /\
   ts_confidence ts == inject_Z (Z.of_nat b) / inject_Z (Z.of_nat (b + s)) /\
   1 # 2 < ts_confidence ts <= 1) \/
  ((b < s)%nat /\ overall_signal ts = BEARISH /\
   ts_confidence ts == inject_Z (Z.of_nat s) / inject_Z (Z.of_nat (b + s)) /\
   1 # 2 < ts_confidence ts <= 1) \/
  (b = s /\ overall_signal ts = NEUTRAL /\ ts_confidence ts = 1 # 2).
Proof.
  unfold generate_signals.
  destruct (fold_left tally _ _) as [b s].
  assert (Hshare : forall w l : nat, (l < w)%nat ->
            let q := inject_Z (Z.of_nat w) / inject_Z (Z.of_nat (w + l)) in
            1 # 2 < q <= 1 /\ py_min q 1 = q).
  { intros w l Hlt q.
    assert (Hw : inject_Z (Z.of_nat l) < inject_Z (Z.of_nat w))
      by (rewrite <- Zlt_Qlt; lia).
    assert (Hl : 0 <= inject_Z (Z.of_nat l))
      by (change 0 with (inject_Z 0); rewrite <- Zle_Qle; lia).
    assert (Hsum : inject_Z (Z.of_nat (w + l))
                   == inject_Z (Z.of_nat w) + inject_Z (Z.of_nat l))
      by (rewrite Nat2Z.inj_add, inject_Z_plus; reflexivity).
    assert (Hq : 1 # 2 < q <= 1).
    { subst q. rewrite Hsum. split.
      - apply Qlt_shift_div_l; lra.
      - apply Qle_shift_div_r; lra. }
    split; [exact Hq |].
    unfold py_min. at_Q. cmp; [exfalso; lra | reflexivity]. }
  destruct (Nat.ltb_spec s b) as [Hsb | Hsb].
  - left. cbn [overall_signal ts_confidence bullish_indicators bearish_indicators].
    destruct (Hshare b s Hsb) as [Hq ->].
    repeat split; try tauto; try lia; try reflexivity.
  - destruct (Nat.ltb_spec b s) as [Hbs | Hbs].
    + right; left.
      cbn [overall_signal ts_confidence bullish_indicators bearish_indicators].
      destruct (Hshare s b Hbs) as [Hq Hmin].
      rewrite (Nat.add_comm b s). rewrite Hmin.
      repeat split; try tauto; try lia; try reflexivity.
    + right; right.
      cbn [overall_signal ts_confidence bullish_indicators bearish_indicators].
      repeat split; try lia; try reflexivity.
Qed.


(** ** Risk levels and the fallback estimator *)

(** A larger risk score never gives a lower risk level. *)
Lemma risk_level_monotone (r1 r2 : Q) :
  r1 <= r2 ->
  (level_rank (classify_risk_level r1) <= level_rank (classify_risk_level r2))%nat.
Proof.
  intros Hle. unfold classify_risk_level.
  repeat cmp; simpl; try lia; exfalso; lra.
Qed.

(** The scores that the fallback estimator can give. *)
Lemma fallback_entry_scores (tech_data : option TechData) (m : RiskMetrics) :
  fallback_entry tech_data = RiskOk m ->
  (risk_score m = 35 \/ risk_score m = 50 \/
   risk_score m = 65 \/ risk_score m = 75) /\
  volatility_annualized m = 32 # 100.
Proof.
  unfold fallback_entry.
  destruct tech_data as [[err | price indicators ts] |];
    try discriminate.
  - destruct (signal_eqb _ BULLISH && _);
      [| destruct (signal_eqb _ BEARISH && _); [| destruct (Qltb _ _)]];
      intros [= <-]; simpl; tauto.
  - simpl. intros [= <-]; simpl; tauto.
Qed.

(** The fallback score of signals that [generate_signals] produced. *)
Lemma fallback_of_signals (price : pyval) (indicators : Indicators) :
  let ts := generate_signals indicators in
  exists m,
    fallback_entry (Some (TechReport price indicators ts)) = RiskOk m /\
    1 # 2 <= ts_confidence ts <= 1 /\
    (overall_signal ts = NEUTRAL -> ts_confidence ts = 1 # 2) /\
    ((overall_signal ts = BULLISH /\ 7 # 10 < ts_confidence ts /\
      risk_score m = 35) \/
     (overall_signal ts = BEARISH /\ 7 # 10 < ts_confidence ts /\
      risk_score m = 75) \/
     (ts_confidence ts <= 7 # 10 /\ risk_score m = 50)).
Proof.
  intros ts.
  pose proof (signals_by_majority indicators) as H. cbv zeta in H.
  change (generate_signals indicators) with ts in H.
  clearbody ts. unfold fallback_entry.
  assert (Hrange : 1 # 2 <= ts_confidence ts <= 1 /\
                   (overall_signal ts = NEUTRAL -> ts_confidence ts = 1 # 2)).
  { destruct H as [(_ & Hsig & _ & Hr) | [(_ & Hsig & _ & Hr) | (_ & Hsig & Hc)]].
    - split; [lra | rewrite Hsig; discriminate].
    - split; [lra | rewrite Hsig; discriminate].
    - rewrite Hc. split; [split; discriminate | reflexivity]. }
  destruct Hrange as [Hr Hn].
  destruct (signal_eqb (overall_signal ts) BULLISH
            && Qltb (7 # 10) (ts_confidence ts)) eqn:Eb.
  { apply andb_true_iff in Eb as [Es Ec]. apply Qltb_lt in Ec.
    eexists. repeat split; try reflexivity; try tauto. left.
    destruct (overall_signal ts); try discriminate. auto. }
  destruct (signal_eqb (overall_signal ts) BEARISH
            && Qltb (7 # 10) (ts_confidence ts)) eqn:Es.
  { apply andb_true_iff in Es as [Es Ec]. apply Qltb_lt in Ec.
    eexists. repeat split; try reflexivity; try tauto. right; left.
    destruct (overall_signal ts); try discriminate. auto. }
  destruct (Qltb (ts_confidence ts) (3 # 10)) eqn:El.
  { apply Qltb_lt in El. exfalso. lra. }
  eexists. repeat split; try reflexivity; try tauto. right; right.
  split; [| reflexivity].
  destruct (Qltb (7 # 10) (ts_confidence ts)) eqn:Ec;
    [| now apply Qltb_ge in Ec].
  rewrite !andb_true_r in Eb, Es. exfalso.
  destruct H as [(_ & Hsig & _) | [(_ & Hsig & _) | (_ & Hsig & Hc)]];
    rewrite Hsig in *; try discriminate.
  rewrite Hc in Ec. discriminate.
Qed.

(** X5. On trading signals that [generate_signals] produced, the fallback
    estimator gives the risk score 35 exactly when the technical
    recommendation is STRONG BUY, 75 exactly when it is STRONG SELL and
    50 otherwise.  The score 65 of the low-confidence branch is never
    given, since a generated confidence is at least 1/2. *)
Theorem fallback_of_generated_signals (price : pyval)
    (indicators : Indicators) :
  let ts := generate_signals indicators in
  exists m,
    fallback_entry (Some (TechReport price indicators ts)) = RiskOk m /\
    risk_score m <> 65 /\
    (risk_score m = 35 <-> ts_recommendation ts = "STRONG BUY"%string) /\
    (risk_score m = 75 <-> ts_recommendation ts = "STRONG SELL"%string) /\
    (risk_score m = 50 <->
     ts_recommendation ts <> "STRONG BUY"%string /\
     ts_recommendation ts <> "STRONG SELL"%string).
Proof.
  intros ts.
  destruct (fallback_of_signals price indicators) as (m & Hm & Hcases).
  fold ts in Hm, Hcases. exists m. split; [exact Hm|].
  assert (Hrec : ts_recommendation ts
                 = get_recommendation (overall_signal ts) (ts_confidence ts)).
  { subst ts. unfold generate_signals.
    destruct (fold_left tally _ _) as [b s].
    destruct (s <? b)%nat; [reflexivity|].
    destruct (b <? s)%nat; reflexivity. }
  rewrite Hrec. clear Hrec Hm. unfold get_recommendation.
  destruct Hcases as (Hr & _ & [(Hsig & Hc & Hs) | [(Hsig & Hc & Hs) | (Hc & Hs)]]);
    rewrite Hs; try rewrite Hsig.
  - apply Qltb_lt in Hc. rewrite Hc.
    repeat split; intros; try discriminate; try reflexivity; try tauto.
  - apply Qltb_lt in Hc. rewrite Hc.
    repeat split; intros; try discriminate; try reflexivity; try tauto.
  - assert (Hlow : Qltb (7 # 10) (ts_confidence ts) = false)
      by (apply Qltb_ge; lra).
    rewrite Hlow.
    destruct (overall_signal ts); try destruct (Qltb (6 # 10) _);
      repeat split; intros; try discriminate; try reflexivity.
Qed.

(** ** The risk assessment always estimates *)

Lemma risk_stock_data_empty_histories (symbols : list string)
    (technical_analysis : gmap string TechData) :
  forall acc : gmap string RiskStockEntry,
    map_Forall (fun _ e => forall c p, e = StockHistory c p -> c = []) acc ->
    map_Forall (fun _ e => forall c p, e = StockHistory c p -> c = [])
      (fold_left
         (fun stock_data symbol =>
            match technical_analysis !! symbol with
            | Some (TechReport price _ _) =>
                <[symbol := StockHistory [] price]> stock_data
            | Some (TechError err) => <[symbol := NoStockData err]> stock_data
            | None => stock_data
            end)
         symbols acc).
Proof.
  induction symbols as [|k ks IH]; intros acc Hacc; cbn [fold_left];
    [exact Hacc|].
  apply IH.
  destruct (technical_analysis !! k) as [[err | price ind ts] |];
    [| | exact Hacc]; apply map_Forall_insert_2; try exact Hacc.
  - intros c p [=].
  - intros c p [= <- _]. reflexivity.
Qed.

(** X6. [execute_risk_assessment] builds every [stock_data] entry with an
    empty [Close] history, so its test for usable history is false for
    every list of symbols and every technical analysis: the risk
    metrics always come from the fallback estimator, never from
    [calculate_risk_metrics]. *)
Theorem assessment_never_measures (symbols : list string)
    (technical_analysis : gmap string TechData) :
  has_usable_history (risk_stock_data symbols technical_analysis) = false.
Proof.
  unfold has_usable_history, risk_stock_data.
  pose proof (risk_stock_data_empty_histories symbols technical_analysis ∅
                (map_Forall_empty _)) as Hall.
  set (sd := fold_left _ symbols ∅) in *. clearbody sd.
  apply not_true_iff_false. intros Hex.
  apply existsb_exists in Hex as (e & Hin & He).
  apply in_map_iff in Hin as ([k e'] & <- & Hin).
  apply list_elem_of_In, elem_of_map_to_list in Hin.
  specialize (Hall k e' Hin). simpl in He.
  destruct e' as [err | c p]; [discriminate|].
  rewrite (Hall c p eq_refl) in He. discriminate.
Qed.

(** ** Overall strategy *)


(** ** The recommendations dict *)

Lemma dict_get_set {V : Type} (k k' : string) (v : V) (d : list (string * V)) :
  dict_get k (dict_set k' v d)
  = if String.eqb k k' then Some v else dict_get k d.
Proof.
  induction d as [|[k0 v0] d IH]; simpl.
  - reflexivity.
  - destruct (String.eqb_spec k' k0) as [-> | Hne]; simpl.
    + destruct (String.eqb k k0); reflexivity.
    + rewrite IH. destruct (String.eqb_spec k k0) as [-> | Hne'].
      * destruct (String.eqb_spec k0 k') as [-> | _];
          [contradiction | reflexivity].
      * reflexivity.
Qed.

Lemma dict_set_keys {V : Type} (k : string) (v : V) (d : list (string * V)) :
  List.NoDup (map fst d) ->
  List.NoDup (map fst (dict_set k v d)) /\
  (forall k', In k' (map fst (dict_set k v d)) <-> k' = k \/ In k' (map fst d)).
Proof.
  induction d as [|[k0 v0] d IH]; simpl; intros Hnd.
  - split; [constructor; [intros [] | constructor] |].
    intros k'. intuition congruence.
  - inversion Hnd as [|? ? Hk0 Hd]; subst.
    destruct (String.eqb_spec k k0) as [-> | Hne]; simpl.
    + split; [constructor; assumption |].
      intros k'. intuition congruence.
    + destruct (IH Hd) as [IHnd IHin]. split.
      * constructor; [| exact IHnd].
        intros Hin. apply IHin in Hin as [-> | Hin]; [now apply Hne | now apply Hk0].
      * intros k'. rewrite IHin. intuition congruence.
Qed.

Lemma dict_fold_lookup {V : Type} (g : string -> V) (symbols : list string) :
  forall (acc : list (string * V)) (s : string),
    dict_get s (fold_left (fun d k => dict_set k (g k) d) symbols acc)
    = if decide (s ∈ symbols) then Some (g s) else dict_get s acc.
Proof.
  induction symbols as [|k ks IH]; intros acc s; cbn [fold_left].
  - rewrite decide_False; [reflexivity | apply not_elem_of_nil].
  - rewrite IH. destruct (decide (s ∈ ks)) as [Hin|Hnin].
    + rewrite decide_True; [reflexivity | now apply elem_of_cons; right].
    + rewrite dict_get_set.
      destruct (String.eqb_spec s k) as [-> | Hne].
      * rewrite decide_True by (apply elem_of_cons; now left). reflexivity.
      * rewrite decide_False; [reflexivity|].
        intros [?|?]%elem_of_cons; contradiction.
Qed.

Lemma dict_fold_keys {V : Type} (g : string -> V) (symbols : list string) :
  forall acc : list (string * V),
    List.NoDup (map fst acc) ->
    List.NoDup (map fst (fold_left (fun d k => dict_set k (g k) d) symbols acc)).
Proof.
  induction symbols as [|k ks IH]; intros acc Hnd; cbn [fold_left];
    [exact Hnd|].
  apply IH. now apply dict_set_keys.
Qed.

(** X8. [generate_investment_recommendations] writes one entry per distinct
    symbol of the request and none for any other symbol; the entry is
    the one computed from the symbol's technical, fundamental and risk
    data, and it is INSUFFICIENT_DATA exactly when one of the three
    carries an error. *)
Theorem recommendations_cover_symbols (symbols : list string)
    (technical_analysis : gmap string TechData)
    (fundamental_analysis : gmap string FundData)
    (risk_metrics : gmap string RiskEntry) (symbol : string) :
  let out := generate_investment_recommendations
               symbols technical_analysis fundamental_analysis risk_metrics in
  let entry := dict_get symbol (individual_recommendations out) in
  List.NoDup (map fst (individual_recommendations out)) /\
  (symbol ∈ symbols ->
   entry = Some (recommend_symbol (technical_analysis !! symbol)
                                  (fundamental_analysis !! symbol)
                                  (risk_metrics !! symbol))) /\
  (symbol ∉ symbols -> entry = None) /\
  (symbol ∈ symbols ->
   (exists reason, entry = Some (NoRec reason)) <->
   (exists err, technical_analysis !! symbol = Some (TechError err)) \/
   (exists msg, fundamental_analysis !! symbol = Some (FundError msg)) \/
   (exists msg, risk_metrics !! symbol = Some (RiskError msg))).
Proof.
  intros out entry. subst entry out.
  unfold generate_investment_recommendations.
  cbn [individual_recommendations].
  set (g := fun k => recommend_symbol (technical_analysis !! k)
                                      (fundamental_analysis !! k)
                                      (risk_metrics !! k)).
  change (fold_left _ symbols [])
    with (fold_left (fun d k => dict_set k (g k) d) symbols []).
  rewrite (dict_fold_lookup g symbols [] symbol).
  split; [apply dict_fold_keys; constructor|].
  split; [intros Hin; now rewrite decide_True by assumption|].
  split; [intros Hin; now rewrite decide_False by assumption|].
  intros Hin. rewrite decide_True by assumption. subst g. cbv beta.
  unfold recommend_symbol.
  destruct (technical_analysis !! symbol) as [[err | price ind ts] |];
    destruct (fundamental_analysis !! symbol) as [[msg | an sc sm] |];
    destruct (risk_metrics !! symbol) as [[msg' | m] |];
    cbv iota beta;
    try destruct (calculate_price_targets _ _ _) as [sl tp];
    split;
    try (intros [reason [= ?]]; fail);
    try (intros _; eexists; reflexivity);
    try (intros [[? [= ?]] | [[? [= ?]] | [? [= ?]]]]; fail);
    eauto.
Qed.

Lemma recommendations_cover_symbols_witness :
  dict_get "AAPL"%string
    (individual_recommendations
       (generate_investment_recommendations
          ["AAPL"%string] sample_analysis ∅
          (_generate_fallback_risk_metrics ["AAPL"%string] sample_analysis)))
  = Some (recommend_symbol
            (sample_analysis !! "AAPL"%string)
            ((∅ : gmap string FundData) !! "AAPL"%string)
            (_generate_fallback_risk_metrics ["AAPL"%string] sample_analysis
               !! "AAPL"%string)).
Proof.
  apply (recommendations_cover_symbols ["AAPL"%string] sample_analysis ∅
           (_generate_fallback_risk_metrics ["AAPL"%string] sample_analysis)
           "AAPL"%string).
  apply elem_of_cons. now left.
Defined.

(** ** The recommendation of a symbol on estimated risk *)

Lemma fundamental_score_in_range (analysis : FundamentalAnalysis) :
  (0 <= calculate_fundamental_score analysis <= 100)%Z.
Proof.
  unfold calculate_fundamental_score.
  match goal with |- (0 <= Z.max 0 (Z.min 100 ?x) <= 100)%Z =>
    generalize x; intros z; lia
  end.
Qed.

(** X9. The recommendation for a symbol whose signals come from
    [generate_signals], whose fundamental score comes from
    [calculate_fundamental_score] and whose risk is estimated by the
    fallback: its confidence lies in [0.7,1], its position size in
    (1.75,6.5] and its risk level is MODERATE or HIGH.  With a BEARISH
    signal the action is HOLD at best, whatever the fundamentals; with
    a NEUTRAL signal it is never STRONG_BUY, the confidence is 0.7 and
    the position size 2.5. *)
Theorem estimated_risk_recommendation (price : pyval)
    (indicators : Indicators) (analysis : FundamentalAnalysis)
    (summary : string) :
  let ts := generate_signals indicators in
  let tech := Some (TechReport price indicators ts) in
  let fund := Some (FundReport analysis (calculate_fundamental_score analysis)
                               summary) in
  exists a c ps cp tp sl lvl th kr,
    recommend_symbol tech fund (Some (fallback_entry tech))
    = FullRec a c ps cp tp sl lvl th kr /\
    7 # 10 <= c <= 1 /\
    7 # 4 < ps <= 13 # 2 /\
    (lvl = MODERATE \/ lvl = HIGH) /\
    (overall_signal ts = BEARISH -> (action_rank a <= 2)%nat) /\
    (overall_signal ts = NEUTRAL ->
     a <> STRONG_BUY /\ c == 7 # 10 /\ ps == 5 # 2).
Proof.
  intros ts tech fund.
  destruct (fallback_of_signals price indicators)
    as (m & Hm & Hr & Hn & Hcases).
  fold ts in Hm, Hr, Hn, Hcases. fold tech in Hm.
  pose proof (fundamental_score_in_range analysis) as Hf.
  assert (Hf' : 0 <= inject_Z (calculate_fundamental_score analysis) <= 100).
  { split; [change 0 with (inject_Z 0) | change 100 with (inject_Z 100)];
      rewrite <- Zle_Qle; lia. }
  unfold recommend_symbol. rewrite Hm. subst tech fund. cbv iota beta.
  destruct (calculate_price_targets _ _ _) as [sl tp].
  do 9 eexists. split; [reflexivity|].
  set (f := inject_Z (calculate_fundamental_score analysis)) in *.
  set (c0 := ts_confidence ts) in *. set (sig := overall_signal ts) in *.
  clearbody f c0 sig. clear Hm Hf.
  unfold generate_stock_recommendation, calculate_position_size,
    classify_risk_level, combined_score, py_min, py_max.
  at_Q.
  destruct Hcases as [(Hsig & Hc & Hs) | [(Hsig & Hc & Hs) | (Hc & Hs)]];
    rewrite Hs.
  - rewrite Hsig.
    change (Qltb (2 # 10) ((100 - 35) / 100)) with true. cbv iota.
    unfold Qdiv. change (/ 100) with (1 # 100).
    repeat split; intros; try discriminate; repeat cmp; simpl;
      try lra; try lia; auto.
  - rewrite Hsig.
    change (Qltb (2 # 10) ((100 - 75) / 100)) with true. cbv iota.
    unfold Qdiv. change (/ 100) with (1 # 100).
    repeat split; intros; try discriminate; repeat cmp; simpl;
      try lra; try lia; auto.
  - change (Qltb (2 # 10) ((100 - 50) / 100)) with true. cbv iota.
    unfold Qdiv. change (/ 100) with (1 # 100).
    destruct sig; try (rewrite (Hn eq_refl) in *; clear Hn);
      repeat split; intros; try discriminate; repeat cmp; simpl;
      try lra; try lia; auto; try (intros [=]; fail).
Qed.

(** ** Positions and buy signals *)

Lemma buy_items_count {F : Type} (recs : list (string * Recommendation F)) :
  length (buy_items recs)
  = count_actions is_buy (map (fun it => recommendation_label (snd it)) recs).
Proof.
  unfold count_actions, buy_items.
  induction recs as [|[k r] recs IH]; [reflexivity|].
  destruct r as [a c ps | reason]; [destruct a|]; simpl;
    try (f_equal; exact IH); exact IH.
Qed.

Lemma positions_of_distinct_keys (recs : list (string * Recommendation Q)) :
  List.NoDup (map fst recs) ->
  map fst (stock_allocations (generate_portfolio_allocation recs))
  = map fst (buy_items recs).
Proof.
  intros Hnd. unfold generate_portfolio_allocation.
  rewrite (allocation_fold recs [] (of_Z 0)) by exact Hnd.
  cbn [app]. destruct (ltb _ _); cbn [stock_allocations]; [| reflexivity].
  rewrite map_map. apply map_ext. now intros [k a].
Qed.

Lemma buy_items_keys {F : Type} (recs : list (string * Recommendation F))
    (symbol : string) :
  In symbol (map fst (buy_items recs)) -> In symbol (map fst recs).
Proof.
  unfold buy_items.
  induction recs as [|[k r] recs IH]; [intros []|].
  cbn [omap list_omap map fst].
  destruct r as [a c ps | reason]; [destruct (is_buy a)|]; simpl;
    intros H; auto.
  destruct H as [-> | H]; auto.
Qed.

Lemma buy_items_lookup {F : Type} (recs : list (string * Recommendation F))
    (symbol : string) :
  List.NoDup (map fst recs) ->
  In symbol (map fst (buy_items recs)) <->
  exists a c ps, dict_get symbol recs = Some (Rec a c ps) /\ is_buy a = true.
Proof.
  induction recs as [|[k r] recs IH]; intros Hnd.
  - simpl. split; [intros [] | intros (? & ? & ? & [=] & _)].
  - inversion Hnd as [|? ? Hk Hrest]; subst. specialize (IH Hrest).
    pose proof (buy_items_keys recs symbol) as Hkeys.
    unfold buy_items in *. cbn [omap list_omap dict_get].
    destruct (String.eqb_spec symbol k) as [-> | Hne].
    + destruct r as [a c ps | reason]; [destruct (is_buy a) eqn:Ea|]; simpl.
      * split; [intros _; eauto | intros _; now left].
      * split; [intros H; exfalso; apply Hk, Hkeys, H|].
        intros (? & ? & ? & [= -> _ _] & Hb). congruence.
      * split; [intros H; exfalso; apply Hk, Hkeys, H|].
        intros (? & ? & ? & [=] & _).
    + rewrite <- IH.
      destruct r as [a c ps | reason]; [destruct (is_buy a)|]; simpl;
        intuition congruence.
Qed.

Lemma dict_get_map {V W : Type} (f : V -> W) (d : list (string * V))
    (k : string) :
  dict_get k (map (fun it => (fst it, f (snd it))) d)
  = option_map f (dict_get k d).
Proof.
  induction d as [|[k' v] d IH]; simpl; [reflexivity|].
  destruct (String.eqb k k'); [reflexivity | exact IH].
Qed.

(** X10. In the result of [generate_investment_recommendations] the number
    of stock allocations equals [buy_signals] of the overall strategy,
    and the allocated symbols are exactly those recommended BUY or
    STRONG_BUY. *)
Theorem positions_match_buy_signals (symbols : list string)
    (technical_analysis : gmap string TechData)
    (fundamental_analysis : gmap string FundData)
    (risk_metrics : gmap string RiskEntry) :
  let out := generate_investment_recommendations
               symbols technical_analysis fundamental_analysis risk_metrics in
  length (stock_allocations (portfolio_allocation out))
  = buy_signals (overall_strategy out) /\
  (forall symbol,
      In symbol (map fst (stock_allocations (portfolio_allocation out))) <->
      exists a c ps cp tp sl lvl th kr,
        dict_get symbol (individual_recommendations out)
        = Some (FullRec a c ps cp tp sl lvl th kr) /\ is_buy a = true).
Proof.
  intros out. subst out. unfold generate_investment_recommendations.
  cbn [portfolio_allocation overall_strategy individual_recommendations].
  set (recs := fold_left _ symbols []).
  assert (Hnd : List.NoDup (map fst recs)).
  { subst recs.
    apply (dict_fold_keys
             (fun k => recommend_symbol (technical_analysis !! k)
                                        (fundamental_analysis !! k)
                                        (risk_metrics !! k))).
    constructor. }
  clearbody recs.
  set (summary := map (fun it => (fst it, allocation_view (snd it))) recs).
  assert (Hnd' : List.NoDup (map fst summary)).
  { subst summary. rewrite map_map. exact Hnd. }
  split.
  - rewrite <- (length_map fst), positions_of_distinct_keys by exact Hnd'.
    rewrite length_map, buy_items_count. reflexivity.
  - intros symbol. rewrite positions_of_distinct_keys by exact Hnd'.
    rewrite buy_items_lookup by exact Hnd'.
    subst summary. rewrite dict_get_map.
    destruct (dict_get symbol recs) as [[a c ps cp tp sl lvl th kr | reason] |];
      simpl.
    + split.
      * intros (a' & c' & ps' & [= <- <- <-] & Hb). do 9 eexists. eauto.
      * intros (? & ? & ? & ? & ? & ? & ? & ? & ? & [= <- <- <-] & Hb). eauto.
    + split; [intros (? & ? & ? & [=] & _)|].
      intros (? & ? & ? & ? & ? & ? & ? & ? & ? & [=] & _).
    + split; [intros (? & ? & ? & [=] & _)|].
      intros (? & ? & ? & ? & ? & ? & ? & ? & ? & [=] & _).
Qed.

(** ** Price targets *)

Lemma round_half_even_close (q : Q) :
  q - (1 # 2) <= inject_Z (round_half_even q) <= q + (1 # 2).
Proof.
  unfold round_half_even.
  pose proof (Qfloor_le q) as Hlo. pose proof (Qlt_floor q) as Hhi.
  rewrite inject_Z_plus in Hhi.
  change (inject_Z 1) with 1 in Hhi.
  set (f := Qfloor q) in *. clearbody f.
  destruct (Qltb (q - inject_Z f) (1 # 2)) eqn:E1.
  - apply Qltb_lt in E1. split; lra.
  - apply Qltb_ge in E1.
    destruct (Qltb (1 # 2) (q - inject_Z f)) eqn:E2.
    + apply Qltb_lt in E2. rewrite inject_Z_plus.
      change (inject_Z 1) with 1. split; lra.
    + apply Qltb_ge in E2.
      destruct (Z.even f); [| rewrite inject_Z_plus; change (inject_Z 1) with 1];
        split; lra.
Qed.

Lemma py_round2_close (x : Q) :
  exists y, py_round2 (Fin x) = Fin y /\ x - (1 # 200) <= y <= x + (1 # 200).
Proof.
  eexists. split; [reflexivity|].
  pose proof (round_half_even_close (x * 100)) as H.
  set (z := inject_Z (round_half_even (x * 100))) in *. clearbody z.
  unfold Qdiv. change (/ 100) with (1 # 100). split; lra.
Qed.

(** X11. For a price above 0.10 and a risk score in [0,100] both targets
    are numbers; the stop loss lies below the price and not more than
    20% (and half a cent of rounding) below it; the target price lies
    above the price for a BULLISH or NEUTRAL signal and below it for a
    BEARISH one.  [round(x, 2)] is read as rounding to the nearest
    cent. *)
Theorem price_targets_bracket (price risk_score : Q) (signal : Signal) :
  1 # 10 < price -> 0 <= risk_score <= 100 ->
  exists stop target,
    calculate_price_targets (Some (Fin price)) signal risk_score
    = (Some (Fin stop), Some (Fin target)) /\
    (8 # 10) * price - (1 # 200) <= stop < price /\
    (signal = BEARISH -> target < price) /\
    (signal <> BEARISH -> price < target).
Proof.
  intros Hp [Hr0 Hr1]. unfold calculate_price_targets.
  assert (Ht : py_truthy (Some (Fin price)) = true).
  { simpl. apply negb_true_iff, not_true_iff_false. rewrite Qeq_bool_iff.
    intros Heq. rewrite Heq in Hp. revert Hp. apply Qle_not_lt. discriminate. }
  rewrite Ht. cbn [negb np_mul].
  set (d := risk_score / 100).
  assert (Hd : 0 <= d <= 1).
  { subst d. unfold Qdiv. change (/ 100) with (1 # 100). split; lra. }
  clearbody d.
  destruct (py_round2_close (price * (1 - ((5 # 100) + d * (15 # 100)))))
    as (stop & -> & Hstop).
  match goal with
  | |- context [py_round2 (Fin ?t)] =>
      destruct (py_round2_close t) as (target & -> & Htarget)
  end.
  exists stop, target. split; [reflexivity|].
  assert (Hpd : 0 <= price * d <= price) by (split; nra).
  set (pd := price * d) in *.
  assert (Hs : price * (1 - ((5 # 100) + d * (15 # 100)))
               == (95 # 100) * price - (15 # 100) * pd) by (subst pd; ring).
  rewrite Hs in Hstop. clear Hs.
  split; [split; lra|].
  destruct signal.
  - assert (Hb : price * (1 + ((15 # 100) + (1 - d) * (15 # 100)))
                 == (130 # 100) * price - (15 # 100) * pd) by (subst pd; ring).
    rewrite Hb in Htarget. split; [discriminate | intros _; lra].
  - split; [intros _; lra | congruence].
  - split; [discriminate | intros _; lra].
Qed.

Lemma price_targets_bracket_witness :
  exists stop target,
    calculate_price_targets (Some (Fin 120)) BULLISH 35
    = (Some (Fin stop), Some (Fin target)) /\
    (8 # 10) * 120 - (1 # 200) <= stop < 120 /\
    (BULLISH = BEARISH -> target < 120) /\
    (BULLISH <> BEARISH -> 120 < target).
Proof.
  apply price_targets_bracket; [| split]; vm_compute; reflexivity || discriminate.
Defined.

(** X12. [calculate_price_targets] returns [(None, None)] exactly when the
    current price is [None] or zero (a zero price is falsy), and
    otherwise two values: one target is never absent without the
    other. *)
Theorem price_targets_absent (current_price : pyval) (signal : Signal)
    (risk_score : Q) :
  (calculate_price_targets current_price signal risk_score = (None, None)
   <-> current_price = None \/
       exists q, current_price = Some (Fin q) /\ q == 0) /\
  (fst (calculate_price_targets current_price signal risk_score) = None
   <-> snd (calculate_price_targets current_price signal risk_score) = None).
Proof.
  unfold calculate_price_targets.
  destruct current_price as [[q | | |] |]; cbn [py_truthy negb].
  - destruct (Qeq_bool q 0) eqn:E; cbn [negb].
    + apply Qeq_bool_iff in E. split; [| tauto].
      split; [intros _; right; eauto | reflexivity].
    + split; [| split; discriminate].
      split; [discriminate|].
      intros [[=] | (q' & [= <-] & Hq)].
      apply Qeq_bool_iff in Hq. congruence.
  - split; [| split; discriminate].
    split; [discriminate | intros [[=] | (q' & [=] & _)]].
  - split; [| split; discriminate].
    split; [discriminate | intros [[=] | (q' & [=] & _)]].
  - split; [| split; discriminate].
    split; [discriminate | intros [[=] | (q' & [=] & _)]].
  - split; [| tauto]. split; [auto | reflexivity].
Qed.

(** ** Portfolio risk *)

Lemma fold_Qplus_bounds (lo hi : Q) (l : list Q) :
  Forall (fun x => lo <= x <= hi) l ->
  forall a,
    a + inject_Z (Z.of_nat (length l)) * lo <= fold_left Qplus l a
    <= a + inject_Z (Z.of_nat (length l)) * hi.
Proof.
  induction 1 as [|x l [Hx0 Hx1] _ IH]; intros a.
  - cbn [fold_left length]. change (inject_Z (Z.of_nat 0)) with 0. split; lra.
  - cbn [fold_left length]. specialize (IH (a + x)).
    rewrite Nat2Z.inj_succ, <- Z.add_1_r, inject_Z_plus.
    change (inject_Z 1) with 1.
    set (n := inject_Z (Z.of_nat (length l))) in *. clearbody n.
    split; lra.
Qed.

Lemma mean_Q_bounds (lo hi : Q) (l : list Q) :
  l <> [] -> Forall (fun x => lo <= x <= hi) l -> lo <= mean_Q l <= hi.
Proof.
  intros Hl Hall. unfold mean_Q.
  pose proof (fold_Qplus_bounds lo hi l Hall 0) as Hsum.
  pose proof (length_positive l Hl) as Hn.
  set (n := inject_Z (Z.of_nat (length l))) in *. clearbody n.
  split.
  - apply Qle_shift_div_l; [exact Hn | lra].
  - apply Qle_shift_div_r; [exact Hn | lra].
Qed.

Lemma valid_risks_spec (symbols : list string)
    (risk_metrics : gmap string RiskEntry) (symbol : string) (m : RiskMetrics) :
  In (symbol, m) (valid_risks symbols risk_metrics) <->
  symbol ∈ symbols /\ risk_metrics !! symbol = Some (RiskOk m).
Proof.
  unfold valid_risks. rewrite <- list_elem_of_In, list_elem_of_omap.
  split.
  - intros (k & Hk & Hm).
    destruct (risk_metrics !! k) as [[msg | m'] |] eqn:E; try discriminate.
    injection Hm as <- <-. auto.
  - intros [Hk Hm]. exists symbol. split; [exact Hk | now rewrite Hm].
Qed.

Lemma valid_risks_scores (lo hi : Q) (symbols : list string)
    (risk_metrics : gmap string RiskEntry) :
  (forall symbol m,
      symbol ∈ symbols -> risk_metrics !! symbol = Some (RiskOk m) ->
      lo <= risk_score m <= hi) ->
  Forall (fun x => lo <= x <= hi)
         (map (fun it => risk_score (snd it))
              (valid_risks symbols risk_metrics)).
Proof.
  intros H. apply List.Forall_forall. intros x Hx.
  apply in_map_iff in Hx as ([k m] & <- & Hin).
  apply valid_risks_spec in Hin as [Hk Hm]. exact (H k m Hk Hm).
Qed.

(** X13. [assess_portfolio_risk] reports an error exactly when no requested
    symbol has risk metrics.  Otherwise the average risk score lies
    between any bounds that hold for the symbols' scores, the portfolio
    risk level lies between the levels of the bounds, and more
    diversification is recommended exactly when fewer than three
    symbols have risk metrics. *)
Theorem portfolio_risk_average (np_sqrt : Q -> Q) (lo hi : Q)
    (symbols : list string) (risk_metrics : gmap string RiskEntry) :
  (forall symbol m,
      symbol ∈ symbols -> risk_metrics !! symbol = Some (RiskOk m) ->
      lo <= risk_score m <= hi) ->
  match assess_portfolio_risk np_sqrt symbols risk_metrics with
  | NoValidRiskData =>
      forall symbol m,
        symbol ∈ symbols -> risk_metrics !! symbol <> Some (RiskOk m)
  | Assessed portfolio_risk recommendations =>
      (exists symbol m,
          symbol ∈ symbols /\ risk_metrics !! symbol = Some (RiskOk m)) /\
      lo <= average_risk_score portfolio_risk <= hi /\
      (level_rank (classify_risk_level lo)
       <= level_rank (portfolio_risk_level portfolio_risk)
       <= level_rank (classify_risk_level hi))%nat /\
      (In "Increase diversification across sectors and asset classes"%string
          recommendations
       <-> (length (valid_risks symbols risk_metrics) < 3)%nat)
  end.
Proof.
  intros Hscores. unfold assess_portfolio_risk.
  pose proof (valid_risks_scores lo hi symbols risk_metrics Hscores) as Hall.
  pose proof (valid_risks_spec symbols risk_metrics) as Hspec.
  set (valid := valid_risks symbols risk_metrics) in *. clearbody valid.
  rewrite length_map.
  destruct valid as [|[k m] valid]; cbn [length Nat.eqb].
  - intros symbol m Hin Hm. apply (Hspec symbol m). auto.
  - split.
    { exists k, m. apply Hspec. now left. }
    cbn [average_risk_score portfolio_risk_level].
    set (scores := map _ ((k, m) :: valid)) in *.
    assert (Hmean : lo <= mean_Q scores <= hi)
      by (apply mean_Q_bounds; [discriminate | exact Hall]).
    split; [exact Hmean|]. split.
    { unfold classify_risk_level. repeat cmp; simpl; try lia; exfalso; lra. }
    unfold generate_portfolio_recommendations.
    cbn [portfolio_risk_level diversification_score risk_concentration].
    unfold calculate_diversification_score. rewrite length_map.
    cbn [length]. set (n := S (length valid)). clearbody n.
    set (first := match classify_risk_level (mean_Q scores) with
                  | HIGH | VERY_HIGH => _
                  | _ => []
                  end).
    assert (Hfirst : ~ In "Increase diversification across sectors and asset classes"%string
                          first).
    { subst first. destruct (classify_risk_level _); simpl;
        intuition discriminate. }
    clearbody first.
    destruct (Nat.leb_spec 10 n);
      [| destruct (Nat.leb_spec 5 n); [| destruct (Nat.leb_spec 3 n)]];
      match goal with |- context [Qltb ?a 50] =>
        let b := eval vm_compute in (Qltb a 50) in
        change (Qltb a 50) with b; cbv iota
      end;
      destruct (f_ltb _ _); rewrite ?in_app_iff; simpl;
      intuition (try discriminate; try lia).
Qed.

Lemma portfolio_risk_average_witness :
  exists portfolio_risk recommendations,
    assess_portfolio_risk sqrt_12 ["AAPL"%string] sample_metrics
    = Assessed portfolio_risk recommendations /\
    35 <= average_risk_score portfolio_risk <= 75.
Proof.
  assert (H : forall symbol m,
             symbol ∈ ["AAPL"%string] ->
             sample_metrics !! symbol = Some (RiskOk m) ->
             35 <= risk_score m <= 75).
  { intros symbol m Hin Hm.
    apply elem_of_cons in Hin as [-> | Hin];
      [| now apply not_elem_of_nil in Hin].
    vm_compute in Hm. injection Hm as <-. split; discriminate. }
  pose proof (portfolio_risk_average sqrt_12 35 75 ["AAPL"%string]
                sample_metrics H) as P.
  destruct (assess_portfolio_risk sqrt_12 ["AAPL"%string] sample_metrics)
    as [|pr recs] eqn:E; [vm_compute in E; discriminate E|].
  exists pr, recs. split; [reflexivity | apply P].
Defined.

Lemma fallback_metrics_range (symbols : list string)
    (technical_analysis : gmap string TechData) (symbol : string)
    (m : RiskMetrics) :
  _generate_fallback_risk_metrics symbols technical_analysis !! symbol
  = Some (RiskOk m) ->
  35 <= risk_score m <= 75 /\
  (classify_risk_level (risk_score m) = MODERATE \/
   classify_risk_level (risk_score m) = HIGH) /\
  volatility_annualized m = 32 # 100.
Proof.
  rewrite fallback_lookup.
  destruct (decide (symbol ∈ symbols)); [| discriminate].
  intros [= Hm].
  destruct (fallback_entry_scores _ _ Hm) as [[-> | [-> | [-> | ->]]] ->];
    repeat split; try discriminate; auto.
Qed.

Lemma valid_risks_again (symbols : list string)
    (risk_metrics : gmap string RiskEntry) :
  valid_risks (map fst (valid_risks symbols risk_metrics)) risk_metrics
  = valid_risks symbols risk_metrics.
Proof.
  unfold valid_risks.
  induction symbols as [|k ks IH]; [reflexivity|].
  cbn [omap list_omap].
  destruct (risk_metrics !! k) as [[msg | m] |] eqn:E; try exact IH.
  cbn [map fst omap list_omap]. rewrite E. f_equal. exact IH.
Qed.

(** X14. On the metrics of the fallback estimator every symbol is classified
    MODERATE or HIGH, and so is the portfolio: its average risk score
    lies in [35,75], and its volatility estimate is 0.32 when exactly
    one requested symbol has risk metrics and 0.256 (the 0.8
    diversification factor applied) when more than one has.  The
    assessment reports an error only if the technical analysis of every
    requested symbol failed. *)
Theorem fallback_portfolio_risk (np_sqrt : Q -> Q) (symbols : list string)
    (technical_analysis : gmap string TechData) :
  let risk_metrics :=
    _generate_fallback_risk_metrics symbols technical_analysis in
  (forall symbol m,
      risk_metrics !! symbol = Some (RiskOk m) ->
      classify_risk_level (risk_score m) = MODERATE \/
      classify_risk_level (risk_score m) = HIGH) /\
  match assess_portfolio_risk np_sqrt symbols risk_metrics with
  | NoValidRiskData =>
      forall symbol,
        symbol ∈ symbols ->
        exists err, technical_analysis !! symbol = Some (TechError err)
  | Assessed portfolio_risk recommendations =>
      35 <= average_risk_score portfolio_risk <= 75 /\
      (portfolio_risk_level portfolio_risk = MODERATE \/
       portfolio_risk_level portfolio_risk = HIGH) /\
      (1 <= length (valid_risks symbols risk_metrics))%nat /\
      (length (valid_risks symbols risk_metrics) = 1%nat ->
       portfolio_volatility portfolio_risk == 32 # 100) /\
      ((1 < length (valid_risks symbols risk_metrics))%nat ->
       portfolio_volatility portfolio_risk == 256 # 1000)
  end.
Proof.
  intros risk_metrics.
  pose proof (fallback_metrics_range symbols technical_analysis) as Hrange.
  fold risk_metrics in Hrange.
  split; [intros symbol m Hm; apply (Hrange symbol m Hm)|].
  unfold assess_portfolio_risk.
  pose proof (valid_risks_spec symbols risk_metrics) as Hspec.
  assert (Hscores : Forall (fun x => 35 <= x <= 75)
                      (map (fun it => risk_score (snd it))
                           (valid_risks symbols risk_metrics))).
  { apply valid_risks_scores. intros symbol m _ Hm. apply (Hrange symbol m Hm). }
  assert (Hvols : Forall (fun x => 32 # 100 <= x <= 32 # 100)
                    (map (fun it => volatility_annualized (snd it))
                         (valid_risks symbols risk_metrics))).
  { apply List.Forall_forall. intros x Hx.
    apply in_map_iff in Hx as ([k m] & <- & Hin).
    apply Hspec in Hin as [_ Hm].
    destruct (Hrange k m Hm) as (_ & _ & Hv). cbn [snd]. rewrite Hv.
    split; discriminate. }
  unfold estimate_portfolio_volatility. rewrite valid_risks_again.
  rewrite !length_map.
  destruct (valid_risks symbols risk_metrics) as [|[k m] valid] eqn:Ev;
    cbn [length Nat.eqb].
  - intros symbol Hin.
    pose proof (fallback_lookup symbols technical_analysis symbol) as Hl.
    fold risk_metrics in Hl. rewrite decide_True in Hl by exact Hin.
    unfold fallback_entry in Hl.
    destruct (technical_analysis !! symbol) as [[err | p i t] |];
      [eauto | exfalso | exfalso];
      match type of Hl with _ = Some (RiskOk ?m) =>
        apply (proj2 (Hspec symbol m)); auto
      end.
  - cbn [average_risk_score portfolio_risk_level portfolio_volatility].
    assert (Hmean : 35 <= mean_Q (map (fun it => risk_score (snd it))
                                      ((k, m) :: valid)) <= 75)
      by (apply mean_Q_bounds; [discriminate | exact Hscores]).
    assert (Hvol : 32 # 100 <= mean_Q (map (fun it => volatility_annualized (snd it))
                                           ((k, m) :: valid)) <= 32 # 100)
      by (apply mean_Q_bounds; [discriminate | exact Hvols]).
    split; [exact Hmean|]. split.
    + unfold classify_risk_level. repeat cmp; auto; exfalso; lra.
    + destruct (Nat.ltb_spec 1 (S (length valid)));
        repeat split; intros; try lia; lra.
Qed.

(** ** Sentiment impact *)

Lemma omap_none_iff {A B : Type} (f : A -> option B) (l : list A) :
  omap f l = [] <-> Forall (fun a => f a = None) l.
Proof.
  induction l as [|a l IH]; cbn [omap list_omap].
  - split; [constructor | reflexivity].
  - destruct (f a) eqn:E.
    + split; [discriminate|]. intros H. inversion H; congruence.
    + rewrite IH. split; [now constructor | intros H; now inversion H].
Qed.




Lemma dict_get_absent {V : Type} (k : string) (d : list (string * V)) :
  ~ In k (map fst d) -> dict_get k d = None.
Proof.
  induction d as [|[k' v] d IH]; simpl; intros Hk; [reflexivity|].
  destruct (String.eqb_spec k k') as [-> | _]; [exfalso; auto | auto].
Qed.

Lemma sentiment_fold_lookup (individual_news : list (string * list Article))
    (symbol : string) :
  List.NoDup (map fst individual_news) ->
  forall acc : list (string * SentimentImpact),
    dict_get symbol
      (fold_left
         (fun sentiment_impact it =>
            match sentiment_impact_entry (snd it) with
            | Some entry => dict_set (fst it) entry sentiment_impact
            | None => sentiment_impact
            end)
         individual_news acc)
    = match news_list ← dict_get symbol individual_news;
            sentiment_impact_entry news_list with
      | Some e => Some e
      | None => dict_get symbol acc
      end.
Proof.
  induction individual_news as [|[k l] news IH]; intros Hnd acc;
    cbn [fold_left]; [reflexivity|].
  inversion Hnd as [|? ? Hk Hrest]; subst.
  rewrite (IH Hrest). cbn [dict_get fst snd].
  destruct (String.eqb_spec symbol k) as [-> | Hne].
  - rewrite (dict_get_absent k news Hk). cbn.
    destruct (sentiment_impact_entry l); [| reflexivity].
    rewrite dict_get_set, String.eqb_refl. reflexivity.
  - destruct (mbind _ _); [reflexivity|].
    destruct (sentiment_impact_entry l); [| reflexivity].
    rewrite dict_get_set.
    destruct (String.eqb_spec symbol k); [contradiction | reflexivity].
Qed.

(** X16. [analyze_sentiment_impact] has an entry for a symbol exactly when
    one of its articles carries a sentiment, and the entry is the one
    computed from the symbol's own articles. *)
Theorem sentiment_impact_lookup (individual_news : list (string * list Article))
    (symbol : string) :
  List.NoDup (map fst individual_news) ->
  dict_get symbol (analyze_sentiment_impact individual_news)
  = (news_list ← dict_get symbol individual_news;
     sentiment_impact_entry news_list) /\
  (dict_get symbol (analyze_sentiment_impact individual_news) = None <->
   forall news_list,
     dict_get symbol individual_news = Some news_list ->
     Forall (fun a => sentiment a = None) news_list).
Proof.
  intros Hnd. unfold analyze_sentiment_impact.
  rewrite (sentiment_fold_lookup individual_news symbol Hnd []).
  cbn [dict_get].
  assert (Heq : forall o : option SentimentImpact,
             match o with Some e => Some e | None => None end = o)
    by (now intros []).
  rewrite Heq. split; [reflexivity|].
  destruct (dict_get symbol individual_news) as [l|]; cbn.
  - unfold sentiment_impact_entry.
    destruct (Nat.eqb_spec (length l) 0) as [Hl | Hl].
    + split; [| reflexivity]. intros _ ? [= <-].
      destruct l; [constructor | discriminate].
    + destruct (Nat.eqb_spec (length (omap sentiment l)) 0) as [Ho | Ho].
      * split; [| reflexivity]. intros _ ? [= <-].
        apply omap_none_iff. destruct (omap sentiment l);
          [reflexivity | discriminate].
      * split; [discriminate|]. intros H. exfalso. apply Ho.
        now rewrite (proj2 (omap_none_iff sentiment l) (H l eq_refl)).
  - split; [intros _ ? [=] | reflexivity].
Qed.

Lemma sentiment_impact_lookup_witness :
  dict_get "AAPL"%string
    (analyze_sentiment_impact [("AAPL"%string, sample_news)])
  = (news_list ← dict_get "AAPL"%string [("AAPL"%string, sample_news)];
     sentiment_impact_entry news_list).
Proof.
  apply (sentiment_impact_lookup [("AAPL"%string, sample_news)] "AAPL"%string).
  repeat constructor. simpl. tauto.
Defined.

(** ** Analysis summary *)

(** X17. The analysis quality of [generate_analysis_summary] is "good"
    exactly when the technical, fundamental and market analyses all
    succeeded, and exactly then no issues are listed.  For the dict of
    indices that the data agent passes, the market analysis fails, so
    the quality is "partial", "Market analysis incomplete" is listed
    and the market outlook is "neutral". *)
Theorem analysis_summary_quality (symbols : list string)
    (technical_status fundamental_status : string)
    (market_data : MarketData) :
  let market_analysis := analyze_market_trends market_data in
  let summary :=
    generate_analysis_summary symbols technical_status fundamental_status
                              market_analysis in
  (analysis_quality summary = "good"%string <->
   technical_status = "success"%string /\
   fundamental_status = "success"%string /\
   exists analysis, market_analysis = MarketSuccess analysis) /\
  (analysis_quality summary = "good"%string <-> summary_issues summary = None) /\
  (forall d, market_indices market_data = IndicesDict d ->
     analysis_quality summary = "partial"%string /\
     overall_market_outlook summary = "neutral"%string /\
     exists issues,
       summary_issues summary = Some issues /\
       In "Market analysis incomplete"%string issues).
Proof.
  intros market_analysis summary.
  assert (Hdict : forall d, market_indices market_data = IndicesDict d ->
                    exists e, market_analysis = MarketFailed e).
  { intros d Hd. subst market_analysis. unfold analyze_market_trends.
    rewrite Hd.
    destruct (count_index_keys d (0%Z, 0%Z)) as [-> | ->]; eexists; reflexivity. }
  subst summary. unfold generate_analysis_summary.
  cbn [analysis_quality summary_issues overall_market_outlook].
  clearbody market_analysis.
  destruct (String.eqb_spec technical_status "success") as [Ht | Ht];
    destruct (String.eqb_spec fundamental_status "success") as [Hf | Hf];
    destruct market_analysis as [analysis | e]; cbn;
    ((split; [| split]);
    [ first [ solve [split; [intros _; repeat split; eauto | reflexivity]]
            | split; [discriminate |];
              intros (H1 & H2 & a & H3); first [contradiction | discriminate] ]
    | first [ solve [split; reflexivity] | split; discriminate ]
    | intros d Hd;
      first [ solve [destruct (Hdict d Hd) as [e' [=]]]
            | split; [reflexivity | split; [reflexivity |]];
              eexists; split; [reflexivity | simpl; tauto] ] ]).
Qed.

(** ** Leading and lagging sectors *)

Section SortBy.
Variable before : Q -> Q -> bool.
Hypothesis before_asym : forall a b, before a b = true -> before b a = false.
Hypothesis before_trans :
  forall a b c, before b a = false -> before c b = false -> before c a = false.

Lemma insert_by_perm (x : string * Q) (l : list (string * Q)) :
  Permutation (insert_by before x l) (x :: l).
Proof.
  induction l as [|y l IH]; cbn [insert_by]; [reflexivity|].
  destruct (before (snd y) (snd x)); [| reflexivity].
  rewrite IH. apply perm_swap.
Qed.

Lemma sort_by_perm (l : list (string * Q)) :
  Permutation (sort_by before l) l.
Proof.
  unfold sort_by.
  induction l as [|x l IH]; cbn [fold_right]; [reflexivity|].
  rewrite insert_by_perm. now constructor.
Qed.

Lemma insert_by_sorted (x : string * Q) (l : list (string * Q)) :
  StronglySorted (sorted_by before) l -> StronglySorted (sorted_by before) (insert_by before x l).
Proof.
  induction 1 as [|y l Hl IH Hy]; cbn [insert_by].
  - repeat constructor.
  - destruct (before (snd y) (snd x)) eqn:E.
    + constructor; [exact IH|].
      apply List.Forall_forall. intros z Hz.
      apply (Permutation_in _ (insert_by_perm x l)) in Hz as [<- | Hz].
      * apply before_asym, E.
      * exact (proj1 (List.Forall_forall _ _) Hy z Hz).
    + constructor; [constructor; assumption|].
      constructor; [exact E|].
      apply List.Forall_forall. intros z Hz.
      pose proof (proj1 (List.Forall_forall _ _) Hy z Hz) as Hyz.
      exact (before_trans _ _ _ E Hyz).
Qed.

Lemma sort_by_sorted (l : list (string * Q)) :
  StronglySorted (sorted_by before) (sort_by before l).
Proof.
  unfold sort_by.
  induction l as [|x l IH]; cbn [fold_right]; [constructor|].
  now apply insert_by_sorted.
Qed.

Lemma sorted_split (l1 l2 : list (string * Q)) :
  StronglySorted (sorted_by before) (l1 ++ l2) ->
  forall x y, In x l1 -> In y l2 -> before (snd y) (snd x) = false.
Proof.
  induction l1 as [|a l1 IH]; cbn [app]; intros Hs x y Hx Hy; [destruct Hx|].
  inversion Hs as [|? ? Hrest Ha]; subst.
  destruct Hx as [<- | Hx].
  - apply (proj1 (List.Forall_forall _ _) Ha y). apply in_or_app. now right.
  - exact (IH Hrest x y Hx Hy).
Qed.

Lemma top_of_sorted (n : nat) (l : list (string * Q)) :
  let sorted := sort_by before l in
  Permutation sorted l /\
  length (take n sorted) = Nat.min n (length l) /\
  forall x y, In x (take n sorted) -> In y (drop n sorted) ->
              before (snd y) (snd x) = false.
Proof.
  intros sorted. subst sorted. split; [apply sort_by_perm|]. split.
  - rewrite length_take, (Permutation_length (sort_by_perm l)). reflexivity.
  - apply sorted_split. rewrite take_drop. apply sort_by_sorted.
Qed.

End SortBy.

(** X18. [get_leading_sectors] and [get_lagging_sectors] return the first
    three names of a rearrangement of the sectors: no sector left out
    of the leading ones has a larger change than one of them, none
    left out of the lagging ones a smaller change.  Each list has
    min(3, number of sectors) names, all of them sectors of the
    input. *)
Theorem leading_and_lagging_sectors
    (sector_performance : list (string * SectorEntry)) :
  let sectors := sector_changes sector_performance in
  (exists sorted,
      Permutation sorted sectors /\
      get_leading_sectors sector_performance = map fst (take 3 sorted) /\
      forall x y, In x (take 3 sorted) -> In y (drop 3 sorted) ->
                  snd y <= snd x) /\
  (exists sorted,
      Permutation sorted sectors /\
      get_lagging_sectors sector_performance = map fst (take 3 sorted) /\
      forall x y, In x (take 3 sorted) -> In y (drop 3 sorted) ->
                  snd x <= snd y) /\
  length (get_leading_sectors sector_performance)
  = Nat.min 3 (length sector_performance) /\
  length (get_lagging_sectors sector_performance)
  = Nat.min 3 (length sector_performance) /\
  (forall s, In s (get_leading_sectors sector_performance) ->
             In s (map fst sector_performance)) /\
  (forall s, In s (get_lagging_sectors sector_performance) ->
             In s (map fst sector_performance)).
Proof.
  intros sectors.
  assert (Hdesc : forall a b, Qltb b a = true -> Qltb a b = false).
  { intros a b H. apply Qltb_lt in H. apply Qltb_ge. lra. }
  assert (Hdesc' : forall a b c,
             Qltb a b = false -> Qltb b c = false -> Qltb a c = false).
  { intros a b c H1 H2. apply Qltb_ge in H1, H2. apply Qltb_ge. lra. }
  assert (Hasc : forall a b, Qltb a b = true -> Qltb b a = false).
  { intros a b H. apply Qltb_lt in H. apply Qltb_ge. lra. }
  assert (Hasc' : forall a b c,
             Qltb b a = false -> Qltb c b = false -> Qltb c a = false).
  { intros a b c H1 H2. apply Qltb_ge in H1, H2. apply Qltb_ge. lra. }
  destruct (top_of_sorted (fun a b => Qltb b a) Hdesc Hdesc' 3 sectors)
    as (Hp1 & Hl1 & Ht1).
  destruct (top_of_sorted Qltb Hasc Hasc' 3 sectors) as (Hp2 & Hl2 & Ht2).
  assert (Hlen : length sectors = length sector_performance)
    by (subst sectors; unfold sector_changes; apply length_map).
  assert (Hkeys : map fst sectors = map fst sector_performance).
  { subst sectors. unfold sector_changes. rewrite map_map. reflexivity. }
  assert (Hin : forall sorted s,
             Permutation sorted sectors ->
             In s (map fst (take 3 sorted)) ->
             In s (map fst sector_performance)).
  { intros sorted s Hp Hs. rewrite <- Hkeys.
    apply in_map_iff in Hs as (x & <- & Hx). apply in_map.
    apply (Permutation_in _ Hp). rewrite <- (take_drop 3 sorted).
    apply in_or_app. now left. }
  unfold get_leading_sectors, get_lagging_sectors.
  fold (sector_changes sector_performance). fold sectors.
  repeat split.
  - eexists. split; [exact Hp1|]. split; [reflexivity|].
    intros x y Hx Hy. apply Qltb_ge. exact (Ht1 x y Hx Hy).
  - eexists. split; [exact Hp2|]. split; [reflexivity|].
    intros x y Hx Hy. apply Qltb_ge. exact (Ht2 x y Hx Hy).
  - rewrite length_map, Hl1, Hlen. reflexivity.
  - rewrite length_map, Hl2, Hlen. reflexivity.
  - intros s. apply Hin. exact Hp1.
  - intros s. apply Hin. exact Hp2.
Qed.

(** ** Fundamental analysis of the collected stocks *)

Lemma fundamental_fold_lookup (stock_data : list (string * CollectedStock))
    (symbol : string) :
  List.NoDup (map fst stock_data) ->
  forall acc : gmap string FundData,
    fold_left
      (fun fundamental_results it =>
         <[fst it := fundamental_entry (snd it)]> fundamental_results)
      stock_data acc !! symbol
    = match dict_get symbol stock_data with
      | Some data => Some (fundamental_entry data)
      | None => acc !! symbol
      end.
Proof.
  induction stock_data as [|[k d] rest IH]; intros Hnd acc;
    cbn [fold_left]; [reflexivity|].
  inversion Hnd as [|? ? Hk Hrest]; subst.
  rewrite (IH Hrest). cbn [dict_get fst snd].
  destruct (String.eqb_spec symbol k) as [-> | Hne].
  - rewrite (dict_get_absent k rest Hk). apply lookup_insert_eq.
  - destruct (dict_get symbol rest); [reflexivity|].
    apply lookup_insert_ne. congruence.
Qed.

(** X19. [perform_fundamental_analysis] gives every collected symbol the
    entry computed from its own data: the error is passed on exactly
    when collection failed, and a report carries the score of its own
    metrics, in [0,100], all three metric groups, and the summary of
    that score ("Weak" exactly below 40, "Strong" exactly from 70). *)
Theorem fundamental_analysis_entries
    (stock_data : list (string * CollectedStock)) (symbol : string) :
  List.NoDup (map fst stock_data) ->
  perform_fundamental_analysis stock_data !! symbol
  = fundamental_entry <$> dict_get symbol stock_data /\
  (forall msg,
      perform_fundamental_analysis stock_data !! symbol = Some (FundError msg)
      <-> dict_get symbol stock_data = Some (CollectFailed msg)) /\
  (forall analysis score summary,
      perform_fundamental_analysis stock_data !! symbol
      = Some (FundReport analysis score summary) ->
      score = calculate_fundamental_score analysis /\
      (0 <= score <= 100)%Z /\
      summary = generate_fundamental_summary (Some score) /\
      valuation_metrics analysis <> None /\
      profitability_metrics analysis <> None /\
      financial_health analysis <> None /\
      (summary = "Weak fundamental profile with concerning metrics"%string
       <-> (score < 40)%Z) /\
      (summary
       = "Strong fundamental profile with good valuation and financial health"%string
       <-> (70 <= score)%Z)).
Proof.
  intros Hnd. unfold perform_fundamental_analysis.
  rewrite (fundamental_fold_lookup stock_data symbol Hnd ∅), lookup_empty.
  destruct (dict_get symbol stock_data) as [[msg' | info] |]; cbn.
  - split; [reflexivity|]. split.
    + intros msg. split; intros [= ->]; reflexivity.
    + intros ? ? ? [=].
  - split; [reflexivity|]. split.
    + intros msg. split; intros [=].
    + intros analysis score summary [= <- <- <-].
      pose proof (fundamental_score_in_range
                    {| valuation_metrics :=
                         Some {| pe_ratio := info_get info trailingPE |};
                       profitability_metrics :=
                         Some {| profit_margin := info_get info profitMargins;
                                 return_on_equity :=
                                   info_get info returnOnEquity |};
                       financial_health :=
                         Some {| debt_to_equity := info_get info debtToEquity;
                                 current_ratio := info_get info currentRatio |} |})
        as Hr.
      set (sc := calculate_fundamental_score _) in *. clearbody sc.
      unfold generate_fundamental_summary.
      change (default 50%Z (Some sc)) with sc.
      destruct (Z.leb_spec 70 sc);
        [| destruct (Z.leb_spec 60 sc); [| destruct (Z.leb_spec 40 sc)]];
        repeat split; intros; try discriminate; try lia; try reflexivity.
  - split; [reflexivity|]. split.
    + intros msg. split; intros [=].
    + intros ? ? ? [=].
Qed.

Lemma fundamental_analysis_entries_witness :
  perform_fundamental_analysis sample_collected !! "AAPL"%string
  = fundamental_entry <$> dict_get "AAPL"%string sample_collected.
Proof.
  apply (fundamental_analysis_entries sample_collected "AAPL"%string).
  repeat constructor. simpl. tauto.
Defined.

(** ** Key risks on estimated risk *)

(** X20. On estimated risk, [identify_key_risks] never reports extremely
    high volatility (the estimate is 0.32); it reports negative
    momentum exactly for a BEARISH signal, high volatility and drawdown
    risk exactly for a BEARISH signal with confidence above 0.7, and
    weak fundamentals exactly for a fundamental score below 40. *)
Theorem key_risks_on_estimated_risk (price : pyval) (indicators : Indicators)
    (ts : TradingSignals) (fund_data : option FundData) :
  let tech := Some (TechReport price indicators ts) in
  let risks :=
    identify_key_risks tech fund_data (Some (fallback_entry tech)) in
  ~ In "Extremely high volatility"%string risks /\
  (In "Negative technical momentum"%string risks
   <-> overall_signal ts = BEARISH) /\
  (In "High volatility and drawdown risk"%string risks
   <-> overall_signal ts = BEARISH /\ 7 # 10 < ts_confidence ts) /\
  (In "Weak fundamental metrics"%string risks
   <-> exists analysis score summary,
         fund_data = Some (FundReport analysis score summary) /\
         (score < 40)%Z).
Proof.
  intros tech risks. subst risks tech.
  unfold identify_key_risks, fallback_entry.
  set (fs := match fund_data with
             | Some (FundReport _ fundamental_score _) => fundamental_score
             | _ => 50%Z
             end).
  assert (Hfs : (fs < 40)%Z <->
                exists analysis score summary,
                  fund_data = Some (FundReport analysis score summary) /\
                  (score < 40)%Z).
  { subst fs. destruct fund_data as [[msg | an sc sm] |].
    - split; [lia | intros (? & ? & ? & [=] & _)].
    - split; [intros H; eauto | intros (? & ? & ? & [= <- <- <-] & H); exact H].
    - split; [lia | intros (? & ? & ? & [=] & _)]. }
  rewrite <- Hfs. clear Hfs. clearbody fs.
  destruct (Z.ltb_spec fs 40) as [Hlt | Hge];
    destruct (overall_signal ts) eqn:Hsig; cbn [signal_eqb andb];
    destruct (Qltb (7 # 10) (ts_confidence ts)) eqn:Hc;
    try destruct (Qltb (ts_confidence ts) (3 # 10)) eqn:Hl;
    cbn;
    try apply Qltb_lt in Hc; try apply Qltb_ge in Hc;
    rewrite ?in_app_iff; simpl;
    repeat split; intros; try discriminate; try lia; try lra;
    intuition (try discriminate; try lia; try lra).
Qed.

(** ** Indicators on short and long histories *)

Lemma column_Fin (col : PriceBar -> Q) (df : list PriceBar) :
  column col df = map Fin (map col df).
Proof.
  unfold column. now rewrite map_map.
Qed.

Lemma last_Fin (qs : list Q) : last (map Fin qs) = option_map Fin (last qs).
Proof. apply last_map. Qed.

Lemma last_nonempty {A : Type} (l : list A) :
  l <> [] -> exists x, last l = Some x.
Proof.
  induction l as [|x [|y l] IH]; intros Hne; [contradiction | eauto |].
  rewrite last_cons_cons. apply IH. discriminate.
Qed.

Section Indicators.
Variable np_sqrt : Q -> Q.

(** The sample standard deviation of at least two finite values is the
    root of a non-negative variance. *)
Lemma series_std_Fin (qs : list Q) :
  (2 <= length qs)%nat ->
  exists v, 0 <= v /\ series_std np_sqrt (map Fin qs) = Fin (np_sqrt v).
Proof.
  intros Hlen.
  assert (Hqs : qs <> []) by (destruct qs; [simpl in Hlen; lia | discriminate]).
  unfold series_std.
  rewrite (series_mean_Fin qs Hqs), squares_Fin.
  set (m := fold_left Qplus qs 0 / _).
  unfold series_sum. rewrite series_sum_Fin, !length_map. cbn [np_div].
  assert (Hn : 0 < inject_Z (Z.of_nat (length qs)) - 1).
  { assert (H2 : inject_Z 2 <= inject_Z (Z.of_nat (length qs)))
      by (rewrite <- Zle_Qle; lia).
    change (inject_Z 2) with 2 in H2. lra. }
  rewrite Qeq_bool_pos by exact Hn. cbn [f_sqrt].
  set (var := fold_left Qplus _ 0 / _).
  assert (Hvar : 0 <= var).
  { subst var. apply Qle_shift_div_l; [exact Hn|].
    rewrite Qmult_0_l. apply fold_Qplus_nonneg; [apply squares_nonneg | lra]. }
  destruct (Qltb var 0) eqn:E; [apply Qltb_lt in E; lra|].
  exists var. split; [exact Hvar | reflexivity].
Qed.

(** The last values of the 20-bar mean and standard deviation. *)
Lemma rolling_std_last (qs : list Q) :
  qs <> [] ->
  exists sd,
    last (rolling 20 (series_std np_sqrt) (map Fin qs))
    = Some (if (20 <=? length qs)%nat then Fin sd else NaN).
Proof.
  intros Hne.
  rewrite last_rolling by (destruct qs; [contradiction | discriminate]).
  rewrite length_map, tail_map, no_nan_Fin, andb_true_r.
  destruct (20 <=? length qs)%nat eqn:E; [| exists 0; reflexivity].
  apply Nat.leb_le in E.
  destruct (series_std_Fin (tail 20 qs)) as (v & _ & ->).
  { rewrite length_tail by exact E. lia. }
  eauto.
Qed.

(** The outcome of [calculate_bollinger_bands] by the length of the
    history. *)
Lemma bollinger_outcome (df : list PriceBar) :
  df <> [] ->
  if (20 <=? length df)%nat
  then exists bb,
      calculate_bollinger_bands np_sqrt df = Ok bb /\
      (bb_signals bb
       = ["Price above upper Bollinger Band (potentially overbought)"%string] \/
       bb_signals bb
       = ["Price below lower Bollinger Band (potentially oversold)"%string] \/
       bb_signals bb
       = ["Price within Bollinger Bands (normal range)"%string])
  else calculate_bollinger_bands np_sqrt df = Raise TypeError.
Proof.
  intros Hne.
  assert (Hcs : map close df <> [])
    by (destruct df; [contradiction | discriminate]).
  destruct (last_nonempty (map close df) Hcs) as (p & Hp).
  destruct (rolling_std_last (map close df) Hcs) as (sd & Hsd).
  pose proof (rolling_mean_Fin 20 (map close df) Hcs ltac:(lia)) as Hsma.
  rewrite length_map in Hsd, Hsma.
  unfold calculate_bollinger_bands, iloc_last.
  rewrite !last_zip_with
    by (rewrite length_map, !length_rolling; reflexivity).
  rewrite !last_map, column_Fin, Hsd, Hsma, last_Fin, Hp.
  cbn [option_map mbind result_bind].
  destruct (20 <=? length df)%nat.
  - set (m := mean_Q _). clearbody m.
    cbn [np_mul np_add np_sub np_neg convert_to_native_type is_nan
         py_sub py_gt py_lt py_num f_ltb mbind result_bind].
    destruct (Qltb 0 (m + sd * 2 + - (m + - (sd * 2)))) eqn:Ew.
    + apply Qltb_lt in Ew. cbn [py_div mbind result_bind np_sub np_add np_neg].
      rewrite Qeq_bool_pos by exact Ew. cbn [mbind result_bind np_div].
      rewrite Qeq_bool_pos by exact Ew.
      destruct (Qltb (m + sd * 2) p); [| destruct (Qltb p (m + - (sd * 2)))];
        eexists; (split; [reflexivity|]); cbn [bb_signals]; tauto.
    + cbn [mbind result_bind].
      destruct (Qltb (m + sd * 2) p); [| destruct (Qltb p (m + - (sd * 2)))];
        eexists; (split; [reflexivity|]); cbn [bb_signals]; tauto.
  - reflexivity.
Qed.

(** *** Volume *)

Lemma zip_with_shifted_Fin (F : fval -> fval -> fval) (G : Q -> Q -> Q)
    (ok : Q -> Prop) :
  (forall a b, ok a -> F (Fin a) (Fin b) = Fin (G a b)) ->
  forall s s' : list Q,
    Forall ok s ->
    zip_with F (map Fin s) (map Fin s') = map Fin (zip_with G s s').
Proof.
  intros HF s. induction s as [|a s IH]; intros [|b s'] Hall;
    try reflexivity.
  inversion Hall; subst. cbn [map zip_with].
  rewrite HF by assumption. f_equal. now apply IH.
Qed.

Lemma Qeq_bool_nonzero (x : Q) : ~ x == 0 -> Qeq_bool x 0 = false.
Proof.
  intros Hx. apply not_true_iff_false. now rewrite Qeq_bool_iff.
Qed.

(** With non-zero prices every percentage change after the first row
    is a number. *)
Lemma pct_change_Fin (qs : list Q) :
  Forall (fun q => ~ q == 0) qs ->
  pct_change (map Fin qs)
  = match qs with
    | [] => []
    | _ :: qs' =>
        NaN :: map Fin (zip_with (fun prev cur => cur / prev + - 1) qs qs')
    end.
Proof.
  intros Hall. destruct qs as [|x qs]; [reflexivity|].
  cbn [pct_change map]. f_equal.
  change (Fin x :: map Fin qs) with (map Fin (x :: qs)).
  apply (zip_with_shifted_Fin _ _ (fun q => ~ q == 0)); [| exact Hall].
  intros a b Ha. cbn [np_div]. rewrite Qeq_bool_nonzero by exact Ha.
  reflexivity.
Qed.

Lemma volume_outcome (df : list PriceBar) :
  df <> [] ->
  if (20 <=? length df)%nat
  then Forall (fun bar => ~ close bar == 0) df ->
       exists va,
         analyze_volume df = Ok va /\
         current_volume va
         = option_map (fun bar => Fin (volume bar)) (last df)
  else analyze_volume df = Raise TypeError.
Proof.
  intros Hne.
  assert (Hvs : map volume df <> [])
    by (destruct df; [contradiction | discriminate]).
  destruct (last_nonempty (map volume df) Hvs) as (v & Hv).
  pose proof (rolling_mean_Fin 20 (map volume df) Hvs ltac:(lia)) as Havg.
  rewrite length_map in Havg.
  unfold analyze_volume, iloc_last.
  rewrite !column_Fin, Havg, last_Fin, Hv.
  cbn [option_map mbind result_bind].
  destruct (20 <=? length df)%nat eqn:E; [| reflexivity].
  apply Nat.leb_le in E. intros Hclose.
  set (avg := mean_Q _). clearbody avg.
  destruct df as [|bar0 [|bar1 df]]; [contradiction | simpl in E; lia |].
  assert (Hcs : Forall (fun q => ~ q == 0) (map close (bar0 :: bar1 :: df))).
  { apply List.Forall_forall. intros q Hq.
    apply in_map_iff in Hq as (bar & <- & Hbar).
    exact (proj1 (List.Forall_forall _ _) Hclose bar Hbar). }
  rewrite (pct_change_Fin _ Hcs). cbn [map].
  set (changes := zip_with _ _ _).
  assert (Hch : changes <> []) by (subst changes; discriminate).
  destruct (last_nonempty changes Hch) as (c & Hc).
  assert (Hlast : last (NaN :: map Fin changes) = Some (Fin c)).
  { destruct changes as [|c0 changes']; [contradiction|].
    cbn [map]. rewrite last_cons_cons.
    change (Fin c0 :: map Fin changes') with (map Fin (c0 :: changes')).
    now rewrite last_Fin, Hc. }
  rewrite Hlast.
  cbn [convert_to_native_type is_nan py_gt py_lt py_num f_ltb
       mbind result_bind].
  assert (Hvol : Some (Fin v)
                 = option_map (fun bar => Fin (volume bar))
                              (last (bar0 :: bar1 :: df))).
  { rewrite last_map in Hv.
    destruct (last (bar0 :: bar1 :: df)); [| discriminate].
    cbn [option_map] in Hv |- *. now injection Hv as <-. }
  destruct (Qltb 0 avg) eqn:Ea.
  - apply Qltb_lt in Ea. cbn [py_div].
    rewrite Qeq_bool_pos by exact Ea. cbn [mbind result_bind np_div].
    rewrite Qeq_bool_pos by exact Ea.
    cbn [py_gt py_lt py_num f_ltb mbind result_bind].
    destruct (Qltb (15 # 10) (v / avg));
      [destruct (Qltb 0 c) | destruct (Qltb (v / avg) (5 # 10))];
      eexists; (split; [reflexivity | exact Hvol]).
  - cbn [py_gt py_lt py_num f_ltb mbind result_bind].
    change (Qltb (15 # 10) 1) with false. cbn iota.
    cbn [py_gt py_lt py_num f_ltb mbind result_bind].
    change (Qltb 1 (5 # 10)) with false. cbn [mbind result_bind].
    eexists; (split; [reflexivity | exact Hvol]).
Qed.

(** *** Support and resistance *)

Lemma series_max_Fin (qs : list Q) :
  qs <> [] -> exists m, series_max (map Fin qs) = Fin m.
Proof.
  intros Hne. destruct qs as [|q qs]; [contradiction|].
  unfold series_max. cbn [map fold_left is_nan].
  generalize q. clear. induction qs as [|x qs IH]; intros q; cbn; [eauto|].
  destruct (Qltb q x); apply IH.
Qed.

Lemma series_min_Fin (qs : list Q) :
  qs <> [] -> exists m, series_min (map Fin qs) = Fin m.
Proof.
  intros Hne. destruct qs as [|q qs]; [contradiction|].
  unfold series_min. cbn [map fold_left is_nan].
  generalize q. clear. induction qs as [|x qs IH]; intros q; cbn; [eauto|].
  destruct (Qltb x q); apply IH.
Qed.

Lemma tail_nonempty {A : Type} (n : nat) (l : list A) :
  l <> [] -> (0 < n)%nat -> tail n l <> [].
Proof.
  intros Hne Hn Hnil. apply (f_equal length) in Hnil.
  unfold tail in Hnil. rewrite length_drop in Hnil.
  destruct l; [contradiction|]. simpl in Hnil. lia.
Qed.

Lemma support_resistance_outcome (df : list PriceBar) (bar : PriceBar) :
  last df = Some bar ->
  if Qeq_bool (close bar) 0
  then find_support_resistance df = Raise ZeroDivisionError
  else exists sr,
      find_support_resistance df = Ok sr /\
      sr_current_price sr = py_num (close bar).
Proof.
  intros Hlast.
  assert (Hne : df <> []) by (intros ->; discriminate).
  assert (Hhs : tail 20 (map high df) <> []).
  { apply tail_nonempty; [| lia]. destruct df; [contradiction | discriminate]. }
  assert (Hls : tail 20 (map low df) <> []).
  { apply tail_nonempty; [| lia]. destruct df; [contradiction | discriminate]. }
  destruct (series_max_Fin _ Hhs) as (h & Hh).
  destruct (series_min_Fin _ Hls) as (l & Hl).
  unfold find_support_resistance, iloc_last.
  rewrite !column_Fin, !(tail_map Fin), Hh, Hl, last_Fin, last_map, Hlast.
  cbn [option_map mbind result_bind convert_to_native_type is_nan py_sub
       py_div np_sub np_add np_neg].
  destruct (Qeq_bool (close bar) 0) eqn:E; [reflexivity|].
  cbn [mbind result_bind py_div np_div]. rewrite !E.
  cbn [mbind result_bind py_mul py_num np_mul py_lt f_ltb].
  eexists. split; reflexivity.
Qed.

End Indicators.

(** *** Exponential and simple moving averages *)

Lemma np_div_Fin_pos (a b : Q) : 0 < b -> np_div (Fin a) (Fin b) = Fin (a / b).
Proof.
  intros Hb. cbn [np_div]. now rewrite Qeq_bool_pos.
Qed.

(** On finite values, with a decay in [0,1), every exponentially
    weighted mean is a number. *)
Lemma ewm_fold_Fin (decay : Q) (qs : list Q) :
  0 <= decay ->
  forall (num den : Q) (out : list Q),
    0 <= den ->
    exists num' den' out',
      fold_left
        (fun (st : fval * fval * Series) (x : fval) =>
           let '(num, den, out) := st in
           let num := np_add x (np_mul (Fin decay) num) in
           let den := np_add (Fin 1) (np_mul (Fin decay) den) in
           (num, den, out ++ [np_div num den]))
        (map Fin qs) (Fin num, Fin den, map Fin out)
      = (Fin num', Fin den', map Fin (out ++ out')) /\
      length out' = length qs.
Proof.
  intros Hdecay. induction qs as [|q qs IH]; intros num den out Hden.
  - exists num, den, []. rewrite app_nil_r. split; reflexivity.
  - cbn [map fold_left].
    change (np_add (Fin q) (np_mul (Fin decay) (Fin num)))
      with (Fin (q + decay * num)).
    change (np_add (Fin 1) (np_mul (Fin decay) (Fin den)))
      with (Fin (1 + decay * den)).
    assert (Hpos : 0 < 1 + decay * den) by nra.
    rewrite (np_div_Fin_pos (q + decay * num) (1 + decay * den) Hpos).
    change (map Fin out ++ [Fin ((q + decay * num) / (1 + decay * den))])
      with (map Fin out ++ map Fin [(q + decay * num) / (1 + decay * den)]).
    rewrite <- map_app.
    destruct (IH (q + decay * num) (1 + decay * den)
                 (out ++ [(q + decay * num) / (1 + decay * den)]))
      as (num' & den' & out' & Heq & Hlen); [lra|].
    exists num', den', ((q + decay * num) / (1 + decay * den) :: out').
    split; [| simpl; lia].
    etransitivity; [exact Heq|]. now rewrite <- app_assoc.
Qed.

Lemma ewm_mean_Fin (span : Z) (qs : list Q) :
  0 <= 1 - 2 / (inject_Z span + 1) ->
  exists rs, ewm_mean span (map Fin qs) = map Fin rs /\
             length rs = length qs.
Proof.
  intros Hdecay. unfold ewm_mean.
  destruct (ewm_fold_Fin _ qs Hdecay 0 0 [] ltac:(lra))
    as (num' & den' & out' & Heq & Hlen).
  exists out'. split; [| exact Hlen]. exact (f_equal snd Heq).
Qed.

Lemma length_ewm_mean (span : Z) (s : Series) :
  length (ewm_mean span s) = length s.
Proof.
  unfold ewm_mean.
  set (step := fun (st : fval * fval * Series) (x : fval) => _).
  assert (H : forall st,
             length (snd (fold_left step s st)) = (length (snd st) + length s)%nat).
  { induction s as [|x s IH]; intros [[num den] out]; cbn [fold_left].
    - simpl. lia.
    - rewrite IH. subst step. cbn [snd]. rewrite length_app. simpl. lia. }
  rewrite H. reflexivity.
Qed.

Lemma moving_averages_outcome (df : list PriceBar) :
  df <> [] ->
  exists ma,
    calculate_moving_averages df = Ok ma /\
    sma_20 ma = (if (20 <=? length df)%nat
                 then Some (Fin (mean_Q (tail 20 (map close df)))) else None) /\
    sma_50 ma = (if (50 <=? length df)%nat
                 then Some (Fin (mean_Q (tail 50 (map close df)))) else None) /\
    sma_200 ma = (if (200 <=? length df)%nat
                  then Some (Fin (mean_Q (tail 200 (map close df)))) else None) /\
    ((length df < 20)%nat -> ma_signals ma = []) /\
    ((length df < 200)%nat -> (length (ma_signals ma) <= 1)%nat) /\
    ((length df < 200)%nat ->
     forall signal, In signal (ma_signals ma) ->
       signal = "Price above 20-day SMA (bullish)"%string \/
       signal = "Price below 20-day SMA (bearish)"%string).
Proof.
  intros Hne.
  assert (Hcs : map close df <> [])
    by (destruct df; [contradiction | discriminate]).
  destruct (last_nonempty (map close df) Hcs) as (p & Hp).
  assert (Hex : forall span, exists e,
               last (ewm_mean span (column close df)) = Some e).
  { intros span. apply last_nonempty. intros Hnil.
    apply (f_equal length) in Hnil.
    rewrite length_ewm_mean in Hnil. unfold column in Hnil.
    rewrite length_map in Hnil. destruct df; [contradiction | discriminate]. }
  destruct (Hex 12%Z) as (e12 & He12). destruct (Hex 26%Z) as (e26 & He26).
  unfold calculate_moving_averages, iloc_last. rewrite He12, He26.
  rewrite !column_Fin, !rolling_mean_Fin, last_Fin, Hp, !length_map
    by (assumption || lia).
  cbn [option_map mbind result_bind].
  destruct (Nat.leb_spec 20 (length df)) as [H20 | H20];
    destruct (Nat.leb_spec 50 (length df)) as [H50 | H50];
    destruct (Nat.leb_spec 200 (length df)) as [H200 | H200];
    try (exfalso; lia);
    cbn [convert_to_native_type is_nan py_truthy andb negb];
    repeat match goal with
           | |- context [Qeq_bool ?a 0] => destruct (Qeq_bool a 0); cbn [negb andb]
           end;
    cbn [py_gt py_lt f_ltb mbind result_bind];
    repeat match goal with
           | |- context [Qltb ?a ?b] => destruct (Qltb a b); cbn [mbind result_bind]
           end;
    eexists; (split; [reflexivity|]);
    cbn [sma_20 sma_50 sma_200 ma_signals];
    repeat split; intros; try reflexivity; try (exfalso; lia);
    try (simpl; lia);
    match goal with
    | H : In _ _ |- _ => simpl in H; intuition (subst; auto)
    end.
Qed.

(** *** MACD *)

Lemma zip_with_sub_Fin (a b : list Q) :
  zip_with np_sub (map Fin a) (map Fin b)
  = map Fin (zip_with (fun x y => x + - y) a b).
Proof.
  apply (zip_with_shifted_Fin _ _ (fun _ => True)).
  - reflexivity.
  - apply List.Forall_forall. auto.
Qed.

Lemma iloc_neg_Fin (i : nat) (qs : list Q) :
  (1 <= i <= length qs)%nat ->
  exists q, iloc_neg i (map Fin qs) = Ok (Fin q).
Proof.
  intros [Hi Hlen]. unfold iloc_neg. rewrite length_map.
  destruct (Nat.leb_spec i (length qs)); [| lia].
  rewrite list_lookup_fmap.
  destruct (lookup_lt_is_Some_2 qs (length qs - i)) as (q & ->); [lia|].
  exists q. reflexivity.
Qed.

Lemma macd_outcome (df : list PriceBar) :
  df <> [] ->
  exists m a b c,
    calculate_macd df = Ok m /\
    macd_line m = Some (Fin a) /\
    signal_line m = Some (Fin b) /\
    histogram m = Some (Fin c) /\
    exists line momentum,
      macd_signals m
      = line :: (if (1 <? length df)%nat then [momentum] else []) /\
      (line = "MACD above signal line (bullish)"%string \/
       line = "MACD below signal line (bearish)"%string) /\
      (momentum = "MACD histogram increasing (momentum building)"%string \/
       momentum = "MACD histogram decreasing (momentum weakening)"%string).
Proof.
  intros Hne. unfold calculate_macd. rewrite column_Fin.
  destruct (ewm_mean_Fin 12 (map close df)) as (e12 & -> & H12);
    [vm_compute; discriminate|].
  destruct (ewm_mean_Fin 26 (map close df)) as (e26 & -> & H26);
    [vm_compute; discriminate|].
  rewrite zip_with_sub_Fin.
  set (ml := zip_with (fun x y => x + - y) e12 e26).
  assert (Hml : length ml = length df).
  { subst ml. rewrite length_zip_with, H12, H26, length_map. lia. }
  destruct (ewm_mean_Fin 9 ml) as (sg & -> & Hsg);
    [vm_compute; discriminate|].
  rewrite zip_with_sub_Fin.
  set (hs := zip_with (fun x y => x + - y) ml sg).
  assert (Hhs : length hs = length df).
  { subst hs. rewrite length_zip_with, Hsg, Hml. lia. }
  assert (Hlen : (0 < length df)%nat)
    by (destruct df; [contradiction | simpl; lia]).
  assert (Hlast : forall l : list Q, length l = length df ->
                    exists x, last l = Some x).
  { intros l Hl. apply last_nonempty. intros ->. simpl in Hl. lia. }
  destruct (Hlast ml Hml) as (m & Hm).
  destruct (Hlast sg ltac:(lia)) as (s & Hs).
  destruct (Hlast hs Hhs) as (h & Hh).
  unfold iloc_last. rewrite !last_Fin, Hm, Hs, Hh, length_map, Hhs.
  cbn [option_map mbind result_bind convert_to_native_type is_nan
       py_gt py_lt f_ltb].
  destruct (Nat.ltb_spec 1 (length df)) as [H1 | H1].
  - destruct (iloc_neg_Fin 2 hs ltac:(lia)) as (prev & ->).
    cbn [mbind result_bind convert_to_native_type is_nan py_gt py_lt f_ltb].
    destruct (Qltb s m), (Qltb prev h);
      do 4 eexists; (split; [reflexivity|]);
      (split; [reflexivity|]); (split; [reflexivity|]); (split; [reflexivity|]);
      do 2 eexists; (split; [reflexivity|]); split; auto.
  - cbn [mbind result_bind].
    destruct (Qltb s m);
      do 4 eexists; (split; [reflexivity|]);
      (split; [reflexivity|]); (split; [reflexivity|]); (split; [reflexivity|]);
      eexists; exists "MACD histogram increasing (momentum building)"%string;
      (split; [reflexivity|]); split; auto.
Qed.

(** *** RSI *)

Lemma rsi_outcome (df : list PriceBar) :
  df <> [] ->
  (exists r, calculate_rsi df = Ok r) \/ calculate_rsi df = Raise TypeError.
Proof.
  intros Hne. pose proof (last_rsi_value df Hne) as Hlast.
  destruct (14 <=? length df)%nat.
  - destruct (Qeq_dec (avg_gain (map close df)) 0) as [Hg | Hg];
      [destruct (Qeq_dec (avg_loss (map close df)) 0) as [Hl | Hl]|].
    + right. apply calculate_rsi_nan.
      now rewrite Hlast, rsi_of_undefined.
    + left.
      destruct (rsi_of_defined _ _ (avg_gain_nonneg (map close df))
                  (avg_loss_nonneg (map close df))) as (r & Hr & _);
        [tauto|].
      rewrite Hr in Hlast.
      destruct (calculate_rsi_number df r Hlast) as (res & Hres & _). eauto.
    + left.
      destruct (rsi_of_defined _ _ (avg_gain_nonneg (map close df))
                  (avg_loss_nonneg (map close df))) as (r & Hr & _);
        [tauto|].
      rewrite Hr in Hlast.
      destruct (calculate_rsi_number df r Hlast) as (res & Hres & _). eauto.
  - right. now apply calculate_rsi_nan.
Qed.

(** ** The analysis of a stock *)

Lemma short_history_outcome (np_sqrt : Q -> Q) (df : list PriceBar)
    (price : pyval) :
  (length df < 20)%nat ->
  analyze_stock np_sqrt (StockOk df price)
  = if (length df =? 0)%nat then TechError NoHistoricalData
    else TechError (AnalysisFailed TypeError).
Proof.
  intros Hshort. unfold analyze_stock.
  destruct (Nat.eqb_spec (length df) 0) as [H0 | H0]; [reflexivity|].
  assert (Hne : df <> []) by (intros ->; contradiction).
  destruct (moving_averages_outcome df Hne) as (ma & -> & _).
  destruct (macd_outcome df Hne) as (m & ? & ? & ? & Hm & _).
  pose proof (bollinger_outcome np_sqrt df Hne) as Hbb.
  destruct (Nat.leb_spec 20 (length df)); [lia|].
  cbn [mbind result_bind].
  destruct (rsi_outcome df Hne) as [(r & ->) | ->]; [| reflexivity].
  cbn [mbind result_bind]. rewrite Hm. cbn [mbind result_bind].
  rewrite Hbb. reflexivity.
Qed.

(** A report is made of the six indicators and of the signals drawn
    from them, on a history of at least 20 bars. *)
Lemma analysis_report_shape (np_sqrt : Q -> Q) (stock_data : StockData)
    (price : pyval) (indicators : Indicators) (ts : TradingSignals) :
  analyze_stock np_sqrt stock_data = TechReport price indicators ts ->
  exists df p,
    stock_data = StockOk df p /\
    (20 <= length df)%nat /\
    price = (x ← p; convert_to_native_type x) /\
    ts = generate_signals indicators.
Proof.
  intros Hrep. destruct stock_data as [msg | df p]; [discriminate|].
  exists df, p. split; [reflexivity|].
  destruct (Nat.leb_spec 20 (length df)) as [Hlen | Hlen].
  - split; [exact Hlen|]. revert Hrep. unfold analyze_stock.
    destruct (length df =? 0)%nat; [discriminate|].
    destruct (calculate_moving_averages df); cbn [mbind result_bind];
      [| discriminate].
    destruct (calculate_rsi df); cbn [mbind result_bind]; [| discriminate].
    destruct (calculate_macd df); cbn [mbind result_bind]; [| discriminate].
    destruct (calculate_bollinger_bands np_sqrt df);
      cbn [mbind result_bind]; [| discriminate].
    destruct (find_support_resistance df); cbn [mbind result_bind];
      [| discriminate].
    destruct (analyze_volume df); cbn [mbind result_bind]; [| discriminate].
    intros [= <- <- <-]. split; reflexivity.
  - exfalso. rewrite (short_history_outcome np_sqrt df p Hlen) in Hrep.
    destruct (length df =? 0)%nat; discriminate.
Qed.

(** X21. [analyze_stock] on 1 to 19 bars always ends in the error dict of a
    caught TypeError (the Bollinger bands are absent and are used
    without a guard), and on no bar in "No historical data available".
    A report is returned only for at least 20 bars, and its trading
    signals are those of its own indicators. *)
Theorem short_history_fails (np_sqrt : Q -> Q) (df : list PriceBar)
    (price : pyval) :
  ((0 < length df < 20)%nat ->
   analyze_stock np_sqrt (StockOk df price)
   = TechError (AnalysisFailed TypeError)) /\
  (length df = 0%nat ->
   analyze_stock np_sqrt (StockOk df price) = TechError NoHistoricalData) /\
  (forall p indicators ts,
      analyze_stock np_sqrt (StockOk df price) = TechReport p indicators ts ->
      (20 <= length df)%nat /\ ts = generate_signals indicators).
Proof.
  split; [| split].
  - intros [H0 H20]. rewrite (short_history_outcome np_sqrt df price H20).
    destruct (Nat.eqb_spec (length df) 0); [lia | reflexivity].
  - intros H0. rewrite (short_history_outcome np_sqrt df price) by lia.
    now rewrite H0.
  - intros p indicators ts Hrep.
    destruct (analysis_report_shape np_sqrt _ _ _ _ Hrep)
      as (df' & p' & [= <- <-] & Hlen & _ & Hts).
    split; assumption.
Qed.

(** X22. [perform_technical_analysis] holds, for each requested symbol, the
    analysis of what the data tool returned for it, and nothing for
    other symbols.  An upstream error is passed on; a report means the
    tool returned at least 20 bars, and it carries the signals of its
    own indicators with a confidence in [1/2,1]. *)
Theorem technical_analysis_reports (np_sqrt : Q -> Q)
    (get_stock_data : string -> StockData) (symbols : list string)
    (symbol : string) :
  let technical_analysis :=
    perform_technical_analysis np_sqrt get_stock_data symbols in
  (technical_analysis !! symbol
   = if decide (symbol ∈ symbols)
     then Some (analyze_stock np_sqrt (get_stock_data symbol)) else None) /\
  (forall msg,
      symbol ∈ symbols -> get_stock_data symbol = StockError msg ->
      technical_analysis !! symbol = Some (TechError (UpstreamError msg))) /\
  (forall price indicators ts,
      technical_analysis !! symbol = Some (TechReport price indicators ts) ->
      exists df p,
        get_stock_data symbol = StockOk df p /\
        (20 <= length df)%nat /\
        ts = generate_signals indicators /\
        1 # 2 <= ts_confidence ts <= 1).
Proof.
  intros technical_analysis. subst technical_analysis.
  unfold perform_technical_analysis.
  rewrite (fold_insert_lookup
             (fun k => analyze_stock np_sqrt (get_stock_data k))),
    lookup_empty.
  split; [reflexivity|]. split.
  - intros msg Hin Hget. rewrite decide_True by exact Hin.
    now rewrite Hget.
  - intros price indicators ts.
    destruct (decide (symbol ∈ symbols)); [| discriminate].
    intros [= Hrep].
    destruct (analysis_report_shape np_sqrt _ _ _ _ Hrep)
      as (df & p & Hget & Hlen & _ & Hts).
    exists df, p. repeat (split; [assumption|]).
    rewrite Hts.
    pose proof (signals_by_majority indicators) as H. cbv zeta in H.
    set (ts' := generate_signals indicators) in *. clearbody ts'.
    destruct H as [(_ & _ & _ & ?) | [(_ & _ & _ & ?) | (_ & _ & ->)]];
      [split; lra | split; lra | split; discriminate].
Qed.

(** X23. On at least 20 bars with non-zero closing prices, and with a gain
    or a loss among the last 14 changes, [analyze_stock] returns a
    report: no indicator raises.  Its RSI is a number in [0,100] and
    its signals are drawn from its indicators, with a confidence in
    [1/2,1]. *)
Theorem long_history_succeeds (np_sqrt : Q -> Q) (df : list PriceBar)
    (price : pyval) :
  (20 <= length df)%nat ->
  Forall (fun bar => ~ close bar == 0) df ->
  ~ (avg_gain (map close df) == 0 /\ avg_loss (map close df) == 0) ->
  exists indicators,
    analyze_stock np_sqrt (StockOk df price)
    = TechReport (x ← price; convert_to_native_type x) indicators
                 (generate_signals indicators) /\
    (exists r, current_rsi (rsi indicators) = Some (Fin r) /\ 0 <= r <= 100) /\
    1 # 2 <= ts_confidence (generate_signals indicators) <= 1.
Proof.
  intros Hlen Hclose Hrsi. unfold analyze_stock.
  assert (Hne : df <> []) by (intros ->; simpl in Hlen; lia).
  destruct (Nat.eqb_spec (length df) 0) as [H0 | _]; [lia|].
  destruct (moving_averages_outcome df Hne) as (ma & -> & _).
  destruct (macd_outcome df Hne) as (m & ? & ? & ? & -> & _).
  pose proof (bollinger_outcome np_sqrt df Hne) as Hbb.
  pose proof (volume_outcome df Hne) as Hvol.
  destruct (Nat.leb_spec 20 (length df)); [| lia].
  destruct Hbb as (bb & Hbb & _). destruct (Hvol Hclose) as (va & -> & _).
  destruct (last_nonempty df Hne) as (bar & Hbar).
  pose proof (support_resistance_outcome df bar Hbar) as Hsr.
  rewrite Qeq_bool_nonzero in Hsr.
  2:{ apply (proj1 (List.Forall_forall _ _) Hclose bar).
      rewrite <- (take_drop (length df - 1) df).
      apply in_or_app. right.
      clear -Hbar. revert Hbar.
      induction df as [|x [|y df] IH]; [discriminate | |].
      - intros [= ->]. now left.
      - rewrite last_cons_cons. intros H.
        replace (length (x :: y :: df) - 1)%nat with (S (length (y :: df) - 1))
          by (simpl; lia).
        cbn [drop]. apply IH, H. }
  destruct Hsr as (sr & -> & Hprice).
  assert (Hlast : exists r, last_rsi df = Ok (Fin r) /\ 0 <= r <= 100).
  { rewrite (last_rsi_value df Hne).
    destruct (Nat.leb_spec 14 (length df)); [| lia].
    destruct (rsi_of_defined _ _ (avg_gain_nonneg (map close df))
                (avg_loss_nonneg (map close df)) Hrsi) as (r & -> & Hr & _).
    eauto. }
  destruct Hlast as (r & Hlast & Hr).
  destruct (calculate_rsi_number df r Hlast) as (res & -> & Hcur).
  rewrite Hbb. cbn [mbind result_bind].
  eexists. split; [reflexivity|].
  cbn [rsi support_resistance bollinger_bands].
  split; [eauto|].
  match goal with |- context [generate_signals ?i] =>
    pose proof (signals_by_majority i) as H'; cbv zeta in H';
    set (ts := generate_signals i) in *; clearbody ts
  end.
  destruct H' as [(_ & _ & _ & ?) | [(_ & _ & _ & ?) | (_ & _ & ->)]];
    [split; lra | split; lra | split; discriminate].
Qed.

(** ** The indicators one by one *)

Lemma rising_bars_nonempty : rising_bars 21 <> [].
Proof. discriminate. Qed.

Lemma rising_bars_closes :
  Forall (fun bar => ~ close bar == 0) (rising_bars 21).
Proof.
  unfold rising_bars. apply List.Forall_forall. intros bar Hin.
  apply in_map_iff in Hin as (i & <- & _). cbn [close flat_bar].
  intros H. unfold Qeq in H. simpl in H. lia.
Qed.

(** X24. [calculate_bollinger_bands] raises a TypeError on fewer than 20
    bars and returns on 20 or more, whatever the prices are.  Its
    signal never counts as a bearish vote in [generate_signals]: both
    "above upper band (overbought)" and "below lower band (oversold)"
    count as bullish, through the words "above" and "oversold". *)
Theorem bollinger_needs_20_bars (np_sqrt : Q -> Q) (df : list PriceBar) :
  df <> [] ->
  ((length df < 20)%nat ->
   calculate_bollinger_bands np_sqrt df = Raise TypeError) /\
  ((20 <= length df)%nat ->
   exists bb,
     calculate_bollinger_bands np_sqrt df = Ok bb /\
     forall b s,
     exists b',
       fold_left tally (bb_signals bb) (b, s) = (b', s) /\
       (bb_signals bb
        <> ["Price within Bollinger Bands (normal range)"%string] ->
        b' = S b)).
Proof.
  intros Hne. pose proof (bollinger_outcome np_sqrt df Hne) as H.
  destruct (Nat.leb_spec 20 (length df)) as [Hlen | Hlen].
  - split; [lia|]. intros _.
    destruct H as (bb & Hbb & [Hs | [Hs | Hs]]);
      exists bb; (split; [exact Hbb|]); intros b s; rewrite Hs;
      eexists; (split; [vm_compute; reflexivity|]);
      intros Hneq; try reflexivity; contradiction.
  - split; [intros _; exact H | lia].
Qed.

Lemma bollinger_needs_20_bars_witness :
  exists bb,
    calculate_bollinger_bands sqrt_12 (rising_bars 21) = Ok bb /\
    forall b s,
    exists b',
      fold_left tally (bb_signals bb) (b, s) = (b', s) /\
      (bb_signals bb
       <> ["Price within Bollinger Bands (normal range)"%string] ->
       b' = S b).
Proof.
  apply (bollinger_needs_20_bars sqrt_12 (rising_bars 21) rising_bars_nonempty).
  vm_compute. lia.
Defined.

(** X25. [analyze_volume] raises a TypeError on fewer than 20 bars (the
    average volume is absent) and returns on 20 or more bars with
    non-zero closing prices; the current volume is that of the last
    bar. *)
Theorem volume_needs_20_bars (df : list PriceBar) :
  df <> [] ->
  ((length df < 20)%nat -> analyze_volume df = Raise TypeError) /\
  ((20 <= length df)%nat ->
   Forall (fun bar => ~ close bar == 0) df ->
   exists va,
     analyze_volume df = Ok va /\
     current_volume va = option_map (fun bar => Fin (volume bar)) (last df)).
Proof.
  intros Hne. pose proof (volume_outcome df Hne) as H.
  destruct (Nat.leb_spec 20 (length df)) as [Hlen | Hlen].
  - split; [lia|]. intros _ Hclose. exact (H Hclose).
  - split; [intros _; exact H | lia].
Qed.

Lemma volume_needs_20_bars_witness :
  exists va,
    analyze_volume (rising_bars 21) = Ok va /\
    current_volume va
    = option_map (fun bar => Fin (volume bar)) (last (rising_bars 21)).
Proof.
  apply (volume_needs_20_bars (rising_bars 21) rising_bars_nonempty).
  - vm_compute. lia.
  - exact rising_bars_closes.
Defined.

(** X26. [find_support_resistance] returns on every non-empty history whose
    last closing price is not zero, and raises ZeroDivisionError when
    it is zero. *)
Theorem support_resistance_zero_price (df : list PriceBar) (bar : PriceBar) :
  last df = Some bar ->
  (close bar == 0 -> find_support_resistance df = Raise ZeroDivisionError) /\
  (~ close bar == 0 ->
   exists sr,
     find_support_resistance df = Ok sr /\
     sr_current_price sr = py_num (close bar)).
Proof.
  intros Hlast. pose proof (support_resistance_outcome df bar Hlast) as H.
  destruct (Qeq_bool (close bar) 0) eqn:E.
  - apply Qeq_bool_iff in E. split; [intros _; exact H | intros Hnz; contradiction].
  - split; [| intros _; exact H].
    intros Hz. apply Qeq_bool_iff in Hz. congruence.
Qed.

Lemma support_resistance_zero_price_witness :
  find_support_resistance [flat_bar 0] = Raise ZeroDivisionError.
Proof.
  apply (support_resistance_zero_price [flat_bar 0] (flat_bar 0));
    reflexivity.
Defined.

(** X27. [calculate_moving_averages] returns on every non-empty history.
    The 20-, 50- and 200-day averages are absent exactly below 20, 50
    and 200 bars; below 20 bars there is no signal, and below 200 bars
    there is at most one signal, which is neither the golden nor the
    death cross: it is "Price above 20-day SMA (bullish)" or "Price
    below 20-day SMA (bearish)". *)
Theorem moving_averages_total (df : list PriceBar) :
  df <> [] ->
  exists ma,
    calculate_moving_averages df = Ok ma /\
    (sma_20 ma = None <-> (length df < 20)%nat) /\
    (sma_50 ma = None <-> (length df < 50)%nat) /\
    (sma_200 ma = None <-> (length df < 200)%nat) /\
    ((length df < 20)%nat -> ma_signals ma = []) /\
    ((length df < 200)%nat -> (length (ma_signals ma) <= 1)%nat) /\
    ((length df < 200)%nat ->
     ~ In "Golden Cross: 50-day SMA above 200-day SMA (bullish)"%string
          (ma_signals ma) /\
     ~ In "Death Cross: 50-day SMA below 200-day SMA (bearish)"%string
          (ma_signals ma)) /\
    ((length df < 200)%nat ->
     forall signal, In signal (ma_signals ma) ->
       signal = "Price above 20-day SMA (bullish)"%string \/
       signal = "Price below 20-day SMA (bearish)"%string).
Proof.
  intros Hne.
  destruct (moving_averages_outcome df Hne)
    as (ma & Hma & H20 & H50 & H200 & Hsig & Hcount & Hcross).
  exists ma. split; [exact Hma|].
  rewrite H20, H50, H200.
  assert (Hno : (length df < 200)%nat ->
                ~ In "Golden Cross: 50-day SMA above 200-day SMA (bullish)"%string
                     (ma_signals ma) /\
                ~ In "Death Cross: 50-day SMA below 200-day SMA (bearish)"%string
                     (ma_signals ma)).
  { intros Hlt. split; intros Hin;
      destruct (Hcross Hlt _ Hin) as [Heq | Heq]; discriminate Heq. }
  destruct (Nat.leb_spec 20 (length df));
    destruct (Nat.leb_spec 50 (length df));
    destruct (Nat.leb_spec 200 (length df));
    repeat split; intros; try discriminate; try lia; auto;
    try (apply Hno; assumption).
Qed.

Lemma moving_averages_total_witness :
  exists ma,
    calculate_moving_averages (rising_bars 21) = Ok ma /\
    (sma_20 ma = None <-> (length (rising_bars 21) < 20)%nat) /\
    (sma_50 ma = None <-> (length (rising_bars 21) < 50)%nat) /\
    (sma_200 ma = None <-> (length (rising_bars 21) < 200)%nat) /\
    ((length (rising_bars 21) < 20)%nat -> ma_signals ma = []) /\
    ((length (rising_bars 21) < 200)%nat -> (length (ma_signals ma) <= 1)%nat) /\
    ((length (rising_bars 21) < 200)%nat ->
     ~ In "Golden Cross: 50-day SMA above 200-day SMA (bullish)"%string
          (ma_signals ma) /\
     ~ In "Death Cross: 50-day SMA below 200-day SMA (bearish)"%string
          (ma_signals ma)) /\
    ((length (rising_bars 21) < 200)%nat ->
     forall signal, In signal (ma_signals ma) ->
       signal = "Price above 20-day SMA (bullish)"%string \/
       signal = "Price below 20-day SMA (bearish)"%string).
Proof.
  apply (moving_averages_total (rising_bars 21)). exact rising_bars_nonempty.
Defined.

(** X28. [calculate_macd] returns on every non-empty history, with numbers
    for the line, the signal line and the histogram.  It emits one
    signal on a single bar and two otherwise, and each of them casts a
    vote in [generate_signals]. *)
Theorem macd_total (df : list PriceBar) :
  df <> [] ->
  exists m a b c,
    calculate_macd df = Ok m /\
    macd_line m = Some (Fin a) /\
    signal_line m = Some (Fin b) /\
    histogram m = Some (Fin c) /\
    length (macd_signals m) = (if (1 <? length df)%nat then 2 else 1)%nat /\
    forall bullish bearish,
      let counts := fold_left tally (macd_signals m) (bullish, bearish) in
      (fst counts + snd counts
       = bullish + bearish + length (macd_signals m))%nat.
Proof.
  intros Hne.
  destruct (macd_outcome df Hne)
    as (m & a & b & c & Hm & Ha & Hb & Hc & line & momentum & Hs & Hl & Hmo).
  exists m, a, b, c. repeat (split; [assumption|]).
  rewrite Hs. clear Hs.
  destruct (1 <? length df)%nat; (split; [reflexivity|]);
    intros bullish bearish;
    destruct Hl as [-> | ->]; try destruct Hmo as [-> | ->];
    cbv zeta;
    match goal with
    | |- context [fold_left tally ?l ?acc] =>
        let r := eval vm_compute in (fold_left tally l acc) in
        change (fold_left tally l acc) with r
    end;
    cbn [fst snd length]; lia.
Qed.

Lemma macd_total_witness :
  exists m a b c,
    calculate_macd flat_bars = Ok m /\
    macd_line m = Some (Fin a) /\
    signal_line m = Some (Fin b) /\
    histogram m = Some (Fin c) /\
    length (macd_signals m) = (if (1 <? length flat_bars)%nat then 2 else 1)%nat /\
    forall bullish bearish,
      let counts := fold_left tally (macd_signals m) (bullish, bearish) in
      (fst counts + snd counts
       = bullish + bearish + length (macd_signals m))%nat.
Proof.
  apply (macd_total flat_bars). discriminate.
Defined.

Lemma long_history_succeeds_witness :
  exists indicators,
    analyze_stock sqrt_12 (StockOk (rising_bars 21) (py_num 120))
    = TechReport (x ← py_num 120; convert_to_native_type x) indicators
                 (generate_signals indicators) /\
    (exists r, current_rsi (rsi indicators) = Some (Fin r) /\ 0 <= r <= 100) /\
    1 # 2 <= ts_confidence (generate_signals indicators) <= 1.
Proof.
  apply (long_history_succeeds sqrt_12 (rising_bars 21) (py_num 120)).
  - vm_compute. lia.
  - exact rising_bars_closes.
  - vm_compute. intros [H _]. discriminate H.
Defined.

(** ** Market trend on a list of entries *)

Lemma market_trend_on_list_witness :
  exists analysis,
    analyze_market_trends
      {| market_indices := IndicesList sample_indices;
         sector_performance := [] |}
    = MarketSuccess analysis /\
    market_trend analysis = "bullish"%string.
Proof.
  destruct (market_trend_on_list sample_indices [])
    as (analysis & Heq & Hbull & _).
  - discriminate.
  - repeat constructor.
  - exists analysis. split; [exact Heq|]. apply Hbull. reflexivity.
Defined.

Lemma short_history_fails_witness :
  analyze_stock sqrt_12 (StockOk flat_bars (py_num 100))
  = TechError (AnalysisFailed TypeError).
Proof.
  apply (short_history_fails sqrt_12 flat_bars (py_num 100)).
  vm_compute. lia.
Defined.

(** ** RSI: where the code raises *)

(** C3 fails on the code.  There is no division guard: with no gain
    and no loss in the last 14 changes the quotient is 0/0 = NaN, the
    current RSI becomes [None], and [calculate_rsi] raises a TypeError
    on comparing it with 70, where the claim promises a value in
    [0,100]; the same happens with fewer than 14 bars.  This is so on
    fifteen bars at one price, and on every such history
    [analyze_stock] ends in the error dict.  Wherever [calculate_rsi]
    returns, the RSI is a number in [0,100], and it is 100 exactly when
    the average loss is 0 and the average gain is positive. *)
Theorem rsi_undefined_raises :
  (avg_gain (map close flat_bars) == 0 /\
   avg_loss (map close flat_bars) == 0) /\
  last_rsi flat_bars = Ok NaN /\
  calculate_rsi flat_bars = Raise TypeError /\
  (forall (np_sqrt : Q -> Q) (df : list PriceBar) (price : pyval),
      df <> [] ->
      (length df < 14)%nat \/
      (avg_gain (map close df) == 0 /\ avg_loss (map close df) == 0) ->
      last_rsi df = Ok NaN /\
      calculate_rsi df = Raise TypeError /\
      analyze_stock np_sqrt (StockOk df price)
      = TechError (AnalysisFailed TypeError)) /\
  (forall (df : list PriceBar) (res : Rsi),
      calculate_rsi df = Ok res ->
      (14 <= length df)%nat /\
      ~ (avg_gain (map close df) == 0 /\ avg_loss (map close df) == 0) /\
      exists r,
        current_rsi res = Some (Fin r) /\
        0 <= r <= 100 /\
        (r == 100 <->
         avg_loss (map close df) == 0 /\ 0 < avg_gain (map close df))).
Proof.
  split; [split; vm_compute; reflexivity|].
  split; [vm_compute; reflexivity|].
  split; [vm_compute; reflexivity|].
  split.
  - intros np_sqrt df price Hne Hcase.
    assert (Hnan : last_rsi df = Ok NaN).
    { rewrite (last_rsi_value df Hne).
      destruct (Nat.leb_spec 14 (length df)) as [Hlen | Hlen]; [| reflexivity].
      destruct Hcase as [Hlt | [Hg Hl]]; [lia|].
      now rewrite rsi_of_undefined. }
    pose proof (calculate_rsi_nan df Hnan) as Hraise.
    split; [exact Hnan|]. split; [exact Hraise|].
    unfold analyze_stock.
    destruct (Nat.eqb_spec (length df) 0) as [H0 | _];
      [destruct df; [contradiction | discriminate]|].
    destruct (moving_averages_outcome df Hne) as (ma & -> & _).
    cbn [mbind result_bind]. rewrite Hraise. reflexivity.
  - intros df res Hres.
    assert (Hne : df <> []).
    { intros ->. vm_compute in Hres. discriminate Hres. }
    pose proof (last_rsi_value df Hne) as Hlast.
    destruct (Nat.leb_spec 14 (length df)) as [Hlen | Hlen].
    2:{ rewrite (calculate_rsi_nan df Hlast) in Hres. discriminate Hres. }
    split; [exact Hlen|].
    assert (Hnz : ~ (avg_gain (map close df) == 0 /\
                     avg_loss (map close df) == 0)).
    { intros [Hg Hl]. rewrite (rsi_of_undefined _ _ Hg Hl) in Hlast.
      rewrite (calculate_rsi_nan df Hlast) in Hres. discriminate Hres. }
    split; [exact Hnz|].
    destruct (rsi_of_defined _ _ (avg_gain_nonneg (map close df))
                (avg_loss_nonneg (map close df)) Hnz) as (r & Hr & Hb & Hiff).
    rewrite Hr in Hlast.
    destruct (calculate_rsi_number df r Hlast) as (res' & Hres' & Hcur).
    rewrite Hres in Hres'. injection Hres' as <-.
    exists r. split; [exact Hcur|]. split; [exact Hb | exact Hiff].
Qed.
